(** * Streaming chat-state reducer and message window of Lim-Code

    A shallow embedding of the stream-chunk handlers
    ([handleChunkType], [handleToolsExecuting], [handleToolStatus],
    [handleAwaitingConfirmation], [handleToolIteration], [handleComplete],
    [handleCheckpoints], [handleCancelled], [handleError]) and of the window
    manager ([syncTotalMessagesFromWindow], [setTotalMessagesFromWindow],
    [trimWindowFromTop]), with the properties the specification states
    about them.

    Conventions of the embedding.
    - An optional property ([tools?], [parts?], [metadata?], ...) is an
      [option]; [None] is a property the object does not carry.
    - Identifiers (message ids, tool-call ids) are opaque tokens, never the
      empty string; where the source tests an identifier for presence
      ([if (x)], [x && ...]) the embedding matches on [Some]/[None].
    - Truthiness of other strings and numbers is written out ([truthyStr],
      [truthyNum]): the empty string and zero are falsy.
    - [generateId()] and [Date.now()] are read from a [Clock] handed to the
      handler, one per call site. *)

From Stdlib Require Import ZArith Lia.
From stdpp Require Import base option list strings gmap.

(** ** Data model *)

Definition Id := string.

Inductive Role := User | Assistant.

#[global] Instance Role_eq_dec : EqDecision Role.
Proof. solve_decision. Defined.

(** Modelled from the spec: the declaration of the tool status type is not
    part of the sources at hand; the seven statuses are those of the data
    model. *)
Inductive ToolStatus :=
  | Streaming | Queued | Executing | AwaitingApproval | AwaitingApply
  | Success | Error.

#[global] Instance ToolStatus_eq_dec : EqDecision ToolStatus.
Proof. solve_decision. Defined.

(** The result object of a tool call: the handlers read its [cancelled] and
    [rejected] flags and carry the rest along. *)
Record ToolResult := mkToolResult {
  cancelled : bool;
  rejected : bool;
  payload : string }.

Record ToolUsage := mkToolUsage {
  tool_id : Id;
  tool_name : string;
  tool_status : ToolStatus;
  tool_result : option ToolResult }.

Record FunctionCall := mkFunctionCall {
  fc_name : string;
  fc_id : option Id }.

Record FunctionResponse := mkFunctionResponse {
  fr_name : string;
  fr_response : ToolResult;
  fr_id : option Id }.

Record ContentPart := mkContentPart {
  text : option string;
  thought : bool;
  functionCall : option FunctionCall;
  functionResponse : option FunctionResponse }.

Record UsageMetadata := mkUsageMetadata {
  u_thoughtsTokenCount : option Z;
  u_candidatesTokenCount : option Z;
  u_totalTokenCount : option Z }.

Record MessageMetadata := mkMessageMetadata {
  modelVersion : option string;
  thinkingStartTime : option Z;
  thinkingDuration : option Z;
  responseDuration : option Z;
  streamDuration : option Z;
  firstChunkTime : option Z;
  chunkCount : option Z;
  usageMetadata : option UsageMetadata;
  thoughtsTokenCount : option Z;
  candidatesTokenCount : option Z }.

Record Message := mkMessage {
  msg_id : Id;
  msg_role : Role;
  msg_content : string;
  msg_timestamp : Z;
  msg_parts : option (list ContentPart);
  msg_tools : option (list ToolUsage);
  msg_metadata : option MessageMetadata;
  msg_streaming : option bool;
  msg_localOnly : option bool;
  msg_isFunctionResponse : option bool }.

Record CheckpointRecord := mkCheckpointRecord {
  cp_id : string;
  cp_timestamp : Z;
  cp_toolName : string;
  cp_messageIndex : Z }.

Record StreamError := mkStreamError {
  err_code : string;
  err_message : string }.

(** The finalized backend payload ([chunk.content]): the handlers read its
    timing fields and hand the whole of it to [contentToMessage]. *)
Record Content := mkContent {
  c_parts : list ContentPart;
  c_thinkingDuration : option Z;
  c_responseDuration : option Z;
  c_streamDuration : option Z;
  c_firstChunkTime : option Z;
  c_chunkCount : option Z }.

(** [chunk.chunk] (the field [bchunk] of a [StreamChunk]), the backend's
    incremental chunk. *)
Record BackendStreamChunk := mkBackendStreamChunk {
  delta : option (list ContentPart);
  done : bool;
  usage : option UsageMetadata;
  bc_thinkingStartTime : option Z }.

Record ToolStatusUpdate := mkToolStatusUpdate {
  upd_id : Id;
  upd_status : ToolStatus;
  upd_result : option ToolResult }.

Record ToolResultEntry := mkToolResultEntry {
  tr_id : option Id;
  tr_name : string;
  tr_result : ToolResult }.

Record StreamChunk := mkStreamChunk {
  bchunk : option BackendStreamChunk;
  content : option Content;
  toolStatus : bool;
  tool : option ToolStatusUpdate;
  pendingToolCalls : option (list Id);
  toolResults : option (list ToolResultEntry);
  checkpoints : option (list CheckpointRecord);
  error : option StreamError }.

(** Modelled from the spec: the declaration of [ChatStoreState] is not part
    of the sources at hand; its fields are those of the data model, plus the
    buffer of inline tool-call text that the streaming-text helpers keep
    between chunks. Each [Ref] is the value it holds. *)
Record ChatStoreState := mkChatStoreState {
  allMessages : list Message;
  windowStartIndex : Z;
  totalMessages : Z;
  streamingMessageId : option Id;
  isStreaming : bool;
  isWaitingForResponse : bool;
  checkpointList : list CheckpointRecord;
  historyFolded : bool;
  foldedMessageCount : Z;
  stateError : option StreamError;
  toolCallBuffer : string }.

(** One call of [generateId()] together with the [Date.now()] next to it. *)
Record Clock := mkClock {
  nextId : Id;
  now : Z }.

(** ** Field updates *)

Definition setToolStatus (st : ToolStatus) (t : ToolUsage) : ToolUsage :=
  mkToolUsage (tool_id t) (tool_name t) st (tool_result t).

Definition setToolResult (r : option ToolResult) (t : ToolUsage) : ToolUsage :=
  mkToolUsage (tool_id t) (tool_name t) (tool_status t) r.

Definition setTools (ts : option (list ToolUsage)) (m : Message) : Message :=
  mkMessage (msg_id m) (msg_role m) (msg_content m) (msg_timestamp m)
    (msg_parts m) ts (msg_metadata m) (msg_streaming m) (msg_localOnly m)
    (msg_isFunctionResponse m).

Definition setParts (ps : option (list ContentPart)) (m : Message) : Message :=
  mkMessage (msg_id m) (msg_role m) (msg_content m) (msg_timestamp m)
    ps (msg_tools m) (msg_metadata m) (msg_streaming m) (msg_localOnly m)
    (msg_isFunctionResponse m).

Definition setMetadata (md : option MessageMetadata) (m : Message) : Message :=
  mkMessage (msg_id m) (msg_role m) (msg_content m) (msg_timestamp m)
    (msg_parts m) (msg_tools m) md (msg_streaming m) (msg_localOnly m)
    (msg_isFunctionResponse m).

Definition setStreaming (b : option bool) (m : Message) : Message :=
  mkMessage (msg_id m) (msg_role m) (msg_content m) (msg_timestamp m)
    (msg_parts m) (msg_tools m) (msg_metadata m) b (msg_localOnly m)
    (msg_isFunctionResponse m).

Definition setLocalOnly (b : option bool) (m : Message) : Message :=
  mkMessage (msg_id m) (msg_role m) (msg_content m) (msg_timestamp m)
    (msg_parts m) (msg_tools m) (msg_metadata m) (msg_streaming m) b
    (msg_isFunctionResponse m).

Definition setAllMessages (l : list Message) (s : ChatStoreState) : ChatStoreState :=
  mkChatStoreState l (windowStartIndex s) (totalMessages s)
    (streamingMessageId s) (isStreaming s) (isWaitingForResponse s)
    (checkpointList s) (historyFolded s) (foldedMessageCount s)
    (stateError s) (toolCallBuffer s).

Definition setStreamingMessageId (i : option Id) (s : ChatStoreState) : ChatStoreState :=
  mkChatStoreState (allMessages s) (windowStartIndex s) (totalMessages s)
    i (isStreaming s) (isWaitingForResponse s)
    (checkpointList s) (historyFolded s) (foldedMessageCount s)
    (stateError s) (toolCallBuffer s).

Definition setIsStreaming (b : bool) (s : ChatStoreState) : ChatStoreState :=
  mkChatStoreState (allMessages s) (windowStartIndex s) (totalMessages s)
    (streamingMessageId s) b (isWaitingForResponse s)
    (checkpointList s) (historyFolded s) (foldedMessageCount s)
    (stateError s) (toolCallBuffer s).

Definition setIsWaitingForResponse (b : bool) (s : ChatStoreState) : ChatStoreState :=
  mkChatStoreState (allMessages s) (windowStartIndex s) (totalMessages s)
    (streamingMessageId s) (isStreaming s) b
    (checkpointList s) (historyFolded s) (foldedMessageCount s)
    (stateError s) (toolCallBuffer s).

Definition setCheckpoints (l : list CheckpointRecord) (s : ChatStoreState) : ChatStoreState :=
  mkChatStoreState (allMessages s) (windowStartIndex s) (totalMessages s)
    (streamingMessageId s) (isStreaming s) (isWaitingForResponse s)
    l (historyFolded s) (foldedMessageCount s)
    (stateError s) (toolCallBuffer s).

Definition setStateError (e : option StreamError) (s : ChatStoreState) : ChatStoreState :=
  mkChatStoreState (allMessages s) (windowStartIndex s) (totalMessages s)
    (streamingMessageId s) (isStreaming s) (isWaitingForResponse s)
    (checkpointList s) (historyFolded s) (foldedMessageCount s)
    e (toolCallBuffer s).

Definition setToolCallBuffer (b : string) (s : ChatStoreState) : ChatStoreState :=
  mkChatStoreState (allMessages s) (windowStartIndex s) (totalMessages s)
    (streamingMessageId s) (isStreaming s) (isWaitingForResponse s)
    (checkpointList s) (historyFolded s) (foldedMessageCount s)
    (stateError s) b.

Definition setWindowStartIndex (z : Z) (s : ChatStoreState) : ChatStoreState :=
  mkChatStoreState (allMessages s) z (totalMessages s)
    (streamingMessageId s) (isStreaming s) (isWaitingForResponse s)
    (checkpointList s) (historyFolded s) (foldedMessageCount s)
    (stateError s) (toolCallBuffer s).

Definition setTotalMessages (z : Z) (s : ChatStoreState) : ChatStoreState :=
  mkChatStoreState (allMessages s) (windowStartIndex s) z
    (streamingMessageId s) (isStreaming s) (isWaitingForResponse s)
    (checkpointList s) (historyFolded s) (foldedMessageCount s)
    (stateError s) (toolCallBuffer s).

Definition setHistoryFolded (b : bool) (s : ChatStoreState) : ChatStoreState :=
  mkChatStoreState (allMessages s) (windowStartIndex s) (totalMessages s)
    (streamingMessageId s) (isStreaming s) (isWaitingForResponse s)
    (checkpointList s) b (foldedMessageCount s)
    (stateError s) (toolCallBuffer s).

Definition setFoldedMessageCount (z : Z) (s : ChatStoreState) : ChatStoreState :=
  mkChatStoreState (allMessages s) (windowStartIndex s) (totalMessages s)
    (streamingMessageId s) (isStreaming s) (isWaitingForResponse s)
    (checkpointList s) (historyFolded s) z
    (stateError s) (toolCallBuffer s).

(** ** JavaScript idioms *)

(** Truthiness of a string that may be absent: [undefined] and the empty
    string are falsy. *)
Definition truthyStr (o : option string) : bool :=
  match o with
  | Some s => negb (String.eqb s "")
  | None => false
  end.

(** Truthiness of a number that may be absent: [undefined] and [0] are
    falsy. *)
Definition truthyNum (o : option Z) : bool :=
  match o with
  | Some z => negb (Z.eqb z 0)
  | None => false
  end.

(** [b ?? a] and the right operand of an object spread: the value of [b]
    where it has one, that of [a] otherwise. *)
Definition orElse {A} (b a : option A) : option A :=
  match b with
  | Some x => Some x
  | None => a
  end.

(** [all.findIndex(m => m.id === sid)] with the element found; [sid] is
    [state.streamingMessageId.value], and no id equals [null]. *)
Definition findMessage (sid : option Id) (all : list Message) : option (nat * Message) :=
  match sid with
  | Some i => list_find (fun m => msg_id m = i) all
  | None => None
  end.

(** [[...all.slice(0, i), u, ...all.slice(i + 1)]] *)
Definition replaceAt (i : nat) (u : Message) (all : list Message) : list Message :=
  take i all ++ u :: drop (S i) all.

(** The loop [for (let i = all.length - 1; i >= 0; i--) if (P all[i]) {...; break}]:
    the greatest index whose element satisfies [P]. *)
Fixpoint findLast (P : Message -> bool) (all : list Message) : option (nat * Message) :=
  match all with
  | [] => None
  | m :: rest =>
      match findLast P rest with
      | Some (i, x) => Some (S i, x)
      | None => if P m then Some (0, m) else None
      end
  end.

(** ** Collaborators

    The message builder and the streaming-text helpers are imported by the
    handlers from modules that are not part of the sources at hand; the
    handlers are parametric in them. A helper that mutates the message it is
    given returns the message after the call. *)

(** Modelled from the spec: [contentToMessage(content, messageId)] returns a
    structured message for a payload; [addTextToMessage],
    [processStreamingText], [flushToolCallBuffer] and
    [handleFunctionCallPart] update the message they are given, the two
    that receive the store also the buffer of inline tool-call text. The
    first argument of [contentToMessage] is the value the call site passes:
    [chunk.content!] is [chunk.content], present or not. *)
Class Collaborators := {
  contentToMessage : option Content -> Id -> Message;
  addTextToMessage : Message -> string -> bool -> Message;
  processStreamingText : Message -> string -> string -> Message * string;
  flushToolCallBuffer : Message -> string -> Message * string;
  handleFunctionCallPart : ContentPart -> Message -> Message }.

(** Modelled from the spec: the callback [addCheckpoint] handed to the
    handlers records one checkpoint; it acts on the checkpoint list and on
    nothing else of the store. *)
Definition CheckpointSink := CheckpointRecord -> list CheckpointRecord -> list CheckpointRecord.

(** [for (const cp of chunk.checkpoints) addCheckpoint(cp)], guarded by
    [chunk.checkpoints && chunk.checkpoints.length > 0]. *)
Definition addCheckpoints (addCheckpoint : CheckpointSink)
    (cps : option (list CheckpointRecord)) (state : ChatStoreState) : ChatStoreState :=
  match cps with
  | Some l => setCheckpoints (fold_left (fun acc cp => addCheckpoint cp acc) l (checkpointList state)) state
  | None => state
  end.

(** ** Shared pieces of the handlers *)

(** [{ ...a, ...b }] on messages: [b]'s own properties win. *)
Definition spreadMessage (a b : Message) : Message :=
  mkMessage (msg_id b) (msg_role b) (msg_content b) (msg_timestamp b)
    (orElse (msg_parts b) (msg_parts a))
    (orElse (msg_tools b) (msg_tools a))
    (orElse (msg_metadata b) (msg_metadata a))
    (orElse (msg_streaming b) (msg_streaming a))
    (orElse (msg_localOnly b) (msg_localOnly a))
    (orElse (msg_isFunctionResponse b) (msg_isFunctionResponse a)).

Definition setModelVersion (v : option string) (md : MessageMetadata) : MessageMetadata :=
  mkMessageMetadata v (thinkingStartTime md) (thinkingDuration md)
    (responseDuration md) (streamDuration md) (firstChunkTime md)
    (chunkCount md) (usageMetadata md) (thoughtsTokenCount md)
    (candidatesTokenCount md).

Definition setThinkingStartTime (v : option Z) (md : MessageMetadata) : MessageMetadata :=
  mkMessageMetadata (modelVersion md) v (thinkingDuration md)
    (responseDuration md) (streamDuration md) (firstChunkTime md)
    (chunkCount md) (usageMetadata md) (thoughtsTokenCount md)
    (candidatesTokenCount md).

Definition emptyMetadata : MessageMetadata :=
  mkMessageMetadata None None None None None None None None None None.

(** [message.metadata?.modelVersion] *)
Definition existingModelVersionOf (m : Message) : option string :=
  match msg_metadata m with
  | Some md => modelVersion md
  | None => None
  end.

(** [if (existing) md.modelVersion = existing; delete md.thinkingStartTime] *)
Definition restoreMetadata (existing : option string) (md : MessageMetadata) : MessageMetadata :=
  setThinkingStartTime None
    (if truthyStr existing then setModelVersion existing md else md).

(** A JavaScript [Map] keyed by tool id, in insertion order: [set] on a key
    that is present replaces the value and keeps the key's place. *)
Fixpoint mapSet (k : Id) (v : ToolUsage) (m : list (Id * ToolUsage)) : list (Id * ToolUsage) :=
  match m with
  | [] => [(k, v)]
  | (k', v') :: rest =>
      if decide (k' = k) then (k, v) :: rest else (k', v') :: mapSet k v rest
  end.

Definition mapHas (k : Id) (m : list (Id * ToolUsage)) : bool :=
  existsb (fun kv => bool_decide (fst kv = k)) m.

(** The merge of the message's tools [a] and the rebuilt message's tools
    [b]: [a]'s entries keep their state, [b] supplies the ids [a] lacks. *)
Definition mergeTools (a b : list ToolUsage) : list ToolUsage :=
  match a, b with
  | [], _ => b
  | _, [] => a
  | _, _ =>
      let m1 := fold_left (fun m t => mapSet (tool_id t) t m) a [] in
      let m2 := fold_left (fun m t => if mapHas (tool_id t) m then m else mapSet (tool_id t) t m) b m1 in
      snd <$> m2
  end.

(** The object literal [{ ...message, ...finalMessage, streaming: false,
    localOnly: false, tools }]. *)
Definition rebuiltMessage (message finalMessage : Message)
    (tools : option (list ToolUsage)) : Message :=
  setTools tools
    (setLocalOnly (Some false)
       (setStreaming (Some false) (spreadMessage message finalMessage))).

(** [mergedTools.length > 0 ? mergedTools : undefined] *)
Definition nonEmpty (ts : list ToolUsage) : option (list ToolUsage) :=
  match ts with
  | [] => None
  | _ => Some ts
  end.

(** [tool.status === 'streaming' ? 'queued' : tool.status] *)
Definition baseStatus (t : ToolUsage) : ToolStatus :=
  match tool_status t with
  | Streaming => Queued
  | st => st
  end.

(** The status a tool gets in [handleToolsExecuting]: [pending[0]?.id] is
    executing, the ids of [pending.slice(1)] are queued. *)
Definition restatusExecuting (pending : list Id) (tool : ToolUsage) : ToolUsage :=
  let executingId := head pending in
  let queuedIds := tail pending in
  if decide (executingId = Some (tool_id tool)) then setToolStatus Executing tool
  else if decide (tool_id tool ∈ queuedIds) then setToolStatus Queued tool
  else setToolStatus (baseStatus tool) tool.

(** [toolResultMap.get(tool.id)]: the map is built from [[r.id, r]] pairs in
    order, so the last entry of an id is the one it holds. *)
Definition findResult (tid : Id) (results : list ToolResultEntry) : option ToolResultEntry :=
  last (filter (fun r => tr_id r = Some tid) results).

(** The status a tool gets in [handleAwaitingConfirmation]. *)
Definition restatusAwaiting (pendingIds : list Id) (results : list ToolResultEntry)
    (tool : ToolUsage) : ToolUsage :=
  if decide (tool_id tool ∈ pendingIds) then setToolStatus AwaitingApproval tool
  else
    match findResult (tool_id tool) results with
    | Some r =>
        let result := tr_result r in
        let status := if cancelled result || rejected result then Error else Success in
        setToolResult (Some result) (setToolStatus status tool)
    | None => setToolStatus (baseStatus tool) tool
    end.

(** The ids already carried by the hidden function-response messages of the
    history. *)
Definition responseIdsOf (m : Message) : list Id :=
  match msg_isFunctionResponse m, msg_parts m with
  | Some true, Some ps => omap (fun p => match functionResponse p with
                                       | Some fr => fr_id fr
                                       | None => None
                                       end) ps
  | _, _ => []
  end.

Definition existingResponseIds (all : list Message) : list Id :=
  concat (responseIdsOf <$> all).

Definition responsePart (r : ToolResultEntry) : ContentPart :=
  mkContentPart None false None
    (Some (mkFunctionResponse (tr_name r) (tr_result r) (tr_id r))).

(** [r.id && !existingResponseIds.has(r.id)] *)
Definition isNewResult (existing : list Id) (r : ToolResultEntry) : bool :=
  match tr_id r with
  | Some i => bool_decide (i ∉ existing)
  | None => false
  end.

Definition newResponseParts (existing : list Id) (results : list ToolResultEntry) : list ContentPart :=
  responsePart <$> filter (fun r => isNewResult existing r = true) results.

Definition responseMessage (clk : Clock) (parts : list ContentPart) : Message :=
  mkMessage (nextId clk) User "" (now clk) (Some parts) None None None None (Some true).

(** The block shared by [handleAwaitingConfirmation] and
    [handleToolIteration] that pushes the hidden function-response message. *)
Definition appendFunctionResponses (clk : Clock)
    (results : option (list ToolResultEntry)) (all : list Message) : list Message :=
  match results with
  | Some (r :: rs) =>
      match newResponseParts (existingResponseIds all) (r :: rs) with
      | [] => all
      | parts => all ++ [responseMessage clk parts]
      end
  | _ => all
  end.

(** ** The chunk handlers *)

Section Handlers.
Context `{Collaborators}.

(** One iteration of the loop over [chunk.chunk.delta]. *)
Definition chunkPart (acc : Message * string) (part : ContentPart) : Message * string :=
  let '(message, buffer) := acc in
  let '(message1, buffer1) :=
    match text part with
    | Some txt =>
        if truthyStr (Some txt) then
          if thought part then (addTextToMessage message txt true, buffer)
          else processStreamingText message txt buffer
        else (message, buffer)
    | None => (message, buffer)
    end in
  match functionCall part with
  | Some _ => (handleFunctionCallPart part message1, buffer1)
  | None => (message1, buffer1)
  end.

(** [message.metadata.f = v] on a message whose metadata is present. *)
Definition updMetadata (f : MessageMetadata -> MessageMetadata) (m : Message) : Message :=
  setMetadata (f <$> msg_metadata m) m.

Definition setUsage (u : UsageMetadata) (md : MessageMetadata) : MessageMetadata :=
  mkMessageMetadata (modelVersion md) (thinkingStartTime md) (thinkingDuration md)
    (responseDuration md) (streamDuration md) (firstChunkTime md)
    (chunkCount md) (Some u) (u_thoughtsTokenCount u) (u_candidatesTokenCount u).

(** What [handleChunkType] does to the message it found, statement by
    statement; every step writes to that one message object. *)
Definition chunkMessage (bc : BackendStreamChunk) (d : list ContentPart)
    (message : Message) (buffer : string) : Message * string :=
  let message :=
    match msg_parts message with
    | None => setParts (Some []) message
    | Some _ => message
    end in
  let '(message, buffer) := fold_left chunkPart d (message, buffer) in
  let message :=
    match msg_metadata message with
    | None => setMetadata (Some emptyMetadata) message
    | Some _ => message
    end in
  let message :=
    if truthyNum (bc_thinkingStartTime bc)
    then updMetadata (setThinkingStartTime (bc_thinkingStartTime bc)) message
    else message in
  let message :=
    if done bc then
      match usage bc with
      | Some u => updMetadata (setUsage u) message
      | None => message
      end
    else message in
  (message, buffer).

Definition handleChunkType (chunk : StreamChunk) (state : ChatStoreState) : ChatStoreState :=
  match findMessage (streamingMessageId state) (allMessages state), bchunk chunk with
  | Some (i, message), Some bc =>
      match delta bc with
      | Some d =>
          let '(message', buffer') := chunkMessage bc d message (toolCallBuffer state) in
          setToolCallBuffer buffer' (setAllMessages (<[i := message']> (allMessages state)) state)
      | None => state
      end
  | _, _ => state
  end.

(** The message [handleToolsExecuting] puts in the slot of [message]. *)
Definition toolsExecutingMessage (chunk : StreamChunk) (c : Content) (message : Message) : Message :=
  let existingModelVersion := existingModelVersionOf message in
  let existingTools := msg_tools message in
  let finalMessage := contentToMessage (Some c) (msg_id message) in
  let mergedTools := mergeTools (default [] existingTools) (default [] (msg_tools finalMessage)) in
  let updatedMessage := rebuiltMessage message finalMessage (nonEmpty mergedTools) in
  let updatedMessage := updMetadata (restoreMetadata existingModelVersion) updatedMessage in
  let pending := default [] (pendingToolCalls chunk) in
  setTools (map (restatusExecuting pending) <$> msg_tools updatedMessage) updatedMessage.

Definition handleToolsExecuting (chunk : StreamChunk) (state : ChatStoreState) : ChatStoreState :=
  let state := setIsStreaming true state in
  match findMessage (streamingMessageId state) (allMessages state), content chunk with
  | Some (messageIndex, message), Some c =>
      setAllMessages
        (replaceAt messageIndex (toolsExecutingMessage chunk c message) (allMessages state))
        state
  | _, _ => state
  end.

(** [m.role === 'assistant' && m.tools?.some(t => t.id === toolUpdate.id)] *)
Definition ownsTool (tid : Id) (m : Message) : bool :=
  bool_decide (msg_role m = Assistant) &&
  match msg_tools m with
  | Some ts => existsb (fun t => bool_decide (tool_id t = tid)) ts
  | None => false
  end.

(** The callback of [message.tools?.map] in [handleToolStatus]. *)
Definition applyToolUpdate (toolUpdate : ToolStatusUpdate) (t : ToolUsage) : ToolUsage :=
  if decide (tool_id t = upd_id toolUpdate)
  then mkToolUsage (tool_id t) (tool_name t) (upd_status toolUpdate)
         (orElse (upd_result toolUpdate) (tool_result t))
  else t.

Definition toolStatusMessage (toolUpdate : ToolStatusUpdate) (message : Message) : Message :=
  setTools (map (applyToolUpdate toolUpdate) <$> msg_tools message) message.

(** The owner of the tool: the message named by [streamingMessageId] when it
    is an assistant message holding the tool id, else the last assistant
    message that holds it. *)
Definition findToolOwner (tid : Id) (state : ChatStoreState) : option (nat * Message) :=
  let all := allMessages state in
  let first :=
    match streamingMessageId state with
    | Some sid =>
        match list_find (fun m => msg_id m = sid) all with
        | Some (idx, m) => if ownsTool tid m then Some (idx, m) else None
        | None => None
        end
    | None => None
    end in
  match first with
  | Some r => Some r
  | None => findLast (ownsTool tid) all
  end.

Definition handleToolStatus (chunk : StreamChunk) (state : ChatStoreState) : ChatStoreState :=
  if negb (toolStatus chunk) then state
  else
    match tool chunk with
    | None => state
    | Some toolUpdate =>
        match findToolOwner (upd_id toolUpdate) state with
        | None => state
        | Some (messageIndex, message) =>
            setAllMessages
              (replaceAt messageIndex (toolStatusMessage toolUpdate message) (allMessages state))
              state
        end
    end.

(** The message [handleAwaitingConfirmation] puts in the slot of [message]. *)
Definition awaitingConfirmationMessage (chunk : StreamChunk) (c : Content) (message : Message) : Message :=
  let existingModelVersion := existingModelVersionOf message in
  let existingTools := msg_tools message in
  let finalMessage := contentToMessage (Some c) (msg_id message) in
  let mergedTools := mergeTools (default [] existingTools) (default [] (msg_tools finalMessage)) in
  let updatedMessage := rebuiltMessage message finalMessage (nonEmpty mergedTools) in
  let updatedMessage := updMetadata (restoreMetadata existingModelVersion) updatedMessage in
  let pendingIds := default [] (pendingToolCalls chunk) in
  let toolResults := default [] (toolResults chunk) in
  setTools (map (restatusAwaiting pendingIds toolResults) <$> msg_tools updatedMessage) updatedMessage.

Definition handleAwaitingConfirmation (chunk : StreamChunk) (state : ChatStoreState)
    (addCheckpoint : CheckpointSink) (clk : Clock) : ChatStoreState :=
  let state :=
    match findMessage (streamingMessageId state) (allMessages state), content chunk with
    | Some (messageIndex, message), Some c =>
        setAllMessages
          (replaceAt messageIndex (awaitingConfirmationMessage chunk c message) (allMessages state))
          state
    | _, _ => state
    end in
  let state := setAllMessages (appendFunctionResponses clk (toolResults chunk) (allMessages state)) state in
  let state := addCheckpoints addCheckpoint (checkpoints chunk) state in
  setIsStreaming false state.

(** The ids of the results whose [flag] is set, as collected by
    [if ((r.result as any).flag && r.id) ids.add(r.id)]. *)
Definition flaggedIds (flag : ToolResult -> bool)
    (results : option (list ToolResultEntry)) : list Id :=
  match results with
  | Some rs => omap (fun r => if flag (tr_result r) then tr_id r else None) rs
  | None => []
  end.

(** [existingTools && (!restoredTools || restoredTools.length === 0)] *)
Definition restoreTools (existingTools restoredTools : option (list ToolUsage))
    : option (list ToolUsage) :=
  match existingTools, restoredTools with
  | Some e, None => Some e
  | Some e, Some [] => Some e
  | _, _ => restoredTools
  end.

(** The status a tool gets in [handleToolIteration]. *)
Definition restatusIteration (cancelledToolIds rejectedToolIds : list Id)
    (tool : ToolUsage) : ToolUsage :=
  setToolStatus
    (if decide (tool_id tool ∈ cancelledToolIds ∨ tool_id tool ∈ rejectedToolIds)
     then Error else Success)
    tool.

(** The message [handleToolIteration] puts in the slot of [message]. *)
Definition toolIterationMessage (chunk : StreamChunk) (message : Message) : Message :=
  let cancelledToolIds := flaggedIds cancelled (toolResults chunk) in
  let rejectedToolIds := flaggedIds rejected (toolResults chunk) in
  let existingTools := msg_tools message in
  let existingModelVersion := existingModelVersionOf message in
  let finalMessage := contentToMessage (content chunk) (msg_id message) in
  let finalMessage := updMetadata (restoreMetadata existingModelVersion) finalMessage in
  let restoredTools := restoreTools existingTools (msg_tools finalMessage) in
  let restoredTools := map (restatusIteration cancelledToolIds rejectedToolIds) <$> restoredTools in
  rebuiltMessage message finalMessage restoredTools.

(** The placeholder that receives the next model turn. *)
Definition newAssistantMessage (clk : Clock) (modelName : string) : Message :=
  mkMessage (nextId clk) Assistant "" (now clk) None None
    (Some (setModelVersion (Some modelName) emptyMetadata))
    (Some true) (Some true) None.

(** [cancelledToolIds.size > 0] *)
Definition hasCancelledTools (chunk : StreamChunk) : bool :=
  match flaggedIds cancelled (toolResults chunk) with
  | [] => false
  | _ => true
  end.

Definition handleToolIteration (chunk : StreamChunk) (state : ChatStoreState)
    (currentModelName : string) (addCheckpoint : CheckpointSink)
    (respClk newClk : Clock) : ChatStoreState :=
  let state :=
    match findMessage (streamingMessageId state) (allMessages state) with
    | Some (messageIndex, message) =>
        setAllMessages
          (replaceAt messageIndex (toolIterationMessage chunk message) (allMessages state))
          state
    | None => state
    end in
  let state := setAllMessages (appendFunctionResponses respClk (toolResults chunk) (allMessages state)) state in
  let state := addCheckpoints addCheckpoint (checkpoints chunk) state in
  if hasCancelledTools chunk then
    setIsWaitingForResponse false (setIsStreaming false (setStreamingMessageId None state))
  else
    let state := setAllMessages (allMessages state ++ [newAssistantMessage newClk currentModelName]) state in
    let state := setStreamingMessageId (Some (nextId newClk)) state in
    setIsWaitingForResponse true (setIsStreaming true state).

(** The message [handleComplete] puts in the slot of [message], after
    [flushToolCallBuffer] has written to [message] itself. *)
Definition completeMessage (chunk : StreamChunk) (message : Message) : Message :=
  let existingModelVersion := existingModelVersionOf message in
  let finalMessage := contentToMessage (content chunk) (msg_id message) in
  let finalMessage :=
    if truthyStr existingModelVersion
    then updMetadata (setModelVersion existingModelVersion) finalMessage
    else finalMessage in
  setLocalOnly (Some false) (setStreaming (Some false) (spreadMessage message finalMessage)).

(** [updateConversationAfterMessage()] is started and not awaited; it is no
    part of the transition. *)
Definition handleComplete (chunk : StreamChunk) (state : ChatStoreState)
    (addCheckpoint : CheckpointSink) : ChatStoreState :=
  let state :=
    match findMessage (streamingMessageId state) (allMessages state) with
    | Some (messageIndex, message) =>
        let '(message, buffer) := flushToolCallBuffer message (toolCallBuffer state) in
        setToolCallBuffer buffer
          (setAllMessages
             (replaceAt messageIndex (completeMessage chunk message) (allMessages state))
             state)
    | None => state
    end in
  let state := addCheckpoints addCheckpoint (checkpoints chunk) state in
  setIsWaitingForResponse false (setIsStreaming false (setStreamingMessageId None state)).

Definition handleCheckpoints (chunk : StreamChunk) (state : ChatStoreState)
    (addCheckpoint : CheckpointSink) : ChatStoreState :=
  addCheckpoints addCheckpoint (checkpoints chunk) state.

(** [message.parts && message.parts.some(p => p.text || p.functionCall)] *)
Definition hasPartsContent (m : Message) : bool :=
  match msg_parts m with
  | Some ps => existsb (fun p => truthyStr (text p) || bool_decide (is_Some (functionCall p))) ps
  | None => false
  end.

(** [!message.content && !message.tools && !hasPartsContent] *)
Definition isEmptyMessage (m : Message) : bool :=
  negb (truthyStr (Some (msg_content m))) &&
  negb (bool_decide (is_Some (msg_tools m))) &&
  negb (hasPartsContent m).

(** The message a cancellation is about: the one named by
    [streamingMessageId], or, when that is already cleared, the last message
    if it is an assistant message that is not streaming. *)
Definition cancelTarget (state : ChatStoreState) : option (nat * Message) :=
  let all := allMessages state in
  match streamingMessageId state with
  | Some sid => list_find (fun m => msg_id m = sid) all
  | None =>
      match last all with
      | Some lastMsg =>
          if bool_decide (msg_role lastMsg = Assistant) &&
             negb (default false (msg_streaming lastMsg))
          then Some (pred (length all), lastMsg)
          else None
      | None => None
      end
  end.

(** The timing fields of [chunk.content] that are not [undefined]
    overwrite those of the metadata. *)
Definition mergeTiming (c : option Content) (md : MessageMetadata) : MessageMetadata :=
  match c with
  | Some c =>
      mkMessageMetadata (modelVersion md) (thinkingStartTime md)
        (orElse (c_thinkingDuration c) (thinkingDuration md))
        (orElse (c_responseDuration c) (responseDuration md))
        (orElse (c_streamDuration c) (streamDuration md))
        (orElse (c_firstChunkTime c) (firstChunkTime md))
        (orElse (c_chunkCount c) (chunkCount md))
        (usageMetadata md) (thoughtsTokenCount md) (candidatesTokenCount md)
  | None => md
  end.

(** The statuses a cancellation turns into [error]. *)
Definition isNonFinal (st : ToolStatus) : bool :=
  match st with
  | Streaming | Queued | AwaitingApproval | Executing | AwaitingApply => true
  | Success | Error => false
  end.

Definition cancelTool (tool : ToolUsage) : ToolUsage :=
  if isNonFinal (tool_status tool) then setToolStatus Error tool else tool.

(** The message [handleCancelled] puts in the slot of a message it keeps. *)
Definition cancelledMessage (chunk : StreamChunk) (message : Message) : Message :=
  let newMetadata := mergeTiming (content chunk) (default emptyMetadata (msg_metadata message)) in
  let updatedTools := map cancelTool <$> msg_tools message in
  setTools updatedTools
    (setMetadata (Some newMetadata)
       (setLocalOnly (Some false) (setStreaming (Some false) message))).

Definition handleCancelled (chunk : StreamChunk) (state : ChatStoreState) : ChatStoreState :=
  let state :=
    match cancelTarget state with
    | Some (messageIndex, message) =>
        if isEmptyMessage message
        then setAllMessages (delete messageIndex (allMessages state)) state
        else setAllMessages
               (replaceAt messageIndex (cancelledMessage chunk message) (allMessages state))
               state
    | None => state
    end in
  setIsWaitingForResponse false (setIsStreaming false (setStreamingMessageId None state)).

Definition defaultStreamError : StreamError := mkStreamError "STREAM_ERROR" "Stream error".

Definition handleError (chunk : StreamChunk) (state : ChatStoreState) : ChatStoreState :=
  let state := setStateError (Some (default defaultStreamError (error chunk))) state in
  let state :=
    match streamingMessageId state with
    | Some sid =>
        let state :=
          match list_find (fun m => msg_id m = sid) (allMessages state) with
          | Some (_, messageToRemove) =>
              if isEmptyMessage messageToRemove
              then setAllMessages (filter (fun m => msg_id m <> sid) (allMessages state)) state
              else state
          | None => state
          end in
        setStreamingMessageId None state
    | None => state
    end in
  setIsWaitingForResponse false (setIsStreaming false state).

End Handlers.

(** A message with nothing in it, in words: empty content, no [tools]
    property, and no part that carries text or a function call. *)
Definition EmptyMessage (m : Message) : Prop :=
  msg_content m = "" /\
  msg_tools m = None /\
  forall ps p, msg_parts m = Some ps -> p ∈ ps ->
    (text p = None \/ text p = Some "") /\ functionCall p = None.

(** ** The window manager *)

Definition MAX_WINDOW_MESSAGES : nat := 800.

Definition windowEnd (state : ChatStoreState) : Z :=
  (windowStartIndex state + Z.of_nat (length (allMessages state)))%Z.

Definition syncTotalMessagesFromWindow (state : ChatStoreState) : ChatStoreState :=
  setTotalMessages (Z.max (totalMessages state) (windowEnd state)) state.

Definition setTotalMessagesFromWindow (state : ChatStoreState) : ChatStoreState :=
  setTotalMessages (Z.max 0 (windowEnd state)) state.

(** [trimWindowFromTop(state, maxCount)]: the new state and the returned
    number of dropped messages. [maxCount] is a number of messages;
    [overflow] is computed in the integers, as the source tests its sign.
    [perfLog] only writes to the console. *)
Definition trimWindowFromTop (state : ChatStoreState) (maxCount : nat) : ChatStoreState * Z :=
  let all := allMessages state in
  let overflow := (Z.of_nat (length all) - Z.of_nat maxCount)%Z in
  if (overflow <=? 0)%Z then (state, 0%Z)
  else
    let state := setAllMessages (drop (Z.to_nat overflow) all) state in
    let state := setWindowStartIndex (windowStartIndex state + overflow)%Z state in
    let state :=
      setCheckpoints
        (filter (fun cp => (cp_messageIndex cp >= windowStartIndex state)%Z) (checkpointList state))
        state in
    let state := setHistoryFolded true state in
    let state := setFoldedMessageCount (foldedMessageCount state + overflow)%Z state in
    let state := syncTotalMessagesFromWindow state in
    (state, overflow).

(** The two counters the handlers never write. *)
Definition counters (s : ChatStoreState) : Z * Z :=
  (foldedMessageCount s, totalMessages s).

(** A result of the event that carries the id [tid] is flagged cancelled
    or rejected. *)
Definition FlaggedResult (chunk : StreamChunk) (tid : Id) : Prop :=
  exists rs r, toolResults chunk = Some rs /\ r ∈ rs /\ tr_id r = Some tid /\
    (cancelled (tr_result r) = true \/ rejected (tr_result r) = true).

(** Some result of the event is flagged cancelled. *)
Definition SomeResultCancelled (chunk : StreamChunk) : Prop :=
  exists rs r, toolResults chunk = Some rs /\ r ∈ rs /\ cancelled (tr_result r) = true.

(** Some result of the event that carries an id is flagged cancelled. *)
Definition SomeToolCancelled (chunk : StreamChunk) : Prop :=
  exists rs r tid, toolResults chunk = Some rs /\ r ∈ rs /\ tr_id r = Some tid /\
    cancelled (tr_result r) = true.

(** A message that is not a hidden function-response message. *)
Definition NotCarrier (m : Message) : Prop := msg_isFunctionResponse m <> Some true.

(** The number of function-response parts with the id [tid] in the hidden
    function-response messages of a history. *)
Definition countResponses (tid : Id) (all : list Message) : nat :=
  length (filter (fun i => i = tid) (existingResponseIds all)).

(** The number of hidden function-response messages of a history that hold
    a part with the id [tid]. *)
Definition countCarriers (tid : Id) (all : list Message) : nat :=
  length (filter (fun ids => tid ∈ ids) (responseIdsOf <$> all)).

(** The number of results of an event that carry the id [tid]. *)
Definition resultOccurrences (tid : Id) (results : option (list ToolResultEntry)) : nat :=
  length (filter (fun r => tr_id r = Some tid) (default [] results)).

(** ** The dispatcher and sequences of operations *)

Inductive ChunkType :=
  | TChunk | TToolsExecuting | TToolStatus | TAwaitingConfirmation
  | TToolIteration | TComplete | TCheckpoints | TCancelled | TError.

(** What a handler is handed besides the chunk and the store. *)
Record Env := mkEnv {
  currentModelName : string;
  addCheckpoint : CheckpointSink;
  respClk : Clock;
  newClk : Clock }.

(** Modelled from the spec: the dispatcher is not part of the sources at
    hand; it applies to an event the handler of the event's kind. *)
Definition dispatch `{Collaborators} (kind : ChunkType) (chunk : StreamChunk)
    (env : Env) (state : ChatStoreState) : ChatStoreState :=
  match kind with
  | TChunk => handleChunkType chunk state
  | TToolsExecuting => handleToolsExecuting chunk state
  | TToolStatus => handleToolStatus chunk state
  | TAwaitingConfirmation =>
      handleAwaitingConfirmation chunk state (addCheckpoint env) (respClk env)
  | TToolIteration =>
      handleToolIteration chunk state (currentModelName env) (addCheckpoint env)
        (respClk env) (newClk env)
  | TComplete => handleComplete chunk state (addCheckpoint env)
  | TCheckpoints => handleCheckpoints chunk state (addCheckpoint env)
  | TCancelled => handleCancelled chunk state
  | TError => handleError chunk state
  end.

(** The operations of the core: the dispatch of an event, a trim of the
    window, a resynchronisation of the total. [setTotalMessagesFromWindow]
    belongs to the operations that shrink the history (delete, restore) and
    is not one of them. *)
Inductive Operation :=
  | Dispatch (kind : ChunkType) (chunk : StreamChunk) (env : Env)
  | TrimWindow (maxCount : nat)
  | SyncTotal.

Definition perform `{Collaborators} (state : ChatStoreState) (op : Operation) : ChatStoreState :=
  match op with
  | Dispatch kind chunk env => dispatch kind chunk env state
  | TrimWindow maxCount => fst (trimWindowFromTop state maxCount)
  | SyncTotal => syncTotalMessagesFromWindow state
  end.

Definition run `{Collaborators} (ops : list Operation) (state : ChatStoreState) : ChatStoreState :=
  fold_left perform ops state.

(** ** Message objects and references

    In the source a message is an object and [allMessages] an array of
    references to such objects. A handler either writes to the object a slot
    refers to, or builds a new object and puts a reference to it in the
    slot. [ObjState] keeps the two apart: [objects] maps an address to the
    message stored there, [refs] is the array, [cells] holds the other
    [Ref]s of the store (its [allMessages] is not read). *)

Definition Loc := nat.

Record ObjState := mkObjState {
  objects : gmap Loc Message;
  refs : list Loc;
  cells : ChatStoreState }.

(** The messages the array refers to. *)
Definition deref (objs : gmap Loc Message) (rs : list Loc) : list Message :=
  omap (fun l => objs !! l) rs.

(** The store as the value-level handlers see it. *)
Definition view (σ : ObjState) : ChatStoreState :=
  setAllMessages (deref (objects σ) (refs σ)) (cells σ).

(** Every slot refers to an object, and no two slots to the same one. *)
Definition wellFormed (σ : ObjState) : Prop :=
  Forall (fun l => is_Some (objects σ !! l)) (refs σ) /\ NoDup (refs σ).

(** A new object: an address no object has yet. *)
Definition newLoc (objs : gmap Loc Message) : Loc := fresh (dom objs).

(** [allMessages.value = [...slice(0, i), updated, ...slice(i + 1)]] with
    [updated] a new object. *)
Definition replaceSlot (i : nat) (updated : Message) (σ : ObjState) : ObjState :=
  let l := newLoc (objects σ) in
  mkObjState (<[l := updated]> (objects σ))
    (take i (refs σ) ++ l :: drop (S i) (refs σ))
    (cells σ).

(** [allMessages.value.push(m)] with [m] a new object. *)
Definition pushObject (m : Message) (σ : ObjState) : ObjState :=
  let l := newLoc (objects σ) in
  mkObjState (<[l := m]> (objects σ)) (refs σ ++ [l]) (cells σ).

(** Assignments to the properties of the object slot [i] refers to. *)
Definition writeObject (i : nat) (m : Message) (σ : ObjState) : ObjState :=
  match refs σ !! i with
  | Some l => mkObjState (<[l := m]> (objects σ)) (refs σ) (cells σ)
  | None => σ
  end.

Definition withCells (s : ChatStoreState) (σ : ObjState) : ObjState :=
  mkObjState (objects σ) (refs σ) s.

(** Every object of [σ] is in [σ'] with the value it had: what a reference
    taken before reads after. *)
Definition keepsObjects (σ σ' : ObjState) : Prop :=
  forall l m, objects σ !! l = Some m -> objects σ' !! l = Some m.

Section ObjectHandlers.
Context `{Collaborators}.

(** [handleChunkType] finds the message and assigns to its properties. *)
Definition handleChunkTypeO (chunk : StreamChunk) (σ : ObjState) : ObjState :=
  let state := view σ in
  withCells (handleChunkType chunk state)
    match findMessage (streamingMessageId state) (allMessages state), bchunk chunk with
    | Some (i, message), Some bc =>
        match delta bc with
        | Some d => writeObject i (fst (chunkMessage bc d message (toolCallBuffer state))) σ
        | None => σ
        end
    | _, _ => σ
    end.

(** [handleToolStatus] builds [updatedMessage] and replaces the slot. *)
Definition handleToolStatusO (chunk : StreamChunk) (σ : ObjState) : ObjState :=
  let state := view σ in
  withCells (handleToolStatus chunk state)
    (if negb (toolStatus chunk) then σ
     else
       match tool chunk with
       | None => σ
       | Some toolUpdate =>
           match findToolOwner (upd_id toolUpdate) state with
           | None => σ
           | Some (messageIndex, message) =>
               replaceSlot messageIndex (toolStatusMessage toolUpdate message) σ
           end
       end).

(** [handleCancelled] filters the slot out or replaces it. *)
Definition handleCancelledO (chunk : StreamChunk) (σ : ObjState) : ObjState :=
  let state := view σ in
  withCells (handleCancelled chunk state)
    match cancelTarget state with
    | Some (messageIndex, message) =>
        if isEmptyMessage message
        then mkObjState (objects σ) (delete messageIndex (refs σ)) (cells σ)
        else replaceSlot messageIndex (cancelledMessage chunk message) σ
    | None => σ
    end.

(** [handleError] filters the array and writes to no message. *)
Definition handleErrorO (chunk : StreamChunk) (σ : ObjState) : ObjState :=
  let state := view σ in
  withCells (handleError chunk state)
    match streamingMessageId state with
    | Some sid =>
        match list_find (fun m => msg_id m = sid) (allMessages state) with
        | Some (_, messageToRemove) =>
            if isEmptyMessage messageToRemove
            then mkObjState (objects σ)
                   (filter (fun l => msg_id <$> objects σ !! l <> Some sid) (refs σ))
                   (cells σ)
            else σ
        | None => σ
        end
    | None => σ
    end.

(** The shared block of [handleAwaitingConfirmation] and
    [handleToolIteration]: the hidden message is a new object, pushed. *)
Definition appendFunctionResponsesO (clk : Clock)
    (results : option (list ToolResultEntry)) (σ : ObjState) : ObjState :=
  match results with
  | Some (r :: rs) =>
      match newResponseParts (existingResponseIds (deref (objects σ) (refs σ))) (r :: rs) with
      | [] => σ
      | parts => pushObject (responseMessage clk parts) σ
      end
  | _ => σ
  end.

(** In [handleToolsExecuting] and [handleAwaitingConfirmation] the object
    [updatedMessage.metadata] is the rebuilt message's metadata when it has
    one, and otherwise the metadata object of [message] itself, so the
    [delete updatedMessage.metadata.thinkingStartTime] that follows writes to
    [message]. *)
Definition restoreSharedMetadata (i : nat) (finalMessage message : Message)
    (σ : ObjState) : ObjState :=
  match msg_metadata finalMessage with
  | Some _ => σ
  | None => writeObject i (updMetadata (restoreMetadata (existingModelVersionOf message)) message) σ
  end.

Definition handleToolsExecutingO (chunk : StreamChunk) (σ : ObjState) : ObjState :=
  let state := view σ in
  withCells (handleToolsExecuting chunk state)
    match findMessage (streamingMessageId state) (allMessages state), content chunk with
    | Some (messageIndex, message), Some c =>
        replaceSlot messageIndex (toolsExecutingMessage chunk c message)
          (restoreSharedMetadata messageIndex
             (contentToMessage (Some c) (msg_id message)) message σ)
    | _, _ => σ
    end.

Definition handleAwaitingConfirmationO (chunk : StreamChunk) (σ : ObjState)
    (addCheckpoint : CheckpointSink) (clk : Clock) : ObjState :=
  let state := view σ in
  withCells (handleAwaitingConfirmation chunk state addCheckpoint clk)
    (appendFunctionResponsesO clk (toolResults chunk)
       match findMessage (streamingMessageId state) (allMessages state), content chunk with
       | Some (messageIndex, message), Some c =>
           replaceSlot messageIndex (awaitingConfirmationMessage chunk c message)
             (restoreSharedMetadata messageIndex
                (contentToMessage (Some c) (msg_id message)) message σ)
       | _, _ => σ
       end).

Definition handleToolIterationO (chunk : StreamChunk) (σ : ObjState)
    (currentModelName : string) (addCheckpoint : CheckpointSink)
    (respClk newClk : Clock) : ObjState :=
  let state := view σ in
  let σ1 :=
    appendFunctionResponsesO respClk (toolResults chunk)
      match findMessage (streamingMessageId state) (allMessages state) with
      | Some (messageIndex, message) =>
          replaceSlot messageIndex (toolIterationMessage chunk message) σ
      | None => σ
      end in
  withCells (handleToolIteration chunk state currentModelName addCheckpoint respClk newClk)
    (if hasCancelledTools chunk then σ1
     else pushObject (newAssistantMessage newClk currentModelName) σ1).

(** [handleComplete] hands the message object to [flushToolCallBuffer], then
    replaces the slot. *)
Definition handleCompleteO (chunk : StreamChunk) (σ : ObjState)
    (addCheckpoint : CheckpointSink) : ObjState :=
  let state := view σ in
  withCells (handleComplete chunk state addCheckpoint)
    match findMessage (streamingMessageId state) (allMessages state) with
    | Some (messageIndex, message) =>
        let flushed := fst (flushToolCallBuffer message (toolCallBuffer state)) in
        replaceSlot messageIndex (completeMessage chunk flushed)
          (writeObject messageIndex flushed σ)
    | None => σ
    end.

Definition handleCheckpointsO (chunk : StreamChunk) (σ : ObjState)
    (addCheckpoint : CheckpointSink) : ObjState :=
  withCells (handleCheckpoints chunk (view σ) addCheckpoint) σ.

End ObjectHandlers.

(** ** Sample data

    Concrete stores and events on which the handlers are run. *)

Definition sampleResult : ToolResult := mkToolResult false false "ok".

Definition sampleTool (i : Id) (st : ToolStatus) (r : option ToolResult) : ToolUsage :=
  mkToolUsage i "read_file" st r.

Definition sampleAssistant (i : Id) (txt : string) (ts : option (list ToolUsage)) : Message :=
  mkMessage i Assistant txt 0 None ts None (Some true) (Some true) None.

Definition sampleState (all : list Message) (sid : option Id) : ChatStoreState :=
  mkChatStoreState all 0 (Z.of_nat (length all)) sid true true [] false 0 None "".

Definition emptyChunk : StreamChunk :=
  mkStreamChunk None None false None None None None None.

Definition toolStatusEvent (u : ToolStatusUpdate) : StreamChunk :=
  mkStreamChunk None None true (Some u) None None None None.

(** A store whose in-flight message holds a tool that has succeeded, and a
    late [queued] event for that tool that carries no result. *)
Definition finishedToolState : ChatStoreState :=
  sampleState
    [sampleAssistant "m1" "done" (Some [sampleTool "t1" Success (Some sampleResult)])]
    (Some "m1").

Definition lateQueuedEvent : StreamChunk :=
  toolStatusEvent (mkToolStatusUpdate "t1" Queued None).

Definition sampleCheckpoint (name : string) (idx : Z) : CheckpointRecord :=
  mkCheckpointRecord name 0 "before_message" idx.

(** A window of five messages that starts at absolute index 10, with a
    checkpoint on either side of index 12. *)
Definition fiveMessageWindow : ChatStoreState :=
  mkChatStoreState
    [sampleAssistant "a" "1" None; sampleAssistant "b" "2" None;
     sampleAssistant "c" "3" None; sampleAssistant "d" "4" None;
     sampleAssistant "e" "5" None]
    10 15 None false false
    [sampleCheckpoint "old" 11; sampleCheckpoint "kept" 12]
    false 0 None "".

(** Scenario E: a window of 900 messages, trimmed to the default maximum. *)
Definition scenarioE : ChatStoreState :=
  mkChatStoreState (replicate 900 (sampleAssistant "m" "x" None))
    0 900 None false false
    [sampleCheckpoint "old" 99; sampleCheckpoint "kept" 100]
    false 0 None "".

(** A turn that is cancelled while its first tool runs: the in-flight
    message has text, a running tool and a finished one. *)
Definition runningTurnMessage : Message :=
  sampleAssistant "m1" "Reading the file"
    (Some [sampleTool "t1" Executing None; sampleTool "t2" Success (Some sampleResult)]).

Definition runningTurnState : ChatStoreState :=
  sampleState [runningTurnMessage] (Some "m1").

(** Scenario C: the in-flight message is an empty placeholder. *)
Definition placeholderMessage : Message :=
  mkMessage "m2" Assistant "" 0 None None None (Some true) (Some true) None.

Definition placeholderState : ChatStoreState :=
  sampleState [runningTurnMessage; placeholderMessage] (Some "m2").

(** Collaborators to run the handlers with: the builder makes an assistant
    message out of the payload's parts, the text helpers append a text part
    (and visible text to the content), the function-call helper appends the
    part, and nothing is buffered. *)
Definition sampleAppendPart (p : ContentPart) (m : Message) : Message :=
  setParts (Some (default [] (msg_parts m) ++ [p])) m.

Definition sampleAddText (m : Message) (txt : string) (isThought : bool) : Message :=
  let m := sampleAppendPart (mkContentPart (Some txt) isThought None None) m in
  if isThought then m
  else mkMessage (msg_id m) (msg_role m) (msg_content m ++ txt) (msg_timestamp m)
         (msg_parts m) (msg_tools m) (msg_metadata m) (msg_streaming m)
         (msg_localOnly m) (msg_isFunctionResponse m).

Definition sampleContentToMessage (c : option Content) (i : Id) : Message :=
  mkMessage i Assistant "" 0 (c_parts <$> c) None (Some emptyMetadata) None None None.

#[local] Instance sampleCollaborators : Collaborators := {|
  contentToMessage := sampleContentToMessage;
  addTextToMessage := sampleAddText;
  processStreamingText := fun m txt buffer => (sampleAddText m txt false, buffer);
  flushToolCallBuffer := fun m buffer => (m, "");
  handleFunctionCallPart := sampleAppendPart |}.

Definition sampleContent : Content := mkContent [] None None None None None.

(** Scenario B: two streaming tools, both pending. *)
Definition scenarioBMessage : Message :=
  sampleAssistant "m1" ""
    (Some [sampleTool "t1" Streaming None; sampleTool "t2" Streaming None]).

Definition scenarioBState : ChatStoreState :=
  mkChatStoreState [scenarioBMessage] 0 1 (Some "m1") false true [] false 0 None "".

Definition scenarioBEvent : StreamChunk :=
  mkStreamChunk None (Some sampleContent) false None (Some ["t1"; "t2"]) None None None.

Definition appendCheckpoint : CheckpointSink := fun cp l => l ++ [cp].

Definition respClock : Clock := mkClock "resp-1" 100.
Definition nextClock : Clock := mkClock "asst-2" 101.

(** A tool-iteration event whose only result is flagged cancelled and
    carries no id. *)
Definition anonymousCancelEvent : StreamChunk :=
  mkStreamChunk None (Some sampleContent) false None None
    (Some [mkToolResultEntry None "read_file" (mkToolResult true false "")])
    None None.

(** Scenario D: the only result is flagged cancelled and names the tool. *)
Definition scenarioDMessage : Message :=
  sampleAssistant "m1" "" (Some [sampleTool "t1" Executing None]).

Definition scenarioDState : ChatStoreState :=
  mkChatStoreState [scenarioDMessage] 0 1 (Some "m1") true true [] false 0 None "".

Definition scenarioDEvent : StreamChunk :=
  mkStreamChunk None (Some sampleContent) false None None
    (Some [mkToolResultEntry (Some "t1") "read_file" (mkToolResult true false "")])
    None None.

(** The result of tool [t1], as an event carries it. *)
Definition resultOfT1 : ToolResultEntry :=
  mkToolResultEntry (Some "t1") "read_file" sampleResult.

Definition resultOfT2 : ToolResultEntry :=
  mkToolResultEntry (Some "t2") "write_file" sampleResult.

(** A turn with two tools: [t1] runs by itself, [t2] waits for approval.
    The awaiting-confirmation event carries the result of [t1]; the
    tool-iteration event that follows carries it again, with that of [t2]. *)
Definition twoToolMessage : Message :=
  sampleAssistant "m1" ""
    (Some [sampleTool "t1" Streaming None; sampleTool "t2" Streaming None]).

Definition twoToolState : ChatStoreState :=
  mkChatStoreState [twoToolMessage] 0 1 (Some "m1") true true [] false 0 None "".

Definition confirmationEvent : StreamChunk :=
  mkStreamChunk None (Some sampleContent) false None (Some ["t2"])
    (Some [resultOfT1]) None None.

Definition iterationEvent : StreamChunk :=
  mkStreamChunk None (Some sampleContent) false None None
    (Some [resultOfT1; resultOfT2]) None None.

(** An awaiting-confirmation event that lists the result of [t1] twice. *)
Definition doubledConfirmationEvent : StreamChunk :=
  mkStreamChunk None (Some sampleContent) false None (Some ["t2"])
    (Some [resultOfT1; resultOfT1]) None None.

Definition thirdClock : Clock := mkClock "asst-3" 102.

(** A store of one object: the placeholder of a turn that has just begun,
    at address 0, and the first delta of the turn. *)
Definition freshTurnMessage : Message :=
  mkMessage "m1" Assistant "" 0 None None None (Some true) (Some true) None.

Definition freshTurnObjects : ObjState :=
  mkObjState {[ 0 := freshTurnMessage ]} [0] (sampleState [freshTurnMessage] (Some "m1")).

Definition helloChunk : StreamChunk :=
  mkStreamChunk
    (Some (mkBackendStreamChunk (Some [mkContentPart (Some "Hello") false None None])
             false None None))
    None false None None None None None.

(** A delta without parts: no helper is called. *)
Definition emptyDeltaChunk : StreamChunk :=
  mkStreamChunk (Some (mkBackendStreamChunk (Some []) false None None))
    None false None None None None None.

(** The same store with the tool of its message running, and the event that
    reports the tool finished. *)
Definition runningToolObjects : ObjState :=
  mkObjState {[ 0 := runningTurnMessage ]} [0] runningTurnState.

Definition toolFinishedEvent : StreamChunk :=
  toolStatusEvent (mkToolStatusUpdate "t1" Success (Some sampleResult)).

(** Two turns that used the same tool id; the later turn is in flight, or
    no turn is. *)
Definition earlierTurnMessage : Message :=
  sampleAssistant "m0" "first" (Some [sampleTool "t1" Executing None]).

Definition laterTurnMessage : Message :=
  sampleAssistant "m1" "second" (Some [sampleTool "t1" Queued None]).

Definition twoOwnersState (sid : option Id) : ChatStoreState :=
  sampleState [earlierTurnMessage; laterTurnMessage] sid.

(** The last chunk of a turn: one more word, the usage, a thinking start. *)
Definition sampleUsage : UsageMetadata := mkUsageMetadata (Some 5%Z) (Some 7%Z) (Some 12%Z).

Definition lastChunk : StreamChunk :=
  mkStreamChunk
    (Some (mkBackendStreamChunk (Some [mkContentPart (Some " world") false None None])
             true (Some sampleUsage) (Some 42%Z)))
    None false None None None None None.

(** The tools a message holds, and the tools the builder finds in the
    finalized payload: [t2] again, with the builder's status, and a new
    [t3]. *)
Definition heldTools : list ToolUsage :=
  [sampleTool "t1" Executing None; sampleTool "t2" Queued None].

Definition builtTools : list ToolUsage :=
  [sampleTool "t2" Success None; sampleTool "t3" Success None].

(** An in-flight message that records the model that answers and the start
    of its thinking phase. *)
Definition versionedMessage : Message :=
  mkMessage "m1" Assistant "" 0 None (Some [sampleTool "t1" Streaming None])
    (Some (mkMessageMetadata (Some "model-a") (Some 7%Z) None None None None None None
             None None))
    (Some true) (Some true) None.

Definition versionedState : ChatStoreState :=
  mkChatStoreState [versionedMessage] 0 1 (Some "m1") true true [] false 0 None "".

(** A cancelled event whose content carries two of the timing fields. *)
Definition timedCancelEvent : StreamChunk :=
  mkStreamChunk None (Some (mkContent [] (Some 3%Z) None (Some 9%Z) None None))
    false None None None None None.

(** * Properties *)

(** ** Lists, lookups and records *)

Lemma replaceAt_insert (i : nat) (u : Message) (all : list Message) :
  i < length all -> replaceAt i u all = <[i := u]> all.
Proof. intros Hi. unfold replaceAt. symmetry. by apply insert_take_drop. Qed.

Lemma replaceAt_length (i : nat) (u : Message) (all : list Message) :
  i < length all -> length (replaceAt i u all) = length all.
Proof. intros Hi. rewrite replaceAt_insert by done. apply length_insert. Qed.

Lemma replaceAt_lookup (i : nat) (u : Message) (all : list Message) :
  i < length all -> replaceAt i u all !! i = Some u.
Proof. intros Hi. rewrite replaceAt_insert by done. by apply list_lookup_insert_eq. Qed.

Lemma replaceAt_lookup_ne (i j : nat) (u : Message) (all : list Message) :
  i < length all -> j <> i -> replaceAt i u all !! j = all !! j.
Proof.
  intros Hi Hne. rewrite replaceAt_insert by done.
  apply list_lookup_insert_ne. congruence.
Qed.

Lemma findLast_Some (P : Message -> bool) (all : list Message) (i : nat) (x : Message) :
  findLast P all = Some (i, x) ->
  all !! i = Some x /\ P x = true /\
  forall j y, all !! j = Some y -> i < j -> P y = false.
Proof.
  revert i x. induction all as [|m rest IH]; intros i x; simpl; [done|].
  destruct (findLast P rest) as [[k y]|] eqn:Hrest.
  - intros [= <- <-]. destruct (IH k y eq_refl) as (Hk & HP & Hlater).
    repeat split; [done..|].
    intros [|j] z Hz Hlt; [lia|]. simpl in Hz. apply (Hlater j z Hz). lia.
  - destruct (P m) eqn:HPm; [|done]. intros [= <- <-].
    repeat split; [done..|].
    intros [|j] z Hz Hlt; [lia|]. simpl in Hz.
    clear IH Hlt. revert j Hz. induction rest as [|r rest IHr]; intros j Hz; [done|].
    simpl in Hrest. destruct (findLast P rest) as [[? ?]|] eqn:Hr; [done|].
    destruct (P r) eqn:HPr; [done|].
    destruct j as [|j]; simpl in Hz; [by simplify_eq|]. by apply (IHr eq_refl j).
Qed.

Lemma findLast_None (P : Message -> bool) (all : list Message) :
  findLast P all = None -> forall m, m ∈ all -> P m = false.
Proof.
  induction all as [|m rest IH]; simpl; intros Hnone x Hx.
  - by apply elem_of_nil in Hx.
  - destruct (findLast P rest) as [[? ?]|] eqn:Hrest; [done|].
    destruct (P m) eqn:HPm; [done|].
    apply elem_of_cons in Hx as [->|Hx]; [done|]. by apply IH.
Qed.

Lemma findToolOwner_Some (tid : Id) (state : ChatStoreState) (i : nat) (m : Message) :
  findToolOwner tid state = Some (i, m) ->
  allMessages state !! i = Some m /\ ownsTool tid m = true.
Proof.
  unfold findToolOwner. intros Hf.
  destruct (streamingMessageId state) as [sid|].
  - destruct (list_find _ _) as [[idx x]|] eqn:Hfind.
    + destruct (ownsTool tid x) eqn:Hown.
      * simplify_eq. apply list_find_Some in Hfind as (Hi & _ & _). by split.
      * apply findLast_Some in Hf as (Hi & HP & _). by split.
    + apply findLast_Some in Hf as (Hi & HP & _). by split.
  - apply findLast_Some in Hf as (Hi & HP & _). by split.
Qed.

Lemma findToolOwner_None (tid : Id) (state : ChatStoreState) :
  findToolOwner tid state = None ->
  forall m, m ∈ allMessages state -> ownsTool tid m = false.
Proof.
  unfold findToolOwner. intros Hf.
  destruct (streamingMessageId state) as [sid|].
  - destruct (list_find _ _) as [[idx x]|] eqn:Hfind.
    + destruct (ownsTool tid x) eqn:Hown; [done|]. by apply findLast_None.
    + by apply findLast_None.
  - by apply findLast_None.
Qed.

(** [ownsTool] in words: an assistant message one of whose tools has the id. *)
Lemma ownsTool_true (tid : Id) (m : Message) :
  ownsTool tid m = true <->
  msg_role m = Assistant /\
  exists ts t, msg_tools m = Some ts /\ t ∈ ts /\ tool_id t = tid.
Proof.
  unfold ownsTool. rewrite andb_true_iff, bool_decide_eq_true.
  destruct (msg_tools m) as [ts|].
  - rewrite existsb_exists. split.
    + intros [Hr (t & Hin & Ht)]. apply bool_decide_eq_true in Ht.
      split; [done|]. exists ts, t. by rewrite list_elem_of_In.
    + intros [Hr (ts' & t & [= <-] & Hin & Ht)]. split; [done|].
      exists t. rewrite bool_decide_eq_true. by rewrite <- list_elem_of_In.
  - split; [by intros [_ ?]|]. intros [_ (ts & t & Hts & _)]. done.
Qed.

Lemma applyToolUpdate_same (u : ToolStatusUpdate) (t : ToolUsage) :
  tool_id t = upd_id u ->
  applyToolUpdate u t =
    mkToolUsage (tool_id t) (tool_name t) (upd_status u)
      (orElse (upd_result u) (tool_result t)).
Proof. intros Hid. unfold applyToolUpdate. by rewrite decide_True. Qed.

Lemma applyToolUpdate_other (u : ToolStatusUpdate) (t : ToolUsage) :
  tool_id t <> upd_id u -> applyToolUpdate u t = t.
Proof. intros Hid. unfold applyToolUpdate. by rewrite decide_False. Qed.

Lemma setAllMessages_same (s : ChatStoreState) : setAllMessages (allMessages s) s = s.
Proof. by destruct s. Qed.

(** ** The tool-status handler *)

(** C1, as stated, fails: a tool that has reached [success] is moved back to
    [queued] by a later tool-status event that carries the status [queued]
    and no result; only the result survives. *)
Lemma handleToolStatus_terminal_regresses :
  findToolOwner "t1" finishedToolState
    = Some (0, sampleAssistant "m1" "done" (Some [sampleTool "t1" Success (Some sampleResult)]))
  /\ allMessages (handleToolStatus lateQueuedEvent finishedToolState)
    = [sampleAssistant "m1" "done" (Some [sampleTool "t1" Queued (Some sampleResult)])].
Proof. split; vm_compute; reflexivity. Qed.

(** C1, amended: [handleToolStatus] writes the event's status over the status
    of every tool of the owning message that carries the event's tool id,
    whatever that status was, and keeps the tool's result when the event
    carries none. The tool is in a final status afterwards exactly when the
    event's status is final. *)
Theorem handleToolStatus_overwrites_status
    (chunk : StreamChunk) (state : ChatStoreState) (toolUpdate : ToolStatusUpdate)
    (i : nat) (message : Message) (ts : list ToolUsage) (k : nat) (t : ToolUsage) :
  toolStatus chunk = true ->
  tool chunk = Some toolUpdate ->
  findToolOwner (upd_id toolUpdate) state = Some (i, message) ->
  msg_tools message = Some ts ->
  ts !! k = Some t ->
  tool_id t = upd_id toolUpdate ->
  exists message' ts' t',
    allMessages (handleToolStatus chunk state) !! i = Some message' /\
    msg_tools message' = Some ts' /\
    ts' !! k = Some t' /\
    tool_id t' = tool_id t /\
    tool_status t' = upd_status toolUpdate /\
    tool_result t' = orElse (upd_result toolUpdate) (tool_result t) /\
    isNonFinal (tool_status t') = isNonFinal (upd_status toolUpdate).
Proof.
  intros Hflag Htool Hown Hts Hk Hid.
  unfold handleToolStatus. rewrite Hflag, Htool, Hown. simpl.
  destruct (findToolOwner_Some _ _ _ _ Hown) as [Hi _].
  exists (toolStatusMessage toolUpdate message),
    (map (applyToolUpdate toolUpdate) ts), (applyToolUpdate toolUpdate t).
  split.
  { apply replaceAt_lookup. by eapply lookup_lt_Some. }
  split.
  { unfold toolStatusMessage. simpl. by rewrite Hts. }
  split.
  { by rewrite list_lookup_fmap, Hk. }
  rewrite (applyToolUpdate_same _ _ Hid). by simpl.
Qed.

Lemma handleToolStatus_overwrites_status_witness :
  exists message' ts' t',
    allMessages (handleToolStatus lateQueuedEvent finishedToolState) !! 0 = Some message' /\
    msg_tools message' = Some ts' /\
    ts' !! 0 = Some t' /\
    tool_id t' = "t1" /\
    tool_status t' = Queued /\
    tool_result t' = Some sampleResult /\
    isNonFinal (tool_status t') = true.
Proof.
  apply (handleToolStatus_overwrites_status lateQueuedEvent finishedToolState
           (mkToolStatusUpdate "t1" Queued None) 0
           (sampleAssistant "m1" "done" (Some [sampleTool "t1" Success (Some sampleResult)]))
           [sampleTool "t1" Success (Some sampleResult)] 0
           (sampleTool "t1" Success (Some sampleResult)));
    reflexivity.
Defined.

Lemma handleToolStatus_unfold (chunk : StreamChunk) (state : ChatStoreState) :
  handleToolStatus chunk state = state \/
  exists toolUpdate i message,
    toolStatus chunk = true /\ tool chunk = Some toolUpdate /\
    findToolOwner (upd_id toolUpdate) state = Some (i, message) /\
    allMessages state !! i = Some message /\
    msg_role message = Assistant /\
    handleToolStatus chunk state =
      setAllMessages (<[i := toolStatusMessage toolUpdate message]> (allMessages state)) state.
Proof.
  unfold handleToolStatus.
  destruct (toolStatus chunk) eqn:Hflag; simpl; [|by left].
  destruct (tool chunk) as [toolUpdate|] eqn:Htool; [|by left].
  destruct (findToolOwner (upd_id toolUpdate) state) as [[i message]|] eqn:Hown; [|by left].
  right. exists toolUpdate, i, message.
  destruct (findToolOwner_Some _ _ _ _ Hown) as [Hi Howns].
  apply ownsTool_true in Howns as [Hrole _].
  rewrite replaceAt_insert by (by eapply lookup_lt_Some). done.
Qed.

Lemma applyToolUpdate_single (toolUpdate : ToolStatusUpdate) (ts : list ToolUsage)
    (k1 k2 : nat) (t1 t2 : ToolUsage) :
  NoDup (tool_id <$> ts) ->
  ts !! k1 = Some t1 -> ts !! k2 = Some t2 ->
  applyToolUpdate toolUpdate t1 <> t1 -> applyToolUpdate toolUpdate t2 <> t2 ->
  k1 = k2.
Proof.
  intros Hnd H1 H2 Hc1 Hc2.
  assert (tool_id t1 = upd_id toolUpdate) as E1.
  { destruct (decide (tool_id t1 = upd_id toolUpdate)) as [|Hne]; [done|].
    by rewrite applyToolUpdate_other in Hc1. }
  assert (tool_id t2 = upd_id toolUpdate) as E2.
  { destruct (decide (tool_id t2 = upd_id toolUpdate)) as [|Hne]; [done|].
    by rewrite applyToolUpdate_other in Hc2. }
  eapply (NoDup_lookup _ k1 k2 (upd_id toolUpdate) Hnd);
    rewrite list_lookup_fmap; [rewrite H1|rewrite H2]; simpl; congruence.
Qed.

(** C10: [handleToolStatus] changes nothing of the store but [allMessages],
    keeps its length, leaves every slot but one as it was, and in that one
    slot (an assistant message) changes only the tools: a tool with another
    id is kept as it is, a tool with the event's id gets the event's status
    and, when the event carries one, the event's result. With tool ids that
    are unique within the message, at most one tool entry changes. Without
    the flag, without the tool payload, or when no assistant message holds
    the tool id, the store is unchanged. *)
Theorem handleToolStatus_frame (chunk : StreamChunk) (state : ChatStoreState) :
  (streamingMessageId (handleToolStatus chunk state) = streamingMessageId state /\
   isStreaming (handleToolStatus chunk state) = isStreaming state /\
   isWaitingForResponse (handleToolStatus chunk state) = isWaitingForResponse state /\
   checkpointList (handleToolStatus chunk state) = checkpointList state /\
   windowStartIndex (handleToolStatus chunk state) = windowStartIndex state /\
   totalMessages (handleToolStatus chunk state) = totalMessages state /\
   foldedMessageCount (handleToolStatus chunk state) = foldedMessageCount state /\
   historyFolded (handleToolStatus chunk state) = historyFolded state /\
   stateError (handleToolStatus chunk state) = stateError state /\
   toolCallBuffer (handleToolStatus chunk state) = toolCallBuffer state) /\
  length (allMessages (handleToolStatus chunk state)) = length (allMessages state) /\
  (exists i, forall j, j <> i ->
     allMessages (handleToolStatus chunk state) !! j = allMessages state !! j) /\
  (forall j m m',
     allMessages state !! j = Some m ->
     allMessages (handleToolStatus chunk state) !! j = Some m' ->
     m' = m \/
     (msg_role m = Assistant /\
      exists toolUpdate,
        tool chunk = Some toolUpdate /\
        m' = setTools (map (applyToolUpdate toolUpdate) <$> msg_tools m) m)) /\
  (forall toolUpdate t,
     tool_id t <> upd_id toolUpdate -> applyToolUpdate toolUpdate t = t) /\
  (forall toolUpdate t,
     tool_id t = upd_id toolUpdate ->
     applyToolUpdate toolUpdate t =
       mkToolUsage (tool_id t) (tool_name t) (upd_status toolUpdate)
         (match upd_result toolUpdate with
          | Some r => Some r
          | None => tool_result t
          end)) /\
  (forall toolUpdate ts k1 k2 t1 t2,
     NoDup (tool_id <$> ts) ->
     ts !! k1 = Some t1 -> ts !! k2 = Some t2 ->
     applyToolUpdate toolUpdate t1 <> t1 -> applyToolUpdate toolUpdate t2 <> t2 ->
     k1 = k2) /\
  (toolStatus chunk = false \/ tool chunk = None \/
   (forall toolUpdate, tool chunk = Some toolUpdate ->
      forall m, m ∈ allMessages state ->
        ~ (msg_role m = Assistant /\
           exists ts t, msg_tools m = Some ts /\ t ∈ ts /\ tool_id t = upd_id toolUpdate)) ->
   handleToolStatus chunk state = state).
Proof.
  split; [|split; [|split; [|split; [|split; [|split; [|split]]]]]].
  - destruct (handleToolStatus_unfold chunk state) as [->|(u & i & m & _ & _ & _ & _ & _ & ->)];
      by repeat split.
  - destruct (handleToolStatus_unfold chunk state) as [->|(u & i & m & _ & _ & _ & _ & _ & ->)];
      [done|]. simpl. apply length_insert.
  - destruct (handleToolStatus_unfold chunk state) as [->|(u & i & m & _ & _ & _ & _ & _ & ->)].
    + by exists 0.
    + exists i. intros j Hne. simpl. apply list_lookup_insert_ne. congruence.
  - intros j m m' Hm Hm'.
    destruct (handleToolStatus_unfold chunk state)
      as [E|(u & i & x & _ & Htool & _ & Hi & Hrole & E)]; rewrite E in Hm'.
    + left. congruence.
    + simpl in Hm'. destruct (decide (j = i)) as [->|Hne].
      * rewrite list_lookup_insert_eq in Hm' by (by eapply lookup_lt_Some).
        right. simplify_eq. split; [done|]. by exists u.
      * rewrite list_lookup_insert_ne in Hm' by congruence. left. congruence.
  - intros. by apply applyToolUpdate_other.
  - intros u t Hid. by rewrite applyToolUpdate_same.
  - intros. by eapply applyToolUpdate_single.
  - intros Hcase. unfold handleToolStatus.
    destruct (toolStatus chunk) eqn:Hflag; simpl; [|done].
    destruct (tool chunk) as [u|] eqn:Htool; [|done].
    destruct (findToolOwner (upd_id u) state) as [[i m]|] eqn:Hown; [|done].
    exfalso. destruct Hcase as [?|[?|Hno]]; [done..|].
    destruct (findToolOwner_Some _ _ _ _ Hown) as [Hi Howns].
    apply ownsTool_true in Howns.
    apply (Hno u eq_refl m); [|done]. apply list_elem_of_lookup. by exists i.
Qed.

Lemma handleToolStatus_frame_witness :
  handleToolStatus emptyChunk finishedToolState = finishedToolState /\
  isStreaming (handleToolStatus lateQueuedEvent finishedToolState) = true /\
  streamingMessageId (handleToolStatus lateQueuedEvent finishedToolState) = Some "m1" /\
  length (allMessages (handleToolStatus lateQueuedEvent finishedToolState)) = 1.
Proof.
  destruct (handleToolStatus_frame emptyChunk finishedToolState)
    as (_ & _ & _ & _ & _ & _ & _ & Hnoop).
  destruct (handleToolStatus_frame lateQueuedEvent finishedToolState)
    as ((Hsid & Hstreaming & _) & Hlen & _).
  split; [apply Hnoop; by left|]. by rewrite Hsid, Hstreaming, Hlen.
Defined.

(** ** The window manager *)

(** C5: [trimWindowFromTop] on a window of at most [maxCount] messages
    returns 0 and the store as it was; on a longer window it drops the
    first [length - maxCount] messages, advances [windowStartIndex] by that
    number and returns it, keeps exactly the checkpoints whose
    [messageIndex] is not below the new [windowStartIndex], sets
    [historyFolded] and adds the number to [foldedMessageCount]. *)
Theorem trimWindowFromTop_spec (state : ChatStoreState) (maxCount : nat) :
  (length (allMessages state) <= maxCount ->
   trimWindowFromTop state maxCount = (state, 0%Z)) /\
  (maxCount < length (allMessages state) ->
   snd (trimWindowFromTop state maxCount)
     = Z.of_nat (length (allMessages state) - maxCount) /\
   allMessages (fst (trimWindowFromTop state maxCount))
     = drop (length (allMessages state) - maxCount) (allMessages state) /\
   length (allMessages (fst (trimWindowFromTop state maxCount))) = maxCount /\
   windowStartIndex (fst (trimWindowFromTop state maxCount))
     = (windowStartIndex state + Z.of_nat (length (allMessages state) - maxCount))%Z /\
   (forall cp,
      cp ∈ checkpointList (fst (trimWindowFromTop state maxCount)) <->
      cp ∈ checkpointList state /\
      ~ (cp_messageIndex cp < windowStartIndex (fst (trimWindowFromTop state maxCount)))%Z) /\
   checkpointList (fst (trimWindowFromTop state maxCount))
     = filter (fun cp => (cp_messageIndex cp >=
                            windowStartIndex state
                            + Z.of_nat (length (allMessages state) - maxCount))%Z)
         (checkpointList state) /\
   historyFolded (fst (trimWindowFromTop state maxCount)) = true /\
   foldedMessageCount (fst (trimWindowFromTop state maxCount))
     = (foldedMessageCount state + Z.of_nat (length (allMessages state) - maxCount))%Z).
Proof.
  unfold trimWindowFromTop. split; intros Hlen.
  - destruct (Z.leb_spec (Z.of_nat (length (allMessages state)) - Z.of_nat maxCount) 0);
      [done|lia].
  - destruct (Z.leb_spec (Z.of_nat (length (allMessages state)) - Z.of_nat maxCount) 0);
      [lia|].
    replace (Z.of_nat (length (allMessages state)) - Z.of_nat maxCount)%Z
      with (Z.of_nat (length (allMessages state) - maxCount)) by lia.
    rewrite Nat2Z.id. simpl.
    split; [done|]. split; [done|]. split; [rewrite length_drop; lia|].
    split; [done|]. split; [|done]. intros cp. split.
    + intros Hin. rewrite list_elem_of_filter in Hin. split; [tauto|lia].
    + intros [Hin Hge]. rewrite list_elem_of_filter. split; [lia|done].
Qed.

Lemma trimWindowFromTop_spec_witness :
  snd (trimWindowFromTop fiveMessageWindow 3) = 2%Z /\
  allMessages (fst (trimWindowFromTop fiveMessageWindow 3))
    = [sampleAssistant "c" "3" None; sampleAssistant "d" "4" None;
       sampleAssistant "e" "5" None] /\
  windowStartIndex (fst (trimWindowFromTop fiveMessageWindow 3)) = 12%Z /\
  foldedMessageCount (fst (trimWindowFromTop fiveMessageWindow 3)) = 2%Z.
Proof.
  destruct (proj2 (trimWindowFromTop_spec fiveMessageWindow 3))
    as (Hret & Hall & _ & Hstart & _ & _ & _ & Hfolded).
  { simpl. lia. }
  rewrite Hret, Hall, Hstart, Hfolded. by repeat split.
Defined.

Example trimWindowFromTop_scenarioE :
  snd (trimWindowFromTop scenarioE MAX_WINDOW_MESSAGES) = 100%Z /\
  length (allMessages (fst (trimWindowFromTop scenarioE MAX_WINDOW_MESSAGES))) = 800 /\
  windowStartIndex (fst (trimWindowFromTop scenarioE MAX_WINDOW_MESSAGES)) = 100%Z /\
  checkpointList (fst (trimWindowFromTop scenarioE MAX_WINDOW_MESSAGES))
    = [sampleCheckpoint "kept" 100] /\
  historyFolded (fst (trimWindowFromTop scenarioE MAX_WINDOW_MESSAGES)) = true.
Proof. vm_compute. by repeat split. Qed.

(** ** The counters of the window *)

Lemma addCheckpoints_counters (sink : CheckpointSink)
    (cps : option (list CheckpointRecord)) (s : ChatStoreState) :
  counters (addCheckpoints sink cps s) = counters s.
Proof. unfold addCheckpoints. by destruct cps. Qed.

Ltac handler_cases :=
  repeat match goal with
         | |- context [match ?x with _ => _ end] => destruct x eqn:?; simpl
         | |- context [let '(_, _) := ?x in _] => destruct x eqn:?; simpl
         end.

Section Counters.
Context `{Collaborators}.

Lemma dispatch_counters (kind : ChunkType) (chunk : StreamChunk) (env : Env)
    (s : ChatStoreState) :
  counters (dispatch kind chunk env s) = counters s.
Proof.
  destruct kind; simpl.
  - unfold handleChunkType. handler_cases; done.
  - unfold handleToolsExecuting. handler_cases; done.
  - unfold handleToolStatus. handler_cases; done.
  - unfold handleAwaitingConfirmation.
    match goal with |- counters (setIsStreaming _ ?x) = _ => change (counters x = counters s) end.
    rewrite addCheckpoints_counters. handler_cases; done.
  - unfold handleToolIteration.
    destruct (hasCancelledTools chunk).
    + match goal with
      | |- counters (setIsWaitingForResponse _ (setIsStreaming _ (setStreamingMessageId _ ?x))) = _ =>
          change (counters x = counters s)
      end.
      rewrite addCheckpoints_counters. handler_cases; done.
    + match goal with
      | |- counters (setIsWaitingForResponse _ (setIsStreaming _
                       (setStreamingMessageId _ (setAllMessages _ ?x)))) = _ =>
          change (counters x = counters s)
      end.
      rewrite addCheckpoints_counters. handler_cases; done.
  - unfold handleComplete.
    match goal with
    | |- counters (setIsWaitingForResponse _ (setIsStreaming _ (setStreamingMessageId _ ?x))) = _ =>
        change (counters x = counters s)
    end.
    rewrite addCheckpoints_counters. handler_cases; done.
  - apply addCheckpoints_counters.
  - unfold handleCancelled. handler_cases; done.
  - unfold handleError. handler_cases; done.
Qed.

Lemma perform_counters (s : ChatStoreState) (op : Operation) :
  (foldedMessageCount s <= foldedMessageCount (perform s op))%Z /\
  (totalMessages s <= totalMessages (perform s op))%Z.
Proof.
  destruct op as [kind chunk env|maxCount|]; simpl.
  - pose proof (dispatch_counters kind chunk env s) as E.
    unfold counters in E. injection E as -> ->. lia.
  - unfold trimWindowFromTop.
    destruct (Z.leb_spec (Z.of_nat (length (allMessages s)) - Z.of_nat maxCount) 0);
      simpl; lia.
  - lia.
Qed.

End Counters.

(** C9: along every sequence of dispatched events, window trims and
    resynchronisations, [foldedMessageCount] and [totalMessages] never
    decrease; [syncTotalMessagesFromWindow] sets [totalMessages] to the
    maximum of its value and [windowStartIndex + length allMessages], and a
    trim adds the number of dropped messages, which it returns and which is
    not negative, to [foldedMessageCount]. *)
Theorem window_counters_monotone `{Collaborators} (ops : list Operation) (state : ChatStoreState) :
  (foldedMessageCount state <= foldedMessageCount (run ops state))%Z /\
  (totalMessages state <= totalMessages (run ops state))%Z /\
  totalMessages (syncTotalMessagesFromWindow state)
    = Z.max (totalMessages state)
        (windowStartIndex state + Z.of_nat (length (allMessages state))) /\
  (forall maxCount,
     foldedMessageCount (fst (trimWindowFromTop state maxCount))
       = (foldedMessageCount state + snd (trimWindowFromTop state maxCount))%Z /\
     (0 <= snd (trimWindowFromTop state maxCount))%Z /\
     snd (trimWindowFromTop state maxCount)
       = Z.of_nat (length (allMessages state)
                   - length (allMessages (fst (trimWindowFromTop state maxCount))))).
Proof.
  split; [|split; [|split]].
  - revert state. unfold run. induction ops as [|op ops IH]; intros state; simpl; [lia|].
    specialize (IH (perform state op)). pose proof (perform_counters state op). lia.
  - revert state. unfold run. induction ops as [|op ops IH]; intros state; simpl; [lia|].
    specialize (IH (perform state op)). pose proof (perform_counters state op). lia.
  - done.
  - intros maxCount. unfold trimWindowFromTop.
    destruct (Z.leb_spec (Z.of_nat (length (allMessages state)) - Z.of_nat maxCount) 0);
      simpl.
    + split; [lia|]. split; [lia|]. lia.
    + split; [done|]. split; [lia|]. rewrite length_drop. lia.
Qed.

(** ** Cancellation and errors *)

Lemma truthyStr_false (o : option string) :
  truthyStr o = false <-> o = None \/ o = Some "".
Proof.
  destruct o as [s|]; simpl; [|naive_solver].
  rewrite negb_false_iff, String.eqb_eq. split; [intros ->; by right|].
  by intros [?|[= ->]].
Qed.

Lemma isEmptyMessage_true (m : Message) :
  isEmptyMessage m = true <-> EmptyMessage m.
Proof.
  unfold isEmptyMessage, EmptyMessage, hasPartsContent.
  rewrite !andb_true_iff, !negb_true_iff, truthyStr_false, bool_decide_eq_false.
  split.
  - intros [[Hc Ht] Hp]. split; [by destruct Hc as [?|[= ->]]|]. split.
    { destruct (msg_tools m); [|done]. exfalso. apply Ht. by eexists. }
    intros ps p Hps Hin. rewrite Hps in Hp.
    destruct (truthyStr (text p)) eqn:Htxt.
    { exfalso. apply not_true_iff_false in Hp. apply Hp. apply existsb_exists.
      exists p. rewrite <- list_elem_of_In, Htxt. done. }
    destruct (functionCall p) as [fc|] eqn:Hfc.
    { exfalso. apply not_true_iff_false in Hp. apply Hp. apply existsb_exists.
      exists p. rewrite <- list_elem_of_In, Hfc. split; [done|].
      rewrite orb_true_iff, bool_decide_eq_true. right. by eexists. }
    by apply truthyStr_false in Htxt.
  - intros (Hc & Ht & Hp). split; [split|].
    + right. by rewrite Hc.
    + rewrite Ht. by intros [? ?].
    + destruct (msg_parts m) as [ps|]; [|done].
      apply not_true_iff_false. intros Hex. apply existsb_exists in Hex as (p & Hin & Hor).
      apply list_elem_of_In in Hin. destruct (Hp ps p eq_refl Hin) as [Htxt Hfc].
      apply truthyStr_false in Htxt. rewrite Htxt, Hfc in Hor. done.
Qed.

Lemma cancelTarget_Some (state : ChatStoreState) (i : nat) (message : Message) :
  cancelTarget state = Some (i, message) ->
  allMessages state !! i = Some message /\
  ((exists sid, streamingMessageId state = Some sid /\ msg_id message = sid) \/
   (streamingMessageId state = None /\ S i = length (allMessages state) /\
    msg_role message = Assistant /\ msg_streaming message <> Some true)).
Proof.
  unfold cancelTarget. destruct (streamingMessageId state) as [sid|].
  - intros Hf. apply list_find_Some in Hf as (Hi & Hid & _). split; [done|]. left. by exists sid.
  - destruct (last (allMessages state)) as [lastMsg|] eqn:Hlast; [|done].
    destruct (bool_decide (msg_role lastMsg = Assistant)) eqn:Hrole; simpl; [|done].
    destruct (negb (default false (msg_streaming lastMsg))) eqn:Hstr; [|done].
    intros [= <- <-]. rewrite last_lookup in Hlast. split; [done|]. right.
    apply bool_decide_eq_true in Hrole. apply lookup_lt_Some in Hlast as Hlt.
    repeat split; [lia|done|]. intros Hs. by rewrite Hs in Hstr.
Qed.

Lemma cancelTool_nonFinal (t : ToolUsage) :
  isNonFinal (tool_status t) = true -> cancelTool t = setToolStatus Error t.
Proof. intros Hs. unfold cancelTool. by rewrite Hs. Qed.

Lemma cancelTool_final (t : ToolUsage) :
  isNonFinal (tool_status t) = false -> cancelTool t = t.
Proof. intros Hs. unfold cancelTool. by rewrite Hs. Qed.

(** C6: when [handleCancelled] locates a message, an empty one (empty
    content, no tools, no part with text or a function call) is removed from
    [allMessages]; any other is kept in its slot with [localOnly] false,
    each of its tools whose status is streaming, queued, awaiting_approval,
    executing or awaiting_apply set to [error], and its tools in [success]
    or [error] as they were. Either way [streamingMessageId] is cleared and
    [isStreaming] and [isWaitingForResponse] are false. *)
Theorem handleCancelled_spec (chunk : StreamChunk) (state : ChatStoreState)
    (i : nat) (message : Message) :
  cancelTarget state = Some (i, message) ->
  allMessages state !! i = Some message /\
  (EmptyMessage message ->
   allMessages (handleCancelled chunk state) = delete i (allMessages state)) /\
  (~ EmptyMessage message ->
   exists message',
     allMessages (handleCancelled chunk state) = <[i := message']> (allMessages state) /\
     msg_id message' = msg_id message /\
     msg_role message' = msg_role message /\
     msg_content message' = msg_content message /\
     msg_parts message' = msg_parts message /\
     msg_localOnly message' = Some false /\
     msg_streaming message' = Some false /\
     msg_tools message' = map cancelTool <$> msg_tools message) /\
  (forall t,
     tool_status t ∈ [Streaming; Queued; AwaitingApproval; Executing; AwaitingApply] ->
     cancelTool t = mkToolUsage (tool_id t) (tool_name t) Error (tool_result t)) /\
  (forall t, tool_status t = Success \/ tool_status t = Error -> cancelTool t = t) /\
  streamingMessageId (handleCancelled chunk state) = None /\
  isStreaming (handleCancelled chunk state) = false /\
  isWaitingForResponse (handleCancelled chunk state) = false.
Proof.
  intros Htarget. destruct (cancelTarget_Some _ _ _ Htarget) as [Hi _].
  split; [done|]. unfold handleCancelled. rewrite Htarget.
  split; [|split; [|split; [|split]]].
  - intros Hempty. apply isEmptyMessage_true in Hempty. by rewrite Hempty.
  - intros Hempty. destruct (isEmptyMessage message) eqn:E.
    { exfalso. by apply Hempty, isEmptyMessage_true. }
    exists (cancelledMessage chunk message). simpl.
    rewrite replaceAt_insert by (by eapply lookup_lt_Some). done.
  - intros t Hin. apply cancelTool_nonFinal.
    repeat (apply elem_of_cons in Hin as [->|Hin]; [done|]). by apply elem_of_nil in Hin.
  - intros t [Hs|Hs]; apply cancelTool_final; by rewrite Hs.
  - by destruct (isEmptyMessage message).
Qed.

Lemma handleCancelled_spec_witness :
  (exists message',
     allMessages (handleCancelled emptyChunk runningTurnState) = [message'] /\
     msg_localOnly message' = Some false /\
     msg_tools message'
       = Some [sampleTool "t1" Error None; sampleTool "t2" Success (Some sampleResult)]) /\
  allMessages (handleCancelled emptyChunk placeholderState) = [runningTurnMessage] /\
  streamingMessageId (handleCancelled emptyChunk placeholderState) = None /\
  isStreaming (handleCancelled emptyChunk placeholderState) = false.
Proof.
  destruct (handleCancelled_spec emptyChunk runningTurnState 0 runningTurnMessage eq_refl)
    as (_ & _ & Hkept & _).
  destruct Hkept as (message' & Hall & _ & _ & _ & _ & Hlocal & _ & Htools);
    [by intros [? _]|].
  destruct (handleCancelled_spec emptyChunk placeholderState 1 placeholderMessage eq_refl)
    as (_ & Hremoved & _ & _ & _ & Hid & Hstr & _).
  split; [by exists message'|].
  rewrite Hremoved by (by repeat split). by repeat split.
Defined.

Lemma findMessage_Some (sid : option Id) (all : list Message) (i : nat) (message : Message) :
  findMessage sid all = Some (i, message) <->
  exists s, sid = Some s /\ all !! i = Some message /\ msg_id message = s /\
            forall j y, all !! j = Some y -> j < i -> msg_id y <> s.
Proof.
  unfold findMessage. destruct sid as [s|].
  - rewrite list_find_Some. split.
    + intros (Hi & Hid & Hfirst). exists s. naive_solver.
    + intros (s' & [= <-] & Hi & Hid & Hfirst). naive_solver.
  - split; [done|]. by intros (s & ? & _).
Qed.

Lemma findMessage_None (sid : Id) (all : list Message) :
  findMessage (Some sid) all = None <-> forall m, m ∈ all -> msg_id m <> sid.
Proof.
  unfold findMessage. rewrite list_find_None, Forall_forall. done.
Qed.

(** C7: [handleError] stores the event's error, or the pair
    [STREAM_ERROR] / [Stream error] when the event has none; clears
    [streamingMessageId], [isStreaming] and [isWaitingForResponse]; and
    removes the message [streamingMessageId] names when that message is
    empty (empty content, no tools, no part with text or a function call).
    Every other message stays, and when the named message is not empty, or
    there is none, [allMessages] is as it was. *)
Theorem handleError_spec (chunk : StreamChunk) (state : ChatStoreState) :
  stateError (handleError chunk state)
    = Some (match error chunk with
            | Some e => e
            | None => mkStreamError "STREAM_ERROR" "Stream error"
            end) /\
  streamingMessageId (handleError chunk state) = None /\
  isStreaming (handleError chunk state) = false /\
  isWaitingForResponse (handleError chunk state) = false /\
  (forall sid i message,
     streamingMessageId state = Some sid ->
     allMessages state !! i = Some message ->
     msg_id message = sid ->
     (forall j y, allMessages state !! j = Some y -> j < i -> msg_id y <> sid) ->
     (EmptyMessage message ->
      (message ∉ allMessages (handleError chunk state)) /\
      allMessages (handleError chunk state)
        = filter (fun m => msg_id m <> sid) (allMessages state) /\
      forall m, msg_id m <> sid ->
        (m ∈ allMessages (handleError chunk state) <-> m ∈ allMessages state)) /\
     (~ EmptyMessage message ->
      allMessages (handleError chunk state) = allMessages state)) /\
  ((forall sid, streamingMessageId state = Some sid ->
      forall m, m ∈ allMessages state -> msg_id m <> sid) ->
   allMessages (handleError chunk state) = allMessages state).
Proof.
  unfold handleError.
  split; [destruct (error chunk); simpl; handler_cases; done|].
  split; [simpl; handler_cases; done|].
  split; [simpl; handler_cases; done|].
  split; [simpl; handler_cases; done|].
  split.
  - intros sid i message Hsid Hi Hid Hfirst. simpl. rewrite Hsid.
    assert (findMessage (Some sid) (allMessages state) = Some (i, message)) as Hfind.
    { apply findMessage_Some. by exists sid. }
    simpl in Hfind. rewrite Hfind. split.
    + intros Hempty. apply isEmptyMessage_true in Hempty. rewrite Hempty. simpl.
      split; [|split; [done|]].
      * rewrite list_elem_of_filter. by intros [? _].
      * intros m Hm. rewrite list_elem_of_filter. split; [by intros [_ ?]|by split].
    + intros Hempty. destruct (isEmptyMessage message) eqn:E; [|done].
      exfalso. by apply Hempty, isEmptyMessage_true.
  - intros Hnone. simpl. destruct (streamingMessageId state) as [sid|] eqn:Hsid; [|done].
    assert (findMessage (Some sid) (allMessages state) = None) as Hfind.
    { apply findMessage_None. by apply Hnone. }
    simpl in Hfind. by rewrite Hfind.
Qed.

Lemma handleError_spec_witness :
  stateError (handleError emptyChunk placeholderState)
    = Some (mkStreamError "STREAM_ERROR" "Stream error") /\
  streamingMessageId (handleError emptyChunk placeholderState) = None /\
  allMessages (handleError emptyChunk placeholderState) = [runningTurnMessage] /\
  allMessages (handleError emptyChunk runningTurnState) = [runningTurnMessage].
Proof.
  destruct (handleError_spec emptyChunk placeholderState) as (Herr & Hid & _ & _ & Hnamed & _).
  destruct (Hnamed "m2" 1 placeholderMessage eq_refl eq_refl eq_refl) as [Hremoved _].
  { intros [|[|j]] y Hy Hlt; [by simplify_eq/=|lia|lia]. }
  destruct Hremoved as (_ & Hall & _); [by repeat split|].
  destruct (handleError_spec emptyChunk runningTurnState) as (_ & _ & _ & _ & Hnamed' & _).
  destruct (Hnamed' "m1" 0 runningTurnMessage eq_refl eq_refl eq_refl) as [_ Hkept].
  { intros j y _ Hlt. lia. }
  rewrite Herr, Hid, Hall, Hkept by (by intros [? _]). by repeat split.
Defined.

(** ** The tools-executing handler *)

Lemma restatusExecuting_spec (pending : list Id) (tool : ToolUsage) :
  tool_id (restatusExecuting pending tool) = tool_id tool /\
  tool_name (restatusExecuting pending tool) = tool_name tool /\
  tool_result (restatusExecuting pending tool) = tool_result tool /\
  (head pending = Some (tool_id tool) ->
   tool_status (restatusExecuting pending tool) = Executing) /\
  (head pending <> Some (tool_id tool) -> tool_id tool ∈ tail pending ->
   tool_status (restatusExecuting pending tool) = Queued) /\
  (head pending <> Some (tool_id tool) -> tool_id tool ∉ tail pending ->
   tool_status tool = Streaming ->
   tool_status (restatusExecuting pending tool) = Queued) /\
  (head pending <> Some (tool_id tool) -> tool_id tool ∉ tail pending ->
   tool_status tool <> Streaming ->
   tool_status (restatusExecuting pending tool) = tool_status tool).
Proof.
  unfold restatusExecuting.
  destruct (decide (head pending = Some (tool_id tool))) as [Hhead|Hhead].
  { by repeat split. }
  destruct (decide (tool_id tool ∈ tail pending)) as [Htail|Htail].
  { by repeat split. }
  repeat split; try done.
  - intros _ _ Hs. simpl. unfold baseStatus. by rewrite Hs.
  - intros _ _ Hs. simpl. unfold baseStatus. by destruct (tool_status tool).
Qed.

(** C4: [handleToolsExecuting] sets [isStreaming]; and when the event carries
    content and [streamingMessageId] names a message, the slot of that
    message holds the rebuilt message whose tools are the merged tools, in
    order, each with the status its rank gives it: the tool whose id is the
    first of [pendingToolCalls] is executing, a tool whose id is among the
    later ones is queued, a tool with no rank that was streaming is queued,
    and any other tool has the status it had. *)
Theorem handleToolsExecuting_spec `{Collaborators} (chunk : StreamChunk) (state : ChatStoreState) :
  isStreaming (handleToolsExecuting chunk state) = true /\
  forall sid i message c,
    streamingMessageId state = Some sid ->
    allMessages state !! i = Some message ->
    msg_id message = sid ->
    (forall j y, allMessages state !! j = Some y -> j < i -> msg_id y <> sid) ->
    content chunk = Some c ->
    exists message',
      allMessages (handleToolsExecuting chunk state) = <[i := message']> (allMessages state) /\
      msg_localOnly message' = Some false /\
      msg_tools message'
        = match mergeTools (default [] (msg_tools message))
                  (default [] (msg_tools (contentToMessage (Some c) (msg_id message)))) with
          | [] => None
          | merged => Some (map (restatusExecuting (default [] (pendingToolCalls chunk))) merged)
          end /\
      forall tool,
        tool_id (restatusExecuting (default [] (pendingToolCalls chunk)) tool) = tool_id tool /\
        tool_name (restatusExecuting (default [] (pendingToolCalls chunk)) tool) = tool_name tool /\
        tool_result (restatusExecuting (default [] (pendingToolCalls chunk)) tool) = tool_result tool /\
        (head (default [] (pendingToolCalls chunk)) = Some (tool_id tool) ->
         tool_status (restatusExecuting (default [] (pendingToolCalls chunk)) tool) = Executing) /\
        (head (default [] (pendingToolCalls chunk)) <> Some (tool_id tool) ->
         tool_id tool ∈ tail (default [] (pendingToolCalls chunk)) ->
         tool_status (restatusExecuting (default [] (pendingToolCalls chunk)) tool) = Queued) /\
        (head (default [] (pendingToolCalls chunk)) <> Some (tool_id tool) ->
         tool_id tool ∉ tail (default [] (pendingToolCalls chunk)) ->
         tool_status tool = Streaming ->
         tool_status (restatusExecuting (default [] (pendingToolCalls chunk)) tool) = Queued) /\
        (head (default [] (pendingToolCalls chunk)) <> Some (tool_id tool) ->
         tool_id tool ∉ tail (default [] (pendingToolCalls chunk)) ->
         tool_status tool <> Streaming ->
         tool_status (restatusExecuting (default [] (pendingToolCalls chunk)) tool)
           = tool_status tool).
Proof.
  split.
  { unfold handleToolsExecuting. simpl. handler_cases; done. }
  intros sid i message c Hsid Hi Hid Hfirst Hc.
  assert (findMessage (Some sid) (allMessages state) = Some (i, message)) as Hfind.
  { apply findMessage_Some. by exists sid. }
  unfold handleToolsExecuting. simpl. rewrite Hsid, Hfind, Hc.
  exists (toolsExecutingMessage chunk c message). simpl.
  rewrite replaceAt_insert by (by eapply lookup_lt_Some).
  split; [done|]. split; [done|]. split.
  - by destruct (mergeTools _ _).
  - intros tool. apply restatusExecuting_spec.
Qed.

Lemma handleToolsExecuting_spec_witness :
  isStreaming (handleToolsExecuting scenarioBEvent scenarioBState) = true /\
  exists message',
    allMessages (handleToolsExecuting scenarioBEvent scenarioBState) = [message'] /\
    msg_tools message' = Some [sampleTool "t1" Executing None; sampleTool "t2" Queued None].
Proof.
  destruct (handleToolsExecuting_spec scenarioBEvent scenarioBState) as [Hstreaming Hslot].
  split; [done|].
  destruct (Hslot "m1" 0 scenarioBMessage sampleContent eq_refl eq_refl eq_refl)
    as (message' & Hall & _ & Htools & _); [intros j y _ Hlt; lia|reflexivity|].
  by exists message'.
Defined.

(** ** The tool-iteration handler *)

Lemma elem_of_flaggedIds (flag : ToolResult -> bool)
    (results : option (list ToolResultEntry)) (tid : Id) :
  tid ∈ flaggedIds flag results <->
  exists rs r, results = Some rs /\ r ∈ rs /\ tr_id r = Some tid /\ flag (tr_result r) = true.
Proof.
  unfold flaggedIds. destruct results as [rs|].
  - rewrite list_elem_of_omap. split.
    + intros (r & Hin & Hr). exists rs, r.
      destruct (flag (tr_result r)) eqn:Hflag; [done|done].
    + intros (rs' & r & [= <-] & Hin & Hid & Hflag). exists r. by rewrite Hflag.
  - split; [by intros ?%elem_of_nil|]. by intros (rs & r & ? & _).
Qed.

Lemma restatusIteration_spec (chunk : StreamChunk) (tool : ToolUsage) :
  tool_id (restatusIteration (flaggedIds cancelled (toolResults chunk))
             (flaggedIds rejected (toolResults chunk)) tool) = tool_id tool /\
  (FlaggedResult chunk (tool_id tool) ->
   tool_status (restatusIteration (flaggedIds cancelled (toolResults chunk))
                  (flaggedIds rejected (toolResults chunk)) tool) = Error) /\
  (~ FlaggedResult chunk (tool_id tool) ->
   tool_status (restatusIteration (flaggedIds cancelled (toolResults chunk))
                  (flaggedIds rejected (toolResults chunk)) tool) = Success).
Proof.
  unfold restatusIteration, FlaggedResult. split; [done|].
  destruct (decide _) as [Hin|Hin]; simpl.
  - split; [done|]. intros Hno. exfalso. apply Hno.
    destruct Hin as [Hin|Hin]; apply elem_of_flaggedIds in Hin as (rs & r & ? & ? & ? & ?);
      exists rs, r; auto.
  - split; [|done]. intros (rs & r & ? & ? & ? & [?|?]); exfalso; apply Hin;
      [left|right]; apply elem_of_flaggedIds; by exists rs, r.
Qed.

Lemma hasCancelledTools_true (chunk : StreamChunk) :
  hasCancelledTools chunk = true <-> SomeToolCancelled chunk.
Proof.
  unfold hasCancelledTools, SomeToolCancelled.
  destruct (flaggedIds cancelled (toolResults chunk)) as [|tid ids] eqn:Hids.
  - split; [done|]. intros (rs & r & tid & Hrs & Hin & Hid & Hc).
    assert (tid ∈ flaggedIds cancelled (toolResults chunk)) as Hel.
    { apply elem_of_flaggedIds. by exists rs, r. }
    rewrite Hids in Hel. by apply elem_of_nil in Hel.
  - split; [|done]. intros _.
    assert (tid ∈ flaggedIds cancelled (toolResults chunk)) as Hel.
    { rewrite Hids. by left. }
    apply elem_of_flaggedIds in Hel as (rs & r & ? & ? & ? & ?). by exists rs, r, tid.
Qed.

(** What [appendFunctionResponses] can do to the history: leave it, or add
    one hidden function-response message at its end. *)
Lemma appendFunctionResponses_cases (clk : Clock)
    (results : option (list ToolResultEntry)) (all : list Message) :
  appendFunctionResponses clk results all = all \/
  exists parts, parts <> [] /\
    appendFunctionResponses clk results all = all ++ [responseMessage clk parts].
Proof.
  unfold appendFunctionResponses. destruct results as [[|r rs]|]; [by left| |by left].
  destruct (newResponseParts _ _) as [|p ps] eqn:Hparts; [by left|].
  right. by exists (p :: ps).
Qed.

Lemma addCheckpoints_fields (sink : CheckpointSink)
    (cps : option (list CheckpointRecord)) (s : ChatStoreState) :
  allMessages (addCheckpoints sink cps s) = allMessages s /\
  streamingMessageId (addCheckpoints sink cps s) = streamingMessageId s /\
  isStreaming (addCheckpoints sink cps s) = isStreaming s /\
  isWaitingForResponse (addCheckpoints sink cps s) = isWaitingForResponse s.
Proof. unfold addCheckpoints. by destruct cps. Qed.

(** C2, as stated, fails: a result that is flagged cancelled and carries no
    id does not end the turn. The handler appends the placeholder of the
    next turn, names it in [streamingMessageId] and sets both flags. *)
Lemma handleToolIteration_cancelled_without_id :
  SomeResultCancelled anonymousCancelEvent /\
  findMessage (streamingMessageId scenarioDState) (allMessages scenarioDState)
    = Some (0, scenarioDMessage) /\
  streamingMessageId
    (handleToolIteration anonymousCancelEvent scenarioDState "model" appendCheckpoint
       respClock nextClock) = Some "asst-2" /\
  isStreaming
    (handleToolIteration anonymousCancelEvent scenarioDState "model" appendCheckpoint
       respClock nextClock) = true /\
  isWaitingForResponse
    (handleToolIteration anonymousCancelEvent scenarioDState "model" appendCheckpoint
       respClock nextClock) = true /\
  last (allMessages
          (handleToolIteration anonymousCancelEvent scenarioDState "model" appendCheckpoint
             respClock nextClock))
    = Some (newAssistantMessage nextClock "model").
Proof.
  split.
  { eexists _, _. split; [reflexivity|]. split; [by left|reflexivity]. }
  by repeat split.
Qed.

(** C2, amended: when [streamingMessageId] names a message, its slot holds
    the rebuilt message, each of whose tools has the status [error] if a
    result of the event that carries the tool's id is flagged cancelled or
    rejected, and [success] otherwise. If a result that carries an id is
    flagged cancelled, [streamingMessageId] is cleared, [isStreaming] and
    [isWaitingForResponse] are false, and nothing is appended but, at most,
    the hidden function-response message. If no result that carries an id is
    flagged cancelled, an empty assistant message that is streaming is
    appended last, [streamingMessageId] is its id, and both flags are
    true. *)
Theorem handleToolIteration_spec `{Collaborators}
    (chunk : StreamChunk) (state : ChatStoreState) (modelName : string)
    (sink : CheckpointSink) (respClk newClk : Clock)
    (sid : Id) (i : nat) (message : Message) :
  streamingMessageId state = Some sid ->
  allMessages state !! i = Some message ->
  msg_id message = sid ->
  (forall j y, allMessages state !! j = Some y -> j < i -> msg_id y <> sid) ->
  exists message' rest,
    allMessages (handleToolIteration chunk state modelName sink respClk newClk)
      = <[i := message']> (allMessages state) ++ rest /\
    msg_tools message'
      = map (restatusIteration (flaggedIds cancelled (toolResults chunk))
               (flaggedIds rejected (toolResults chunk)))
          <$> restoreTools (msg_tools message)
                (msg_tools (contentToMessage (content chunk) (msg_id message))) /\
    (forall ts tool, msg_tools message' = Some ts -> tool ∈ ts ->
       (FlaggedResult chunk (tool_id tool) -> tool_status tool = Error) /\
       (~ FlaggedResult chunk (tool_id tool) -> tool_status tool = Success)) /\
    (SomeToolCancelled chunk ->
     streamingMessageId (handleToolIteration chunk state modelName sink respClk newClk) = None /\
     isStreaming (handleToolIteration chunk state modelName sink respClk newClk) = false /\
     isWaitingForResponse (handleToolIteration chunk state modelName sink respClk newClk) = false /\
     (rest = [] \/ exists parts, rest = [responseMessage respClk parts])) /\
    (~ SomeToolCancelled chunk ->
     streamingMessageId (handleToolIteration chunk state modelName sink respClk newClk)
       = Some (nextId newClk) /\
     isStreaming (handleToolIteration chunk state modelName sink respClk newClk) = true /\
     isWaitingForResponse (handleToolIteration chunk state modelName sink respClk newClk) = true /\
     exists placeholder,
       (rest = [placeholder] \/
        exists parts, rest = [responseMessage respClk parts; placeholder]) /\
       msg_id placeholder = nextId newClk /\
       msg_role placeholder = Assistant /\
       msg_content placeholder = "" /\
       msg_parts placeholder = None /\
       msg_tools placeholder = None /\
       msg_streaming placeholder = Some true).
Proof.
  intros Hsid Hi Hid Hfirst.
  assert (findMessage (Some sid) (allMessages state) = Some (i, message)) as Hfind.
  { apply findMessage_Some. by exists sid. }
  pose proof (lookup_lt_Some _ _ _ Hi) as Hlt.
  unfold handleToolIteration. rewrite Hsid, Hfind.
  rewrite replaceAt_insert by done. cbn [allMessages setAllMessages].
  set (slot := <[i := toolIterationMessage chunk message]> (allMessages state)).
  destruct (appendFunctionResponses_cases respClk (toolResults chunk) slot)
    as [Happ|(parts & _ & Happ)]; rewrite Happ; clear Happ.
  - exists (toolIterationMessage chunk message),
      (if hasCancelledTools chunk then [] else [newAssistantMessage newClk modelName]).
    split.
    { destruct (hasCancelledTools chunk); simpl;
        rewrite (proj1 (addCheckpoints_fields _ _ _)); simpl; [by rewrite app_nil_r|done]. }
    split; [done|]. split.
    { intros ts tool Hts Hin. simpl in Hts.
      destruct (restoreTools _ _) as [rt|]; [|done]. simpl in Hts. simplify_eq.
      apply list_elem_of_fmap in Hin as (t0 & -> & _).
      destruct (restatusIteration_spec chunk t0) as (Hid0 & Hflag & Hnoflag).
      unfold FlaggedResult in *. rewrite Hid0. done. }
    split.
    + intros Hc. apply hasCancelledTools_true in Hc. rewrite Hc. simpl. auto.
    + intros Hc. destruct (hasCancelledTools chunk) eqn:E.
      { exfalso. by apply Hc, hasCancelledTools_true. }
      simpl. repeat split. exists (newAssistantMessage newClk modelName). by repeat split; auto.
  - exists (toolIterationMessage chunk message),
      (responseMessage respClk parts ::
       if hasCancelledTools chunk then [] else [newAssistantMessage newClk modelName]).
    split.
    { destruct (hasCancelledTools chunk); simpl;
        rewrite (proj1 (addCheckpoints_fields _ _ _)); simpl; [done|].
      by rewrite <- app_assoc. }
    split; [done|]. split.
    { intros ts tool Hts Hin. simpl in Hts.
      destruct (restoreTools _ _) as [rt|]; [|done]. simpl in Hts. simplify_eq.
      apply list_elem_of_fmap in Hin as (t0 & -> & _).
      destruct (restatusIteration_spec chunk t0) as (Hid0 & Hflag & Hnoflag).
      unfold FlaggedResult in *. rewrite Hid0. done. }
    split.
    + intros Hc. apply hasCancelledTools_true in Hc. rewrite Hc. simpl.
      repeat split. right. by exists parts.
    + intros Hc. destruct (hasCancelledTools chunk) eqn:E.
      { exfalso. by apply Hc, hasCancelledTools_true. }
      simpl. repeat split. exists (newAssistantMessage newClk modelName).
      split; [right; by exists parts|]. by repeat split.
Qed.

Lemma handleToolIteration_spec_witness :
  streamingMessageId
    (handleToolIteration scenarioDEvent scenarioDState "model" appendCheckpoint
       respClock nextClock) = None /\
  isStreaming
    (handleToolIteration scenarioDEvent scenarioDState "model" appendCheckpoint
       respClock nextClock) = false /\
  isWaitingForResponse
    (handleToolIteration scenarioDEvent scenarioDState "model" appendCheckpoint
       respClock nextClock) = false /\
  exists message' rest,
    allMessages
      (handleToolIteration scenarioDEvent scenarioDState "model" appendCheckpoint
         respClock nextClock) = message' :: rest /\
    msg_tools message' = Some [sampleTool "t1" Error None] /\
    (rest = [] \/ exists parts, rest = [responseMessage respClock parts]).
Proof.
  destruct (handleToolIteration_spec scenarioDEvent scenarioDState "model" appendCheckpoint
              respClock nextClock "m1" 0 scenarioDMessage eq_refl eq_refl eq_refl)
    as (message' & rest & Hall & Htools & _ & Hcancelled & _).
  { intros j y _ Hlt. lia. }
  destruct Hcancelled as (Hid & Hstr & Hwait & Hrest).
  { eexists _, _, "t1". split; [reflexivity|]. split; [by left|]. by split. }
  split; [done|]. split; [done|]. split; [done|].
  by exists message', rest.
Defined.

Example handleToolIteration_scenarioD :
  allMessages
    (handleToolIteration scenarioDEvent scenarioDState "model" appendCheckpoint
       respClock nextClock)
  = [mkMessage "m1" Assistant "" 0 (Some []) (Some [sampleTool "t1" Error None])
       (Some emptyMetadata) (Some false) (Some false) None;
     responseMessage respClock
       [responsePart (mkToolResultEntry (Some "t1") "read_file" (mkToolResult true false ""))]].
Proof. vm_compute. reflexivity. Qed.

(** ** Hidden function-response messages *)

(** C3, as stated, fails: the check against the history is made once, before
    the results of the event are turned into parts, so a result id that the
    awaiting-confirmation event lists twice is appended twice, in the one
    hidden message the event adds; the tool-iteration event that replays the
    id adds nothing and removes nothing. The history ends with two
    function-response parts with the id. *)
Lemma replayed_result_listed_twice :
  resultOccurrences "t1" (toolResults doubledConfirmationEvent) = 2 /\
  resultOccurrences "t1" (toolResults iterationEvent) = 1 /\
  countResponses "t1" (allMessages twoToolState) = 0 /\
  countResponses "t1"
    (allMessages
       (handleToolIteration iterationEvent
          (handleAwaitingConfirmation doubledConfirmationEvent twoToolState
             appendCheckpoint respClock)
          "model" appendCheckpoint nextClock thirdClock)) = 2 /\
  countCarriers "t1"
    (allMessages
       (handleToolIteration iterationEvent
          (handleAwaitingConfirmation doubledConfirmationEvent twoToolState
             appendCheckpoint respClock)
          "model" appendCheckpoint nextClock thirdClock)) = 1.
Proof. by repeat split. Qed.

Lemma existingResponseIds_app (l1 l2 : list Message) :
  existingResponseIds (l1 ++ l2) = existingResponseIds l1 ++ existingResponseIds l2.
Proof. unfold existingResponseIds. by rewrite fmap_app, concat_app. Qed.

Lemma existingResponseIds_cons (m : Message) (l : list Message) :
  existingResponseIds (m :: l) = responseIdsOf m ++ existingResponseIds l.
Proof. done. Qed.

Lemma countResponses_app (tid : Id) (l1 l2 : list Message) :
  countResponses tid (l1 ++ l2) = countResponses tid l1 + countResponses tid l2.
Proof.
  unfold countResponses. by rewrite existingResponseIds_app, filter_app, length_app.
Qed.

Lemma countResponses_zero (tid : Id) (all : list Message) :
  countResponses tid all = 0 <-> tid ∉ existingResponseIds all.
Proof.
  unfold countResponses. rewrite length_zero_iff_nil. split.
  - intros Hnil Hin.
    assert (tid ∈ filter (fun i => i = tid) (existingResponseIds all)) as Hf.
    { by apply list_elem_of_filter. }
    rewrite Hnil in Hf. by apply elem_of_nil in Hf.
  - intros Hnot. induction (existingResponseIds all) as [|x l IH]; [done|].
    rewrite filter_cons. apply not_elem_of_cons in Hnot as [Hne Hnot].
    rewrite decide_False by congruence. by apply IH.
Qed.

(** The ids of the parts built from the results of an event. *)
Lemma responseIdsOf_responseMessage (clk : Clock) (existing : list Id)
    (rs : list ToolResultEntry) :
  responseIdsOf (responseMessage clk (newResponseParts existing rs))
    = omap tr_id (filter (fun r => isNewResult existing r = true) rs).
Proof.
  unfold responseIdsOf, responseMessage, newResponseParts.
  cbn [msg_isFunctionResponse msg_parts].
  induction (filter _ rs) as [|r l IH]; [done|].
  rewrite fmap_cons. change (omap ?f (?x :: ?l)) with
    (match f x with Some y => y :: omap f l | None => omap f l end).
  rewrite IH. done.
Qed.

Lemma newResponseIds_count (tid : Id) (existing : list Id) (rs : list ToolResultEntry) :
  length (filter (fun i => i = tid)
            (omap tr_id (filter (fun r => isNewResult existing r = true) rs)))
  = if decide (tid ∈ existing) then 0
    else length (filter (fun r => tr_id r = Some tid) rs).
Proof.
  induction rs as [|r rs IH].
  { by destruct (decide _). }
  rewrite !filter_cons.
  destruct (decide (isNewResult existing r = true)) as [Hnew|Hold].
  - unfold isNewResult in Hnew. destruct (tr_id r) as [i|] eqn:Hid; [|done].
    apply bool_decide_eq_true in Hnew.
    change (omap ?f (?x :: ?l)) with
      (match f x with Some y => y :: omap f l | None => omap f l end).
    rewrite Hid, filter_cons.
    destruct (decide (i = tid)) as [->|Hne].
    + rewrite decide_False in IH by done.
      rewrite decide_False by done. rewrite decide_True by done. simpl. by rewrite IH.
    + rewrite IH. destruct (decide (tid ∈ existing)); [done|].
      rewrite decide_False by congruence. done.
  - rewrite IH. destruct (decide (tid ∈ existing)) as [|Hnot]; [done|].
    destruct (decide (tr_id r = Some tid)) as [Hid|Hne]; [|done].
    exfalso. apply Hold. unfold isNewResult. rewrite Hid. by apply bool_decide_eq_true.
Qed.

(** What the shared block adds for an id: nothing when the history already
    has a part with the id, one part per result that carries it otherwise. *)
Lemma countResponses_appendFunctionResponses (tid : Id) (clk : Clock)
    (results : option (list ToolResultEntry)) (all : list Message) :
  countResponses tid (appendFunctionResponses clk results all)
  = countResponses tid all
    + (if decide (tid ∈ existingResponseIds all) then 0
       else resultOccurrences tid results).
Proof.
  unfold appendFunctionResponses, resultOccurrences.
  destruct results as [[|r rs]|]; simpl.
  - destruct (decide _); lia.
  - pose proof (newResponseIds_count tid (existingResponseIds all) (r :: rs)) as Hcount.
    pose proof (responseIdsOf_responseMessage clk (existingResponseIds all) (r :: rs)) as Hids.
    destruct (newResponseParts (existingResponseIds all) (r :: rs)) as [|p ps] eqn:Hparts.
    + unfold newResponseParts in Hparts. apply fmap_nil_inv in Hparts.
      rewrite Hparts in Hcount. simpl in Hcount. lia.
    + rewrite countResponses_app. f_equal.
      unfold countResponses, existingResponseIds. simpl. rewrite app_nil_r.
      rewrite Hids. exact Hcount.
  - destruct (decide _); lia.
Qed.

(** The parts a handler appends come from results that carry an id the
    history does not hold yet. *)
Lemma appendFunctionResponses_new (clk : Clock)
    (results : option (list ToolResultEntry)) (all : list Message) :
  appendFunctionResponses clk results all = all \/
  exists parts,
    appendFunctionResponses clk results all = all ++ [responseMessage clk parts] /\
    forall p, p ∈ parts ->
      exists rs r tid, results = Some rs /\ r ∈ rs /\ p = responsePart r /\
        tr_id r = Some tid /\ tid ∉ existingResponseIds all.
Proof.
  unfold appendFunctionResponses. destruct results as [[|r rs]|]; [by left| |by left].
  destruct (newResponseParts _ _) as [|p ps] eqn:Hparts; [by left|].
  right. exists (p :: ps). split; [done|]. intros q Hq. rewrite <- Hparts in Hq.
  unfold newResponseParts in Hq. apply list_elem_of_fmap in Hq as (r0 & -> & Hin).
  apply list_elem_of_filter in Hin as [Hnew Hin]. unfold isNewResult in Hnew.
  destruct (tr_id r0) as [tid|] eqn:Hid; [|done].
  apply bool_decide_eq_true in Hnew. by exists (r :: rs), r0, tid.
Qed.

Lemma responseIdsOf_notCarrier (m : Message) : NotCarrier m -> responseIdsOf m = [].
Proof.
  unfold NotCarrier, responseIdsOf. intros Hm.
  destruct (msg_isFunctionResponse m) as [[|]|]; done.
Qed.

Lemma orElse_notCarrier (b a : option bool) :
  b <> Some true -> a <> Some true -> orElse b a <> Some true.
Proof. by destruct b as [[|]|]. Qed.

Lemma elem_of_replaceAt (i : nat) (u m : Message) (all : list Message) :
  m ∈ replaceAt i u all -> m = u \/ m ∈ all.
Proof.
  unfold replaceAt. rewrite elem_of_app, elem_of_cons.
  intros [Hin|[->|Hin]]; [right|by left|right].
  - apply elem_of_take in Hin as (j & Hj & _). by eapply list_elem_of_lookup_2.
  - apply list_elem_of_lookup_1 in Hin as (j & Hj). rewrite lookup_drop in Hj.
    by eapply list_elem_of_lookup_2.
Qed.

(** Replacing the slot of the in-flight message keeps, slot by slot, the
    ids held by the hidden function-response messages, as long as neither
    the message nor its replacement is one of them. *)
Lemma rebuild_keeps_responseIds (sid : option Id) (all : list Message)
    (f : Message -> Message) :
  (forall m, m ∈ all -> sid = Some (msg_id m) -> NotCarrier m) ->
  (forall m, NotCarrier m -> NotCarrier (f m)) ->
  responseIdsOf <$>
    match findMessage sid all with
    | Some (i, m) => replaceAt i (f m) all
    | None => all
    end = responseIdsOf <$> all /\
  forall m,
    m ∈ match findMessage sid all with
        | Some (i, m) => replaceAt i (f m) all
        | None => all
        end ->
    sid = Some (msg_id m) -> NotCarrier m.
Proof.
  intros Hall Hf. destruct (findMessage sid all) as [[i m]|] eqn:Hfind; [|done].
  apply findMessage_Some in Hfind as (s & -> & Hi & Hid & _).
  assert (NotCarrier m) as Hm.
  { apply Hall; [by eapply list_elem_of_lookup_2|by rewrite Hid]. }
  pose proof (Hf m Hm) as Hfm. split.
  - unfold replaceAt. rewrite <- (take_drop_middle all i m Hi) at 3.
    rewrite !fmap_app, !fmap_cons. by rewrite !responseIdsOf_notCarrier.
  - intros x Hx Hsid. apply elem_of_replaceAt in Hx as [->|Hx]; [done|by apply Hall].
Qed.

Lemma countResponses_ids (tid : Id) (l1 l2 : list Message) :
  responseIdsOf <$> l1 = responseIdsOf <$> l2 ->
  existingResponseIds l1 = existingResponseIds l2 /\
  countResponses tid l1 = countResponses tid l2 /\
  countCarriers tid l1 = countCarriers tid l2.
Proof. unfold countResponses, countCarriers, existingResponseIds. by intros ->. Qed.

Lemma countCarriers_app (tid : Id) (l1 l2 : list Message) :
  countCarriers tid (l1 ++ l2) = countCarriers tid l1 + countCarriers tid l2.
Proof. unfold countCarriers. by rewrite fmap_app, filter_app, length_app. Qed.

Lemma countCarriers_zero (tid : Id) (all : list Message) :
  countCarriers tid all = 0 <-> tid ∉ existingResponseIds all.
Proof.
  unfold countCarriers, existingResponseIds.
  induction all as [|m all IH]; [split; [by intros _ ?%elem_of_nil|done]|].
  rewrite fmap_cons, filter_cons. simpl. rewrite elem_of_app.
  destruct (decide (tid ∈ responseIdsOf m)) as [Hin|Hnot]; simpl.
  - split; [done|]. intros Hno. destruct Hno. by left.
  - rewrite IH. split; [by intros ? [?|?]|]. intros Hno Hin. apply Hno. by right.
Qed.

Lemma elem_of_count (tid : Id) (ids : list Id) :
  tid ∈ ids <-> length (filter (fun i => i = tid) ids) <> 0.
Proof.
  rewrite length_zero_iff_nil. split.
  - intros Hin Hnil.
    assert (tid ∈ filter (fun i => i = tid) ids) as Hf by (by apply list_elem_of_filter).
    rewrite Hnil in Hf. by apply elem_of_nil in Hf.
  - intros Hne. destruct (filter (fun i => i = tid) ids) as [|x l] eqn:E; [done|].
    assert (x ∈ filter (fun i => i = tid) ids) as Hx by (rewrite E; by left).
    by apply list_elem_of_filter in Hx as [-> ?].
Qed.

(** What the shared block adds to the number of messages that hold an id:
    one message when the history does not hold the id and the event lists
    it, none otherwise. *)
Lemma countCarriers_appendFunctionResponses (tid : Id) (clk : Clock)
    (results : option (list ToolResultEntry)) (all : list Message) :
  countCarriers tid (appendFunctionResponses clk results all)
  = countCarriers tid all
    + (if decide (tid ∈ existingResponseIds all) then 0
       else if decide (resultOccurrences tid results = 0) then 0 else 1).
Proof.
  unfold appendFunctionResponses, resultOccurrences.
  destruct results as [[|r rs]|]; simpl.
  - destruct (decide _); simpl; lia.
  - pose proof (newResponseIds_count tid (existingResponseIds all) (r :: rs)) as Hcount.
    pose proof (responseIdsOf_responseMessage clk (existingResponseIds all) (r :: rs)) as Hids.
    destruct (newResponseParts (existingResponseIds all) (r :: rs)) as [|p ps] eqn:Hparts.
    + unfold newResponseParts in Hparts. apply fmap_nil_inv in Hparts.
      rewrite Hparts in Hcount. simpl in Hcount.
      destruct (decide (tid ∈ existingResponseIds all)); [lia|].
      rewrite decide_True by done. lia.
    + rewrite countCarriers_app. f_equal.
      unfold countCarriers. simpl. rewrite filter_cons, filter_nil.
      rewrite Hids in *. clear Hids.
      destruct (decide (tid ∈ existingResponseIds all)) as [Hold|Hnew].
      * rewrite decide_False; [done|]. rewrite elem_of_count. lia.
      * destruct (decide (length (filter (fun r0 => tr_id r0 = Some tid) (r :: rs)) = 0))
          as [Hzero|Hpos].
        -- rewrite decide_False; [done|]. rewrite elem_of_count. lia.
        -- rewrite decide_True; [done|]. rewrite elem_of_count. lia.
  - destruct (decide _); simpl; lia.
Qed.

Section Replay.
Context `{Collaborators}.
Hypothesis builder_notCarrier : forall c i, NotCarrier (contentToMessage c i).

Lemma awaitingConfirmationMessage_notCarrier (chunk : StreamChunk) (c : Content) (m : Message) :
  NotCarrier m -> NotCarrier (awaitingConfirmationMessage chunk c m).
Proof.
  intros Hm.
  unfold NotCarrier, awaitingConfirmationMessage. simpl.
  apply orElse_notCarrier; [apply builder_notCarrier|done].
Qed.

Lemma toolIterationMessage_notCarrier (chunk : StreamChunk) (m : Message) :
  NotCarrier m -> NotCarrier (toolIterationMessage chunk m).
Proof.
  intros Hm.
  unfold NotCarrier, toolIterationMessage. simpl.
  apply orElse_notCarrier; [apply builder_notCarrier|done].
Qed.

End Replay.

Lemma handleAwaitingConfirmation_messages `{Collaborators}
    (chunk : StreamChunk) (state : ChatStoreState) (sink : CheckpointSink) (clk : Clock) :
  streamingMessageId (handleAwaitingConfirmation chunk state sink clk)
    = streamingMessageId state /\
  allMessages (handleAwaitingConfirmation chunk state sink clk)
    = appendFunctionResponses clk (toolResults chunk)
        match content chunk with
        | Some c =>
            match findMessage (streamingMessageId state) (allMessages state) with
            | Some (i, m) => replaceAt i (awaitingConfirmationMessage chunk c m) (allMessages state)
            | None => allMessages state
            end
        | None => allMessages state
        end.
Proof.
  unfold handleAwaitingConfirmation. cbn [streamingMessageId allMessages setIsStreaming].
  rewrite (proj1 (addCheckpoints_fields _ _ _)).
  rewrite (proj1 (proj2 (addCheckpoints_fields _ _ _))).
  destruct (findMessage _ _) as [[i m]|], (content chunk) as [c|]; done.
Qed.

Lemma handleToolIteration_messages `{Collaborators}
    (chunk : StreamChunk) (state : ChatStoreState) (modelName : string)
    (sink : CheckpointSink) (respClk newClk : Clock) :
  allMessages (handleToolIteration chunk state modelName sink respClk newClk)
    = appendFunctionResponses respClk (toolResults chunk)
        match findMessage (streamingMessageId state) (allMessages state) with
        | Some (i, m) => replaceAt i (toolIterationMessage chunk m) (allMessages state)
        | None => allMessages state
        end
      ++ (if hasCancelledTools chunk then [] else [newAssistantMessage newClk modelName]).
Proof.
  unfold handleToolIteration.
  destruct (hasCancelledTools chunk); cbn [allMessages setIsWaitingForResponse
    setIsStreaming setStreamingMessageId setAllMessages];
    rewrite (proj1 (addCheckpoints_fields _ _ _));
    destruct (findMessage _ _) as [[i m]|]; simpl; by rewrite ?app_nil_r.
Qed.

(** C3, amended: each handler appends a function-response part only for a
    result that carries an id which no hidden function-response message of
    the history holds yet, and appends nothing for an id the history holds.
    So when the awaiting-confirmation event carries the id, at most one
    hidden message held it before, and the in-flight message is not itself
    rebuilt into a hidden function-response message, exactly one hidden
    message holds the id after the awaiting-confirmation event and still
    exactly one after the tool-iteration event, whatever results that event
    replays. The parts with the id are as many as the awaiting-confirmation
    event lists the id (one when it lists it once) if the history did not
    hold it, and as many as before if it did. *)
Theorem functionResponse_replay_once `{Collaborators}
    (e1 e2 : StreamChunk) (state : ChatStoreState) (sink1 sink2 : CheckpointSink)
    (clk1 clk2 clk3 : Clock) (modelName : string) (tid : Id) :
  (forall c i, NotCarrier (contentToMessage c i)) ->
  (forall m, m ∈ allMessages state ->
     streamingMessageId state = Some (msg_id m) -> NotCarrier m) ->
  streamingMessageId state <> Some (nextId clk1) ->
  0 < resultOccurrences tid (toolResults e1) ->
  countCarriers tid (allMessages state) <= 1 ->
  countCarriers tid (allMessages (handleAwaitingConfirmation e1 state sink1 clk1)) = 1 /\
  countCarriers tid
    (allMessages
       (handleToolIteration e2 (handleAwaitingConfirmation e1 state sink1 clk1)
          modelName sink2 clk2 clk3)) = 1 /\
  countResponses tid
    (allMessages
       (handleToolIteration e2 (handleAwaitingConfirmation e1 state sink1 clk1)
          modelName sink2 clk2 clk3))
    = (if decide (tid ∈ existingResponseIds (allMessages state))
       then countResponses tid (allMessages state)
       else resultOccurrences tid (toolResults e1)) /\
  (forall clk results all,
     appendFunctionResponses clk results all = all \/
     exists parts,
       appendFunctionResponses clk results all = all ++ [responseMessage clk parts] /\
       forall p, p ∈ parts ->
         exists rs r i, results = Some rs /\ r ∈ rs /\ p = responsePart r /\
           tr_id r = Some i /\ i ∉ existingResponseIds all) /\
  (forall clk results all i,
     i ∈ existingResponseIds all ->
     countResponses i (appendFunctionResponses clk results all) = countResponses i all).
Proof.
  intros Hbuilder Hinflight Hfresh Hcarried Hbefore.
  destruct (handleAwaitingConfirmation_messages e1 state sink1 clk1) as [Hsid1 Hall1].
  set (s1 := handleAwaitingConfirmation e1 state sink1 clk1) in *.
  set (rebuilt1 := match content e1 with
                   | Some c => _
                   | None => allMessages state
                   end) in Hall1.
  assert (responseIdsOf <$> rebuilt1 = responseIdsOf <$> allMessages state /\
          forall m, m ∈ rebuilt1 -> streamingMessageId state = Some (msg_id m) -> NotCarrier m)
    as [Hids1 Hinv1].
  { subst rebuilt1. destruct (content e1) as [c|]; [|done].
    apply (rebuild_keeps_responseIds _ _ (awaitingConfirmationMessage e1 c)); [done|].
    intros m. by apply awaitingConfirmationMessage_notCarrier. }
  destruct (countResponses_ids tid _ _ Hids1) as (Hex1 & Hparts1 & Hcar1).
  assert (countCarriers tid (allMessages s1) = 1) as Hcount1.
  { rewrite Hall1, countCarriers_appendFunctionResponses, Hex1, Hcar1.
    destruct (decide (tid ∈ existingResponseIds (allMessages state))) as [Hin|Hnot].
    - destruct (countCarriers tid (allMessages state)) as [|[|n]] eqn:E; [|lia|lia].
      by apply countCarriers_zero in E.
    - apply countCarriers_zero in Hnot. rewrite decide_False by lia. lia. }
  assert (countResponses tid (allMessages s1)
          = if decide (tid ∈ existingResponseIds (allMessages state))
            then countResponses tid (allMessages state)
            else resultOccurrences tid (toolResults e1)) as Hparts.
  { rewrite Hall1, countResponses_appendFunctionResponses, Hex1, Hparts1.
    destruct (decide (tid ∈ existingResponseIds (allMessages state))) as [Hin|Hnot]; [lia|].
    apply countResponses_zero in Hnot. lia. }
  assert (forall m, m ∈ allMessages s1 ->
            streamingMessageId s1 = Some (msg_id m) -> NotCarrier m) as Hinv.
  { intros m Hm. rewrite Hsid1. rewrite Hall1 in Hm.
    destruct (appendFunctionResponses_cases clk1 (toolResults e1) rebuilt1)
      as [E|(parts & _ & E)]; rewrite E in Hm; [by apply Hinv1|].
    apply elem_of_app in Hm as [Hm|Hm]; [by apply Hinv1|].
    apply list_elem_of_singleton in Hm as ->. simpl. intros Hs. by destruct Hfresh. }
  destruct (rebuild_keeps_responseIds (streamingMessageId s1) (allMessages s1)
              (toolIterationMessage e2) Hinv) as [Hids2 _].
  { intros m. by apply toolIterationMessage_notCarrier. }
  destruct (countResponses_ids tid _ _ Hids2) as (Hex2 & Hparts2 & Hcar2).
  assert (tid ∈ existingResponseIds (allMessages s1)) as Hheld.
  { destruct (decide (tid ∈ existingResponseIds (allMessages s1))) as [|Hnot]; [done|].
    apply countCarriers_zero in Hnot. lia. }
  split; [done|]. split; [|split; [|split]].
  - rewrite handleToolIteration_messages, countCarriers_app.
    rewrite countCarriers_appendFunctionResponses, Hex2, Hcar2, Hcount1.
    rewrite decide_True by done. by destruct (hasCancelledTools e2).
  - rewrite handleToolIteration_messages, countResponses_app.
    rewrite countResponses_appendFunctionResponses, Hex2, Hparts2.
    rewrite decide_True by done. rewrite Hparts.
    assert (countResponses tid
              (if hasCancelledTools e2 then [] else [newAssistantMessage clk3 modelName]) = 0)
      as -> by (by destruct (hasCancelledTools e2)).
    lia.
  - intros clk results all. apply appendFunctionResponses_new.
  - intros clk results all i Hin. rewrite countResponses_appendFunctionResponses.
    rewrite decide_True by done. lia.
Qed.

Lemma functionResponse_replay_once_witness :
  resultOccurrences "t1" (toolResults iterationEvent) = 1 /\
  countCarriers "t1"
    (allMessages (handleAwaitingConfirmation confirmationEvent twoToolState
                    appendCheckpoint respClock)) = 1 /\
  countCarriers "t1"
    (allMessages
       (handleToolIteration iterationEvent
          (handleAwaitingConfirmation confirmationEvent twoToolState
             appendCheckpoint respClock)
          "model" appendCheckpoint nextClock thirdClock)) = 1 /\
  countResponses "t1"
    (allMessages
       (handleToolIteration iterationEvent
          (handleAwaitingConfirmation confirmationEvent twoToolState
             appendCheckpoint respClock)
          "model" appendCheckpoint nextClock thirdClock)) = 1.
Proof.
  split; [reflexivity|].
  destruct (functionResponse_replay_once confirmationEvent iterationEvent twoToolState
              appendCheckpoint appendCheckpoint respClock nextClock thirdClock "model" "t1")
    as (Hfirst & Hsecond & Hparts & _).
  - intros c i. unfold NotCarrier. simpl. discriminate.
  - intros m Hm _. apply list_elem_of_singleton in Hm as ->. unfold NotCarrier. simpl.
    discriminate.
  - simpl. discriminate.
  - vm_compute. lia.
  - vm_compute. lia.
  - split; [done|]. split; [done|]. rewrite Hparts. reflexivity.
Defined.

(** ** Message objects: which handlers write in place *)

(** C8, as stated, fails for the content-delta handler: [handleChunkType]
    assigns to the properties of the message object it finds. The array
    still refers to the same object, and a reference to it taken before the
    event reads the appended text, the new [parts] and the new [metadata]. *)
Lemma handleChunkType_writes_in_place :
  objects freshTurnObjects !! 0 = Some freshTurnMessage /\
  refs (handleChunkTypeO helloChunk freshTurnObjects) = refs freshTurnObjects /\
  objects (handleChunkTypeO helloChunk freshTurnObjects) !! 0
    = Some (mkMessage "m1" Assistant "Hello" 0
              (Some [mkContentPart (Some "Hello") false None None]) None
              (Some emptyMetadata) (Some true) (Some true) None) /\
  objects (handleChunkTypeO helloChunk freshTurnObjects) !! 0
    <> objects freshTurnObjects !! 0.
Proof.
  assert (objects (handleChunkTypeO helloChunk freshTurnObjects) !! 0
          = Some (mkMessage "m1" Assistant "Hello" 0
                    (Some [mkContentPart (Some "Hello") false None None]) None
                    (Some emptyMetadata) (Some true) (Some true) None)) as E.
  { vm_compute. reflexivity. }
  split; [reflexivity|]. split; [reflexivity|]. split; [exact E|].
  rewrite E. discriminate.
Qed.

(** The write does not depend on what the streaming helpers do: a delta
    without parts already leaves [parts] and [metadata] initialised on the
    object itself. *)
Lemma handleChunkTypeO_initialises_in_place `{Collaborators} :
  objects (handleChunkTypeO emptyDeltaChunk freshTurnObjects) !! 0
    = Some (setMetadata (Some emptyMetadata) (setParts (Some []) freshTurnMessage)) /\
  refs (handleChunkTypeO emptyDeltaChunk freshTurnObjects) = [0].
Proof. split; vm_compute; reflexivity. Qed.

Lemma newLoc_fresh (objs : gmap Loc Message) : objs !! newLoc objs = None.
Proof. apply not_elem_of_dom. unfold newLoc. apply is_fresh. Qed.

Lemma keepsObjects_refl (σ : ObjState) : keepsObjects σ σ.
Proof. by intros l m. Qed.

Lemma keepsObjects_trans (σ1 σ2 σ3 : ObjState) :
  keepsObjects σ1 σ2 -> keepsObjects σ2 σ3 -> keepsObjects σ1 σ3.
Proof. intros H12 H23 l m Hl. by apply H23, H12. Qed.

Lemma replaceSlot_keeps (i : nat) (u : Message) (σ : ObjState) :
  keepsObjects σ (replaceSlot i u σ).
Proof.
  intros l m Hl. unfold replaceSlot. simpl. rewrite lookup_insert_ne; [done|].
  intros <-. by rewrite newLoc_fresh in Hl.
Qed.

Lemma pushObject_keeps (u : Message) (σ : ObjState) : keepsObjects σ (pushObject u σ).
Proof.
  intros l m Hl. unfold pushObject. simpl. rewrite lookup_insert_ne; [done|].
  intros <-. by rewrite newLoc_fresh in Hl.
Qed.

Lemma withCells_keeps (s : ChatStoreState) (σ σ' : ObjState) :
  keepsObjects σ σ' -> keepsObjects σ (withCells s σ').
Proof. done. Qed.

Lemma appendFunctionResponsesO_keeps (clk : Clock)
    (results : option (list ToolResultEntry)) (σ : ObjState) :
  keepsObjects σ (appendFunctionResponsesO clk results σ).
Proof.
  unfold appendFunctionResponsesO.
  destruct results as [[|r rs]|]; try apply keepsObjects_refl.
  destruct (newResponseParts _ _); [apply keepsObjects_refl|apply pushObject_keeps].
Qed.

Lemma deref_lookup (objs : gmap Loc Message) (rs : list Loc) (i : nat) :
  Forall (fun l => is_Some (objs !! l)) rs ->
  deref objs rs !! i = rs !! i ≫= fun l => objs !! l.
Proof.
  unfold deref. intros Hwf. revert i. induction Hwf as [|r rs [x Hx] _ IH]; intros i; [done|].
  change (omap ?f (r :: rs)) with
    (match f r with Some y => y :: omap f rs | None => omap f rs end).
  cbv beta. rewrite Hx. destruct i as [|i]; simpl; [done|apply IH].
Qed.

Lemma deref_length (objs : gmap Loc Message) (rs : list Loc) :
  Forall (fun l => is_Some (objs !! l)) rs -> length (deref objs rs) = length rs.
Proof.
  unfold deref. induction 1 as [|r rs [x Hx] _ IH]; [done|].
  change (omap ?f (r :: rs)) with
    (match f r with Some y => y :: omap f rs | None => omap f rs end).
  cbv beta. rewrite Hx. simpl. by rewrite IH.
Qed.

(** Writing to the object of a slot what it already holds changes nothing. *)
Lemma writeObject_same (i : nat) (m : Message) (σ : ObjState) :
  wellFormed σ ->
  deref (objects σ) (refs σ) !! i = Some m -> writeObject i m σ = σ.
Proof.
  intros [Hwf _] Hi. rewrite (deref_lookup _ _ _ Hwf) in Hi. unfold writeObject.
  destruct (refs σ !! i) as [l|]; [|done]. simpl in Hi.
  rewrite insert_id by done. by destruct σ.
Qed.

Lemma findMessage_lookup (sid : option Id) (all : list Message) (i : nat) (m : Message) :
  findMessage sid all = Some (i, m) -> all !! i = Some m.
Proof. intros Hf. by apply findMessage_Some in Hf as (s & _ & Hi & _). Qed.

(** C8, amended: the tool-status, tool-iteration, cancelled, error and
    checkpoints handlers write to no message object: an updated message is a
    new object whose reference replaces the slot, so every object that
    existed before the event holds afterwards the message it held. The same
    is true of the tools-executing and awaiting-confirmation handlers when
    the rebuilt message brings its own metadata, and of the complete handler
    when [flushToolCallBuffer] leaves the message as it is. (The
    content-delta handler writes to the message object itself.) *)
Theorem handlers_keep_message_objects `{Collaborators}
    (chunk : StreamChunk) (σ : ObjState) (modelName : string)
    (sink : CheckpointSink) (clk1 clk2 : Clock) :
  keepsObjects σ (handleToolStatusO chunk σ) /\
  keepsObjects σ (handleToolIterationO chunk σ modelName sink clk1 clk2) /\
  keepsObjects σ (handleCancelledO chunk σ) /\
  keepsObjects σ (handleErrorO chunk σ) /\
  keepsObjects σ (handleCheckpointsO chunk σ sink) /\
  ((forall c i, is_Some (msg_metadata (contentToMessage c i))) ->
   keepsObjects σ (handleToolsExecutingO chunk σ) /\
   keepsObjects σ (handleAwaitingConfirmationO chunk σ sink clk1)) /\
  (wellFormed σ ->
   (forall m buffer, fst (flushToolCallBuffer m buffer) = m) ->
   keepsObjects σ (handleCompleteO chunk σ sink)).
Proof.
  split; [|split; [|split; [|split; [|split; [|split]]]]].
  - unfold handleToolStatusO. apply withCells_keeps.
    destruct (negb (toolStatus chunk)); [apply keepsObjects_refl|].
    destruct (tool chunk) as [u|]; [|apply keepsObjects_refl].
    destruct (findToolOwner _ _) as [[i m]|]; [|apply keepsObjects_refl].
    apply replaceSlot_keeps.
  - unfold handleToolIterationO. apply withCells_keeps.
    assert (keepsObjects σ
              (appendFunctionResponsesO clk1 (toolResults chunk)
                 match findMessage (streamingMessageId (view σ)) (allMessages (view σ)) with
                 | Some (i, m) => replaceSlot i (toolIterationMessage chunk m) σ
                 | None => σ
                 end)) as Hkeep.
    { eapply keepsObjects_trans; [|apply appendFunctionResponsesO_keeps].
      destruct (findMessage _ _) as [[i m]|]; [apply replaceSlot_keeps|apply keepsObjects_refl]. }
    destruct (hasCancelledTools chunk); [done|].
    eapply keepsObjects_trans; [exact Hkeep|apply pushObject_keeps].
  - unfold handleCancelledO. apply withCells_keeps.
    destruct (cancelTarget _) as [[i m]|]; [|apply keepsObjects_refl].
    destruct (isEmptyMessage m); [by intros l x|apply replaceSlot_keeps].
  - unfold handleErrorO. apply withCells_keeps.
    destruct (streamingMessageId _) as [sid|]; [|apply keepsObjects_refl].
    destruct (list_find _ _) as [[i m]|]; [|apply keepsObjects_refl].
    destruct (isEmptyMessage m); by intros l x.
  - by intros l x.
  - intros Hmeta. split.
    + unfold handleToolsExecutingO. apply withCells_keeps.
      destruct (findMessage _ _) as [[i m]|]; [|apply keepsObjects_refl].
      destruct (content chunk) as [c|]; [|apply keepsObjects_refl].
      unfold restoreSharedMetadata. destruct (Hmeta (Some c) (msg_id m)) as [md ->].
      apply replaceSlot_keeps.
    + unfold handleAwaitingConfirmationO. apply withCells_keeps.
      eapply keepsObjects_trans; [|apply appendFunctionResponsesO_keeps].
      destruct (findMessage _ _) as [[i m]|]; [|apply keepsObjects_refl].
      destruct (content chunk) as [c|]; [|apply keepsObjects_refl].
      unfold restoreSharedMetadata. destruct (Hmeta (Some c) (msg_id m)) as [md ->].
      apply replaceSlot_keeps.
  - intros Hwf Hflush. unfold handleCompleteO. apply withCells_keeps.
    destruct (findMessage _ _) as [[i m]|] eqn:Hfind; [|apply keepsObjects_refl].
    rewrite Hflush. apply findMessage_lookup in Hfind. simpl in Hfind.
    rewrite writeObject_same by done. apply replaceSlot_keeps.
Qed.

Lemma handlers_keep_message_objects_witness :
  objects runningToolObjects !! 0 = Some runningTurnMessage /\
  objects (handleToolStatusO toolFinishedEvent runningToolObjects) !! 0
    = Some runningTurnMessage /\
  objects (handleCancelledO emptyChunk runningToolObjects) !! 0 = Some runningTurnMessage /\
  objects (handleToolsExecutingO scenarioBEvent runningToolObjects) !! 0
    = Some runningTurnMessage.
Proof.
  destruct (handlers_keep_message_objects toolFinishedEvent runningToolObjects "model"
              appendCheckpoint respClock nextClock) as (Hstatus & _).
  destruct (handlers_keep_message_objects emptyChunk runningToolObjects "model"
              appendCheckpoint respClock nextClock) as (_ & _ & Hcancel & _).
  destruct (handlers_keep_message_objects scenarioBEvent runningToolObjects "model"
              appendCheckpoint respClock nextClock) as (_ & _ & _ & _ & _ & Hexec & _).
  destruct Hexec as [Hexec _]; [intros c i; by eexists|].
  split; [reflexivity|]. split; [|split].
  - by apply Hstatus.
  - by apply Hcancel.
  - by apply Hexec.
Defined.

Example handleToolStatusO_new_object :
  refs (handleToolStatusO toolFinishedEvent runningToolObjects) = [1] /\
  objects (handleToolStatusO toolFinishedEvent runningToolObjects) !! 1
    = Some (sampleAssistant "m1" "Reading the file"
              (Some [sampleTool "t1" Success (Some sampleResult);
                     sampleTool "t2" Success (Some sampleResult)])).
Proof. split; vm_compute; reflexivity. Qed.

(** ** The object store and the store of values agree

    The handlers on [ObjState] and the handlers on [ChatStoreState] are the
    same functions of the messages: what the array refers to after an
    object-level handler is the list the value-level handler returns. *)

Lemma deref_app (objs : gmap Loc Message) (r1 r2 : list Loc) :
  deref objs (r1 ++ r2) = deref objs r1 ++ deref objs r2.
Proof. apply omap_app. Qed.

Lemma deref_cons (objs : gmap Loc Message) (l : Loc) (rs : list Loc) (m : Message) :
  objs !! l = Some m -> deref objs (l :: rs) = m :: deref objs rs.
Proof.
  intros Hl. unfold deref.
  change (omap ?f (l :: rs)) with
    (match f l with Some y => y :: omap f rs | None => omap f rs end).
  cbv beta. by rewrite Hl.
Qed.

Lemma deref_insert_notin (objs : gmap Loc Message) (l : Loc) (u : Message) (rs : list Loc) :
  l ∉ rs -> deref (<[l := u]> objs) rs = deref objs rs.
Proof.
  intros Hnot. unfold deref. apply list_omap_ext.
  induction rs as [|r rs IH]; [constructor|].
  apply not_elem_of_cons in Hnot as [Hne Hnot]. constructor; [|by apply IH].
  by rewrite lookup_insert_ne.
Qed.

Lemma deref_take (objs : gmap Loc Message) (rs : list Loc) (i : nat) :
  Forall (fun l => is_Some (objs !! l)) rs ->
  deref objs (take i rs) = take i (deref objs rs).
Proof.
  intros Hwf. revert i. induction Hwf as [|r rs [x Hx] _ IH]; intros i.
  { by destruct i. }
  rewrite (deref_cons _ _ _ _ Hx). destruct i as [|i]; [done|].
  change (take (S i) (r :: rs)) with (r :: take i rs).
  rewrite (deref_cons _ _ _ _ Hx). cbn [take]. f_equal. apply IH.
Qed.

Lemma deref_drop (objs : gmap Loc Message) (rs : list Loc) (i : nat) :
  Forall (fun l => is_Some (objs !! l)) rs ->
  deref objs (drop i rs) = drop i (deref objs rs).
Proof.
  intros Hwf. revert i. induction Hwf as [|r rs [x Hx] _ IH]; intros i.
  { by destruct i. }
  rewrite (deref_cons _ _ _ _ Hx). destruct i as [|i].
  - change (drop 0 (r :: rs)) with (r :: rs). by rewrite (deref_cons _ _ _ _ Hx).
  - change (drop (S i) (r :: rs)) with (drop i rs). cbn [drop]. apply IH.
Qed.

Lemma newLoc_notin (σ : ObjState) : wellFormed σ -> newLoc (objects σ) ∉ refs σ.
Proof.
  intros [Hwf _] Hin. rewrite Forall_forall in Hwf.
  destruct (Hwf _ Hin) as [x Hx]. by rewrite newLoc_fresh in Hx.
Qed.

Lemma replaceSlot_view (i : nat) (u : Message) (σ : ObjState) :
  wellFormed σ ->
  deref (objects (replaceSlot i u σ)) (refs (replaceSlot i u σ))
    = replaceAt i u (deref (objects σ) (refs σ)).
Proof.
  intros Hwf. pose proof (newLoc_notin σ Hwf) as Hfresh. destruct Hwf as [Hwf _].
  unfold replaceSlot, replaceAt. cbn [objects refs].
  rewrite deref_app, (deref_cons _ _ _ u) by apply lookup_insert_eq.
  rewrite !deref_insert_notin.
  - by rewrite deref_take, deref_drop.
  - intros Hin. apply Hfresh.
    apply list_elem_of_lookup_1 in Hin as (j & Hj). rewrite lookup_drop in Hj.
    by eapply list_elem_of_lookup_2.
  - intros Hin. apply Hfresh. apply elem_of_take in Hin as (j & Hj & _).
    by eapply list_elem_of_lookup_2.
Qed.

Lemma replaceSlot_wellFormed (i : nat) (u : Message) (σ : ObjState) :
  wellFormed σ -> i < length (refs σ) -> wellFormed (replaceSlot i u σ).
Proof.
  intros Hwf Hi. pose proof (newLoc_notin σ Hwf) as Hfresh. destruct Hwf as [Hwf Hnd].
  unfold replaceSlot. split; cbn [objects refs].
  - rewrite <- insert_take_drop by done. apply Forall_insert.
    + eapply Forall_impl; [exact Hwf|]. intros l [x Hx]. simpl.
      destruct (decide (newLoc (objects σ) = l)) as [->|Hne].
      * rewrite lookup_insert_eq. by eexists.
      * rewrite lookup_insert_ne by done. by eexists.
    + rewrite lookup_insert_eq. by eexists.
  - destruct (lookup_lt_is_Some_2 _ _ Hi) as [li Hli].
    rewrite <- (take_drop_middle _ _ _ Hli) in Hnd, Hfresh.
    apply NoDup_app in Hnd as (Hnd1 & Hdisj & Hnd2).
    apply NoDup_cons in Hnd2 as [Hli2 Hnd2].
    apply NoDup_app. split; [done|]. split.
    + intros x Hx Hin. apply elem_of_cons in Hin as [->|Hin].
      * apply Hfresh. apply elem_of_app. by left.
      * apply (Hdisj x Hx). by right.
    + apply NoDup_cons. split; [|done]. intros Hin. apply Hfresh.
      apply elem_of_app. right. by right.
Qed.

Lemma pushObject_view (u : Message) (σ : ObjState) :
  wellFormed σ ->
  deref (objects (pushObject u σ)) (refs (pushObject u σ))
    = deref (objects σ) (refs σ) ++ [u].
Proof.
  intros Hwf. pose proof (newLoc_notin σ Hwf) as Hfresh.
  unfold pushObject. cbn [objects refs].
  rewrite deref_app, (deref_cons _ _ _ u) by apply lookup_insert_eq.
  by rewrite deref_insert_notin.
Qed.

Lemma pushObject_wellFormed (u : Message) (σ : ObjState) :
  wellFormed σ -> wellFormed (pushObject u σ).
Proof.
  intros Hwf. pose proof (newLoc_notin σ Hwf) as Hfresh. destruct Hwf as [Hwf Hnd].
  unfold pushObject. split; cbn [objects refs].
  - apply Forall_app. split.
    + eapply Forall_impl; [exact Hwf|]. intros l [x Hx]. simpl.
      destruct (decide (newLoc (objects σ) = l)) as [->|Hne].
      * rewrite lookup_insert_eq. by eexists.
      * rewrite lookup_insert_ne by done. by eexists.
    + constructor; [|constructor]. rewrite lookup_insert_eq. by eexists.
  - apply NoDup_app. split; [done|]. split.
    + intros x Hx Hin. apply list_elem_of_singleton in Hin as ->. done.
    + apply NoDup_singleton.
Qed.

Lemma writeObject_view (i : nat) (m : Message) (σ : ObjState) :
  wellFormed σ -> i < length (refs σ) ->
  deref (objects (writeObject i m σ)) (refs (writeObject i m σ))
    = <[i := m]> (deref (objects σ) (refs σ)).
Proof.
  intros [Hwf Hnd] Hi. unfold writeObject.
  destruct (lookup_lt_is_Some_2 _ _ Hi) as [l Hl]. rewrite Hl. cbn [objects refs].
  rewrite insert_take_drop by (by rewrite deref_length).
  rewrite <- deref_take, <- deref_drop by done.
  rewrite <- (take_drop_middle _ _ _ Hl) at 1.
  rewrite <- (take_drop_middle _ _ _ Hl) in Hnd.
  apply NoDup_app in Hnd as (_ & Hdisj & Hnd2). apply NoDup_cons in Hnd2 as [Hnot _].
  rewrite deref_app, (deref_cons _ _ _ m) by apply lookup_insert_eq.
  rewrite !deref_insert_notin; [done|done|].
  intros Hin. apply (Hdisj l Hin). by left.
Qed.

Lemma writeObject_wellFormed (i : nat) (m : Message) (σ : ObjState) :
  wellFormed σ -> wellFormed (writeObject i m σ).
Proof.
  intros [Hwf Hnd]. unfold writeObject. destruct (refs σ !! i) as [l|]; [|done].
  split; [|done]. cbn [objects refs].
  eapply Forall_impl; [exact Hwf|]. intros l' [x Hx]. simpl.
  destruct (decide (l = l')) as [->|Hne].
  - rewrite lookup_insert_eq. by eexists.
  - rewrite lookup_insert_ne by done. by eexists.
Qed.

Lemma sublist_wellFormed (objs : gmap Loc Message) (rs rs' : list Loc) (s : ChatStoreState) :
  wellFormed (mkObjState objs rs s) -> rs' `sublist_of` rs ->
  wellFormed (mkObjState objs rs' s).
Proof.
  intros [Hwf Hnd] Hsub. split; cbn [objects refs] in *.
  - rewrite Forall_forall in *. intros l Hl. apply Hwf. by eapply elem_of_sublist.
  - by eapply sublist_NoDup.
Qed.

Lemma deref_delete (objs : gmap Loc Message) (rs : list Loc) (i : nat) :
  Forall (fun l => is_Some (objs !! l)) rs ->
  deref objs (delete i rs) = delete i (deref objs rs).
Proof.
  intros Hwf. rewrite !delete_take_drop, deref_app. by rewrite deref_take, deref_drop.
Qed.

Lemma deref_filter (objs : gmap Loc Message) (rs : list Loc) (sid : Id) :
  Forall (fun l => is_Some (objs !! l)) rs ->
  deref objs (filter (fun l => msg_id <$> objs !! l <> Some sid) rs)
    = filter (fun m => msg_id m <> sid) (deref objs rs).
Proof.
  induction 1 as [|r rs [x Hx] _ IH]; [done|].
  rewrite (deref_cons _ _ _ _ Hx), !filter_cons. rewrite Hx. simpl.
  destruct (decide (msg_id x <> sid)) as [Hne|Heq].
  - rewrite decide_True by congruence. by rewrite (deref_cons _ _ _ _ Hx), IH.
  - rewrite decide_False; [done|]. intros Hne. apply Heq. congruence.
Qed.

Lemma view_withCells (s : ChatStoreState) (σ : ObjState) :
  deref (objects σ) (refs σ) = allMessages s -> view (withCells s σ) = s.
Proof. unfold view, withCells. simpl. intros ->. apply setAllMessages_same. Qed.

Lemma view_index (σ : ObjState) (i : nat) (m : Message) :
  wellFormed σ -> allMessages (view σ) !! i = Some m -> i < length (refs σ).
Proof.
  intros [Hwf _] Hi. simpl in Hi. apply lookup_lt_Some in Hi. by rewrite deref_length in Hi.
Qed.

Section Agreement.
Context `{Collaborators}.

Lemma handleChunkTypeO_agrees (chunk : StreamChunk) (σ : ObjState) :
  wellFormed σ ->
  view (handleChunkTypeO chunk σ) = handleChunkType chunk (view σ) /\
  wellFormed (handleChunkTypeO chunk σ).
Proof.
  intros Hwf. unfold handleChunkTypeO. split.
  - apply view_withCells. unfold handleChunkType.
    destruct (findMessage _ _) as [[i m]|] eqn:Hfind; [|done].
    destruct (bchunk chunk) as [bc|]; [|done]. destruct (delta bc) as [d|]; [|done].
    apply findMessage_lookup in Hfind.
    rewrite writeObject_view by (by eauto using view_index).
    by destruct (chunkMessage bc d m _).
  - change (wellFormed (withCells ?s ?x)) with (wellFormed x).
    destruct (findMessage _ _) as [[i m]|]; [|done].
    destruct (bchunk chunk) as [bc|]; [|done]. destruct (delta bc) as [d|]; [|done].
    by apply writeObject_wellFormed.
Qed.

Lemma handleToolStatusO_agrees (chunk : StreamChunk) (σ : ObjState) :
  wellFormed σ ->
  view (handleToolStatusO chunk σ) = handleToolStatus chunk (view σ) /\
  wellFormed (handleToolStatusO chunk σ).
Proof.
  intros Hwf. unfold handleToolStatusO. split.
  - apply view_withCells. unfold handleToolStatus.
    destruct (negb (toolStatus chunk)); [done|]. destruct (tool chunk) as [u|]; [|done].
    destruct (findToolOwner _ _) as [[i m]|]; [|done]. by apply replaceSlot_view.
  - change (wellFormed (withCells ?s ?x)) with (wellFormed x).
    destruct (negb (toolStatus chunk)); [done|]. destruct (tool chunk) as [u|]; [|done].
    destruct (findToolOwner _ _) as [[i m]|] eqn:Hown; [|done].
    apply findToolOwner_Some in Hown as [Hi _].
    apply replaceSlot_wellFormed; eauto using view_index.
Qed.

Lemma handleCancelledO_agrees (chunk : StreamChunk) (σ : ObjState) :
  wellFormed σ ->
  view (handleCancelledO chunk σ) = handleCancelled chunk (view σ) /\
  wellFormed (handleCancelledO chunk σ).
Proof.
  intros Hwf. unfold handleCancelledO. split.
  - apply view_withCells. unfold handleCancelled.
    destruct (cancelTarget _) as [[i m]|]; [|done].
    destruct (isEmptyMessage m); simpl.
    + apply deref_delete, Hwf.
    + by apply replaceSlot_view.
  - change (wellFormed (withCells ?s ?x)) with (wellFormed x).
    destruct (cancelTarget _) as [[i m]|] eqn:Htarget; [|done].
    apply cancelTarget_Some in Htarget as [Hi _].
    destruct (isEmptyMessage m).
    + destruct σ as [objs rs s]. eapply sublist_wellFormed; [exact Hwf|apply sublist_delete].
    + apply replaceSlot_wellFormed; eauto using view_index.
Qed.

Lemma handleErrorO_agrees (chunk : StreamChunk) (σ : ObjState) :
  wellFormed σ ->
  view (handleErrorO chunk σ) = handleError chunk (view σ) /\
  wellFormed (handleErrorO chunk σ).
Proof.
  intros Hwf. unfold handleErrorO. split.
  - apply view_withCells. unfold handleError. simpl.
    destruct (streamingMessageId (cells σ)) as [sid|]; [|done].
    destruct (list_find _ _) as [[i m]|]; [|done].
    destruct (isEmptyMessage m); simpl; [|done]. apply deref_filter, Hwf.
  - change (wellFormed (withCells ?s ?x)) with (wellFormed x).
    destruct (streamingMessageId _) as [sid|]; [|done].
    destruct (list_find _ _) as [[i m]|]; [|done].
    destruct (isEmptyMessage m); [|done].
    destruct σ as [objs rs s]. eapply sublist_wellFormed; [exact Hwf|apply sublist_filter].
Qed.

End Agreement.

Lemma replaceAt_after_write (i : nat) (u x : Message) (all : list Message) :
  replaceAt i u (<[i := x]> all) = replaceAt i u all.
Proof.
  unfold replaceAt. rewrite take_insert_ge by lia. by rewrite drop_insert_lt by lia.
Qed.

Lemma appendFunctionResponsesO_agrees (clk : Clock)
    (results : option (list ToolResultEntry)) (σ : ObjState) :
  wellFormed σ ->
  deref (objects (appendFunctionResponsesO clk results σ))
    (refs (appendFunctionResponsesO clk results σ))
    = appendFunctionResponses clk results (deref (objects σ) (refs σ)) /\
  wellFormed (appendFunctionResponsesO clk results σ).
Proof.
  intros Hwf. unfold appendFunctionResponsesO, appendFunctionResponses.
  destruct results as [[|r rs]|]; [done| |done].
  destruct (newResponseParts _ _) as [|p ps]; [done|].
  split; [by apply pushObject_view|by apply pushObject_wellFormed].
Qed.

Section AgreementRebuild.
Context `{Collaborators}.

Lemma restoreSharedMetadata_agrees (i : nat) (finalMessage message u : Message) (σ : ObjState) :
  wellFormed σ -> i < length (refs σ) ->
  deref (objects (replaceSlot i u (restoreSharedMetadata i finalMessage message σ)))
    (refs (replaceSlot i u (restoreSharedMetadata i finalMessage message σ)))
    = replaceAt i u (deref (objects σ) (refs σ)) /\
  wellFormed (replaceSlot i u (restoreSharedMetadata i finalMessage message σ)).
Proof.
  intros Hwf Hi. unfold restoreSharedMetadata.
  destruct (msg_metadata finalMessage).
  - split; [by apply replaceSlot_view|by apply replaceSlot_wellFormed].
  - pose proof (writeObject_wellFormed i
                  (updMetadata (restoreMetadata (existingModelVersionOf message)) message)
                  σ Hwf) as Hwf'.
    assert (refs (writeObject i
                    (updMetadata (restoreMetadata (existingModelVersionOf message)) message) σ)
            = refs σ) as Hrefs.
    { unfold writeObject. by destruct (refs σ !! i). }
    split.
    + rewrite replaceSlot_view by done. rewrite writeObject_view by done.
      apply replaceAt_after_write.
    + apply replaceSlot_wellFormed; [done|]. by rewrite Hrefs.
Qed.

Lemma handleToolsExecutingO_agrees (chunk : StreamChunk) (σ : ObjState) :
  wellFormed σ ->
  view (handleToolsExecutingO chunk σ) = handleToolsExecuting chunk (view σ) /\
  wellFormed (handleToolsExecutingO chunk σ).
Proof.
  intros Hwf. unfold handleToolsExecutingO.
  change (wellFormed (withCells ?s ?x)) with (wellFormed x).
  destruct (findMessage _ _) as [[i m]|] eqn:Hfind.
  - destruct (content chunk) as [c|] eqn:Hc.
    + pose proof (findMessage_lookup _ _ _ _ Hfind) as Hi.
      destruct (restoreSharedMetadata_agrees i (contentToMessage (Some c) (msg_id m)) m
                  (toolsExecutingMessage chunk c m) σ Hwf) as [Hview Hwf'];
        [by eauto using view_index|].
      split; [|done]. apply view_withCells. rewrite Hview.
      unfold handleToolsExecuting. cbn [streamingMessageId allMessages setIsStreaming].
      by rewrite Hfind, Hc.
    + split; [|done]. apply view_withCells.
      unfold handleToolsExecuting. cbn [streamingMessageId allMessages setIsStreaming].
      by rewrite Hfind, Hc.
  - split; [|done]. apply view_withCells.
    unfold handleToolsExecuting. cbn [streamingMessageId allMessages setIsStreaming].
    by rewrite Hfind.
Qed.

Lemma handleAwaitingConfirmationO_agrees (chunk : StreamChunk) (σ : ObjState)
    (sink : CheckpointSink) (clk : Clock) :
  wellFormed σ ->
  view (handleAwaitingConfirmationO chunk σ sink clk)
    = handleAwaitingConfirmation chunk (view σ) sink clk /\
  wellFormed (handleAwaitingConfirmationO chunk σ sink clk).
Proof.
  intros Hwf. unfold handleAwaitingConfirmationO.
  change (wellFormed (withCells ?s ?x)) with (wellFormed x).
  set (rebuilt := match findMessage _ _, content chunk with
                  | Some (i, m), Some c => _
                  | _, _ => σ
                  end).
  assert (deref (objects rebuilt) (refs rebuilt)
          = match content chunk with
            | Some c =>
                match findMessage (streamingMessageId (view σ)) (allMessages (view σ)) with
                | Some (i, m) =>
                    replaceAt i (awaitingConfirmationMessage chunk c m) (allMessages (view σ))
                | None => allMessages (view σ)
                end
            | None => allMessages (view σ)
            end /\ wellFormed rebuilt) as [Hview Hwf'].
  { subst rebuilt. destruct (findMessage _ _) as [[i m]|] eqn:Hfind;
      destruct (content chunk) as [c|]; try done.
    apply findMessage_lookup in Hfind.
    apply restoreSharedMetadata_agrees; eauto using view_index. }
  destruct (appendFunctionResponsesO_agrees clk (toolResults chunk) rebuilt Hwf')
    as [Happ Hwf''].
  split; [|done]. apply view_withCells. rewrite Happ, Hview.
  by rewrite (proj2 (handleAwaitingConfirmation_messages chunk (view σ) sink clk)).
Qed.

Lemma handleToolIterationO_agrees (chunk : StreamChunk) (σ : ObjState)
    (modelName : string) (sink : CheckpointSink) (respClk newClk : Clock) :
  wellFormed σ ->
  view (handleToolIterationO chunk σ modelName sink respClk newClk)
    = handleToolIteration chunk (view σ) modelName sink respClk newClk /\
  wellFormed (handleToolIterationO chunk σ modelName sink respClk newClk).
Proof.
  intros Hwf. unfold handleToolIterationO.
  change (wellFormed (withCells ?s ?x)) with (wellFormed x).
  set (rebuilt := match findMessage _ _ with
                  | Some (i, m) => replaceSlot i _ σ
                  | None => σ
                  end).
  assert (deref (objects rebuilt) (refs rebuilt)
          = match findMessage (streamingMessageId (view σ)) (allMessages (view σ)) with
            | Some (i, m) => replaceAt i (toolIterationMessage chunk m) (allMessages (view σ))
            | None => allMessages (view σ)
            end /\ wellFormed rebuilt) as [Hview Hwf'].
  { subst rebuilt. destruct (findMessage _ _) as [[i m]|] eqn:Hfind; [|done].
    apply findMessage_lookup in Hfind.
    split; [by apply replaceSlot_view|].
    apply replaceSlot_wellFormed; eauto using view_index. }
  destruct (appendFunctionResponsesO_agrees respClk (toolResults chunk) rebuilt Hwf')
    as [Happ Hwf''].
  destruct (hasCancelledTools chunk) eqn:Hcancel.
  - split; [|done]. apply view_withCells.
    rewrite handleToolIteration_messages, Hcancel. by rewrite Happ, Hview, app_nil_r.
  - split; [|by apply pushObject_wellFormed]. apply view_withCells.
    rewrite handleToolIteration_messages, Hcancel.
    rewrite pushObject_view by done. by rewrite Happ, Hview.
Qed.

Lemma handleCompleteO_agrees (chunk : StreamChunk) (σ : ObjState) (sink : CheckpointSink) :
  wellFormed σ ->
  view (handleCompleteO chunk σ sink) = handleComplete chunk (view σ) sink /\
  wellFormed (handleCompleteO chunk σ sink).
Proof.
  intros Hwf. unfold handleCompleteO.
  change (wellFormed (withCells ?s ?x)) with (wellFormed x).
  destruct (findMessage _ _) as [[i m]|] eqn:Hfind.
  - pose proof (findMessage_lookup _ _ _ _ Hfind) as Hi.
    pose proof (view_index _ _ _ Hwf Hi) as Hlt.
    set (flushed := fst (flushToolCallBuffer m (toolCallBuffer (view σ)))).
    pose proof (writeObject_wellFormed i flushed σ Hwf) as Hwf'.
    assert (refs (writeObject i flushed σ) = refs σ) as Hrefs.
    { unfold writeObject. by destruct (refs σ !! i). }
    split; [|apply replaceSlot_wellFormed; [done|by rewrite Hrefs]].
    apply view_withCells. rewrite replaceSlot_view by done.
    rewrite writeObject_view by done. rewrite replaceAt_after_write.
    unfold handleComplete. rewrite Hfind. subst flushed.
    destruct (flushToolCallBuffer m (toolCallBuffer (view σ))) as [m' b'].
    cbn [fst allMessages setIsWaitingForResponse setIsStreaming setStreamingMessageId].
    by rewrite (proj1 (addCheckpoints_fields _ _ _)).
  - split; [|done]. apply view_withCells. unfold handleComplete. rewrite Hfind.
    cbn [allMessages setIsWaitingForResponse setIsStreaming setStreamingMessageId].
    by rewrite (proj1 (addCheckpoints_fields _ _ _)).
Qed.

End AgreementRebuild.

(** * Further properties of the handlers and of the window manager *)

(** ** Trimming and the counters of the window *)

(** X10: after [trimWindowFromTop] the window holds the smaller of its
    former length and [maxCount] messages, so at most [maxCount]; and a
    second trim with the same maximum drops nothing and changes nothing. *)
Theorem trimWindowFromTop_bound (state : ChatStoreState) (maxCount : nat) :
  length (allMessages (fst (trimWindowFromTop state maxCount)))
    = Nat.min (length (allMessages state)) maxCount /\
  length (allMessages (fst (trimWindowFromTop state maxCount))) <= maxCount /\
  trimWindowFromTop (fst (trimWindowFromTop state maxCount)) maxCount
    = (fst (trimWindowFromTop state maxCount), 0%Z).
Proof.
  assert (length (allMessages (fst (trimWindowFromTop state maxCount)))
          = Nat.min (length (allMessages state)) maxCount) as Hlen.
  { unfold trimWindowFromTop.
    destruct (Z.leb_spec (Z.of_nat (length (allMessages state)) - Z.of_nat maxCount) 0);
      simpl; [lia|].
    rewrite length_drop. lia. }
  split; [done|]. split; [lia|].
  unfold trimWindowFromTop at 1. rewrite Hlen.
  destruct (Z.leb_spec (Z.of_nat (Nat.min (length (allMessages state)) maxCount)
                        - Z.of_nat maxCount) 0); [done|lia].
Qed.

(** X11: a trim keeps every retained message at its absolute index: the
    message at window index [j] afterwards is the one that was at window
    index [j] plus the returned count, and [windowStartIndex] has advanced by
    that count, so [windowStartIndex + length allMessages] is unchanged.
    When something was dropped, [totalMessages] is at least that end index
    and every checkpoint left refers to an index inside or after the
    window. *)
Theorem trimWindowFromTop_positions (state : ChatStoreState) (maxCount : nat) :
  windowEnd (fst (trimWindowFromTop state maxCount)) = windowEnd state /\
  windowStartIndex (fst (trimWindowFromTop state maxCount))
    = (windowStartIndex state + snd (trimWindowFromTop state maxCount))%Z /\
  (forall j,
     allMessages (fst (trimWindowFromTop state maxCount)) !! j
       = allMessages state !! (Z.to_nat (snd (trimWindowFromTop state maxCount)) + j)) /\
  (maxCount < length (allMessages state) ->
   (windowEnd state <= totalMessages (fst (trimWindowFromTop state maxCount)))%Z /\
   Forall (fun cp =>
             (windowStartIndex (fst (trimWindowFromTop state maxCount))
              <= cp_messageIndex cp)%Z)
     (checkpointList (fst (trimWindowFromTop state maxCount)))).
Proof.
  unfold trimWindowFromTop, windowEnd.
  destruct (Z.leb_spec (Z.of_nat (length (allMessages state)) - Z.of_nat maxCount) 0)
    as [Hle|Hgt]; simpl.
  - split; [done|]. split; [lia|]. split; [done|]. lia.
  - split; [rewrite length_drop; lia|]. split; [done|]. split.
    { intros j. by rewrite lookup_drop. }
    intros _. split.
    + unfold windowEnd. simpl. rewrite length_drop. lia.
    + apply Forall_forall. intros cp Hin.
      apply list_elem_of_filter in Hin as [Hge _]. lia.
Qed.

Lemma trimWindowFromTop_positions_witness :
  windowEnd (fst (trimWindowFromTop fiveMessageWindow 3)) = 15%Z /\
  allMessages (fst (trimWindowFromTop fiveMessageWindow 3)) !! 0
    = Some (sampleAssistant "c" "3" None) /\
  Forall (fun cp => (12 <= cp_messageIndex cp)%Z)
    (checkpointList (fst (trimWindowFromTop fiveMessageWindow 3))).
Proof.
  destruct (trimWindowFromTop_positions fiveMessageWindow 3)
    as (Hend & Hstart & Hat & Htrimmed).
  destruct Htrimmed as [_ Hcps]; [simpl; lia|].
  split; [by rewrite Hend|]. split; [by rewrite Hat|]. exact Hcps.
Defined.

(** X12: [syncTotalMessagesFromWindow] and [setTotalMessagesFromWindow] write
    [totalMessages] only. After a sync the total is at least
    [windowStartIndex + length allMessages] and at least what it was; a
    second sync changes nothing. [setTotalMessagesFromWindow] forgets the
    former total: it sets the end index of the window, or 0 when that is
    negative, which may be less than before; a sync after it changes
    nothing, and it undoes a sync before it. *)
Theorem totalMessages_sync_set (state : ChatStoreState) :
  (windowEnd state <= totalMessages (syncTotalMessagesFromWindow state))%Z /\
  (totalMessages state <= totalMessages (syncTotalMessagesFromWindow state))%Z /\
  syncTotalMessagesFromWindow (syncTotalMessagesFromWindow state)
    = syncTotalMessagesFromWindow state /\
  totalMessages (setTotalMessagesFromWindow state) = Z.max 0 (windowEnd state) /\
  syncTotalMessagesFromWindow (setTotalMessagesFromWindow state)
    = setTotalMessagesFromWindow state /\
  setTotalMessagesFromWindow (syncTotalMessagesFromWindow state)
    = setTotalMessagesFromWindow state /\
  ((0 <= totalMessages state)%Z ->
   (totalMessages (setTotalMessagesFromWindow state)
    <= totalMessages (syncTotalMessagesFromWindow state))%Z) /\
  setTotalMessages (totalMessages state) (syncTotalMessagesFromWindow state) = state /\
  setTotalMessages (totalMessages state) (setTotalMessagesFromWindow state) = state.
Proof.
  unfold syncTotalMessagesFromWindow, setTotalMessagesFromWindow, windowEnd.
  destruct state as [all start total sid str wait cps folded count err buf]. simpl.
  unfold setTotalMessages. simpl.
  repeat split; try lia; f_equal; lia.
Qed.

Lemma totalMessages_sync_set_witness :
  (totalMessages (setTotalMessagesFromWindow scenarioE) = 900)%Z /\
  (totalMessages (setTotalMessagesFromWindow scenarioE)
   <= totalMessages (syncTotalMessagesFromWindow scenarioE))%Z.
Proof.
  destruct (totalMessages_sync_set scenarioE) as (_ & _ & _ & Hset & _ & _ & Hle & _).
  split; [by rewrite Hset|]. apply Hle. simpl. lia.
Defined.

(** ** Which message a tool-status event reaches *)

Lemma findLast_greatest (P : Message -> bool) (all : list Message) (j : nat) (m : Message) :
  all !! j = Some m -> P m = true ->
  (forall k y, all !! k = Some y -> j < k -> P y = false) ->
  findLast P all = Some (j, m).
Proof.
  intros Hj HP Hlater. destruct (findLast P all) as [[i x]|] eqn:Hf.
  - apply findLast_Some in Hf as (Hi & HPx & Hafter).
    destruct (Nat.lt_trichotomy i j) as [Hlt|[->|Hgt]].
    + rewrite (Hafter j m Hj Hlt) in HP. done.
    + congruence.
    + rewrite (Hlater i x Hi Hgt) in HPx. done.
  - rewrite (findLast_None P all Hf m) in HP; [done|]. by eapply list_elem_of_lookup_2.
Qed.

(** X9: a tool-status event reaches the message [streamingMessageId] names
    whenever that message is an assistant message holding the tool id, even
    if a later message holds the id too; otherwise it reaches the last
    assistant message that holds the id, and no earlier one. In either case
    the store afterwards is the store before with that one slot replaced. *)
Theorem handleToolStatus_owner (chunk : StreamChunk) (state : ChatStoreState)
    (toolUpdate : ToolStatusUpdate) :
  toolStatus chunk = true ->
  tool chunk = Some toolUpdate ->
  (forall sid i message,
     streamingMessageId state = Some sid ->
     allMessages state !! i = Some message ->
     msg_id message = sid ->
     (forall j y, allMessages state !! j = Some y -> j < i -> msg_id y <> sid) ->
     ownsTool (upd_id toolUpdate) message = true ->
     handleToolStatus chunk state
       = setAllMessages (<[i := toolStatusMessage toolUpdate message]> (allMessages state))
           state) /\
  (forall j message,
     (forall i x,
        findMessage (streamingMessageId state) (allMessages state) = Some (i, x) ->
        ownsTool (upd_id toolUpdate) x = false) ->
     allMessages state !! j = Some message ->
     ownsTool (upd_id toolUpdate) message = true ->
     (forall k y, allMessages state !! k = Some y -> j < k ->
        ownsTool (upd_id toolUpdate) y = false) ->
     handleToolStatus chunk state
       = setAllMessages (<[j := toolStatusMessage toolUpdate message]> (allMessages state))
           state).
Proof.
  intros Hflag Htool. unfold handleToolStatus. rewrite Hflag, Htool. simpl. split.
  - intros sid i message Hsid Hi Hid Hfirst Howns.
    assert (findMessage (Some sid) (allMessages state) = Some (i, message)) as Hfind.
    { apply findMessage_Some. by exists sid. }
    unfold findToolOwner. rewrite Hsid. simpl in Hfind. rewrite Hfind, Howns.
    by rewrite replaceAt_insert by (by eapply lookup_lt_Some).
  - intros j message Hstream Hj Howns Hlater.
    assert (findToolOwner (upd_id toolUpdate) state = Some (j, message)) as ->.
    { unfold findToolOwner. unfold findMessage in Hstream.
      destruct (streamingMessageId state) as [sid|].
      - destruct (list_find _ _) as [[i x]|].
        + rewrite (Hstream i x eq_refl). by apply findLast_greatest.
        + by apply findLast_greatest.
      - by apply findLast_greatest. }
    by rewrite replaceAt_insert by (by eapply lookup_lt_Some).
Qed.

Lemma handleToolStatus_owner_witness :
  allMessages (handleToolStatus toolFinishedEvent (twoOwnersState (Some "m0")))
    = [sampleAssistant "m0" "first" (Some [sampleTool "t1" Success (Some sampleResult)]);
       laterTurnMessage] /\
  allMessages (handleToolStatus toolFinishedEvent (twoOwnersState None))
    = [earlierTurnMessage;
       sampleAssistant "m1" "second" (Some [sampleTool "t1" Success (Some sampleResult)])].
Proof.
  destruct (handleToolStatus_owner toolFinishedEvent (twoOwnersState (Some "m0"))
              (mkToolStatusUpdate "t1" Success (Some sampleResult)) eq_refl eq_refl)
    as [Hfirst _].
  destruct (handleToolStatus_owner toolFinishedEvent (twoOwnersState None)
              (mkToolStatusUpdate "t1" Success (Some sampleResult)) eq_refl eq_refl)
    as [_ Hlast].
  split.
  - rewrite (Hfirst "m0" 0 earlierTurnMessage); [done|done|done|done| |done].
    intros j y _ Hlt. lia.
  - rewrite (Hlast 1 laterTurnMessage); [done| |done|done|].
    + intros i x Hf. discriminate Hf.
    + intros [|[|k]] y Hy Hlt; [lia|lia|done].
Defined.

(** ** The content-delta handler *)

(** X7: [handleChunkType] does nothing at all when [streamingMessageId]
    names no message, when the event has no backend chunk, or when the chunk
    has no delta. Otherwise it changes the slot of the named message and
    the buffer of inline tool-call text, and nothing else: the number of
    messages, every other slot, [streamingMessageId], both flags, the
    checkpoints, the window fields and the error stay as they were. *)
Theorem handleChunkType_frame `{Collaborators} (chunk : StreamChunk) (state : ChatStoreState) :
  (findMessage (streamingMessageId state) (allMessages state) = None \/
   bchunk chunk = None \/
   (exists bc, bchunk chunk = Some bc /\ delta bc = None) ->
   handleChunkType chunk state = state) /\
  length (allMessages (handleChunkType chunk state)) = length (allMessages state) /\
  (forall j,
     allMessages (handleChunkType chunk state) !! j <> allMessages state !! j ->
     exists message,
       findMessage (streamingMessageId state) (allMessages state) = Some (j, message)) /\
  setToolCallBuffer (toolCallBuffer state)
    (setAllMessages (allMessages state) (handleChunkType chunk state)) = state.
Proof.
  unfold handleChunkType.
  destruct (findMessage _ _) as [[i m]|] eqn:Hfind.
  - destruct (bchunk chunk) as [bc|] eqn:Hbc.
    + destruct (delta bc) as [d|] eqn:Hd.
      * destruct (chunkMessage bc d m (toolCallBuffer state)) as [m' b'].
        split; [|split; [|split]].
        -- intros [?|[?|(bc' & [= <-] & ?)]]; congruence.
        -- simpl. apply length_insert.
        -- intros j Hne. simpl in Hne. exists m.
           destruct (decide (j = i)) as [->|Hji]; [done|].
           rewrite list_lookup_insert_ne in Hne by congruence. done.
        -- by destruct state.
      * split; [done|]. split; [done|]. split; [done|]. by destruct state.
    + split; [done|]. split; [done|]. split; [done|]. by destruct state.
  - split; [done|]. split; [done|]. split; [done|]. by destruct state.
Qed.

Lemma handleChunkType_frame_witness :
  handleChunkType helloChunk (sampleState [freshTurnMessage] None)
    = sampleState [freshTurnMessage] None /\
  handleChunkType emptyChunk (sampleState [freshTurnMessage] (Some "m1"))
    = sampleState [freshTurnMessage] (Some "m1").
Proof.
  split.
  - apply (proj1 (handleChunkType_frame helloChunk (sampleState [freshTurnMessage] None))).
    by left.
  - apply (proj1 (handleChunkType_frame emptyChunk
                    (sampleState [freshTurnMessage] (Some "m1")))).
    right. by left.
Defined.

(** X8: whatever the streaming helpers do, a delta that reaches a message
    leaves that message with a metadata object. On the last chunk
    ([done]) that carries usage, the usage and its two token counts are on
    the message; a non-zero [thinkingStartTime] of the chunk is mirrored; and
    [modelVersion] is the one the message had when the helpers returned: the
    chunk never supplies it. *)
Theorem handleChunkType_metadata `{Collaborators}
    (chunk : StreamChunk) (state : ChatStoreState)
    (i : nat) (message : Message) (bc : BackendStreamChunk) (d : list ContentPart) :
  findMessage (streamingMessageId state) (allMessages state) = Some (i, message) ->
  bchunk chunk = Some bc ->
  delta bc = Some d ->
  exists message' md,
    allMessages (handleChunkType chunk state) !! i = Some message' /\
    msg_metadata message' = Some md /\
    msg_id message' =
      msg_id (fst (fold_left chunkPart d
                     (match msg_parts message with
                      | None => setParts (Some []) message
                      | Some _ => message
                      end, toolCallBuffer state))) /\
    modelVersion md =
      existingModelVersionOf
        (fst (fold_left chunkPart d
                (match msg_parts message with
                 | None => setParts (Some []) message
                 | Some _ => message
                 end, toolCallBuffer state))) /\
    (forall u, done bc = true -> usage bc = Some u ->
       usageMetadata md = Some u /\
       thoughtsTokenCount md = u_thoughtsTokenCount u /\
       candidatesTokenCount md = u_candidatesTokenCount u) /\
    (forall t, bc_thinkingStartTime bc = Some t -> t <> 0%Z ->
       thinkingStartTime md = Some t).
Proof.
  intros Hfind Hbc Hd. unfold handleChunkType. rewrite Hfind, Hbc, Hd.
  pose proof (findMessage_lookup _ _ _ _ Hfind) as Hi.
  unfold chunkMessage.
  destruct (fold_left chunkPart d _) as [mh bh] eqn:Hfold. cbn [fst].
  set (m1 := match msg_metadata mh with
             | None => setMetadata (Some emptyMetadata) mh
             | Some _ => mh
             end).
  assert (exists md1, msg_metadata m1 = Some md1 /\
            modelVersion md1 = existingModelVersionOf mh /\ msg_id m1 = msg_id mh)
    as (md1 & Hmd1 & Hmv1 & Hid1).
  { subst m1. unfold existingModelVersionOf.
    destruct (msg_metadata mh) as [md|] eqn:E; [by exists md|]. by eexists. }
  clearbody m1.
  destruct (truthyNum (bc_thinkingStartTime bc)) eqn:Hts;
    destruct (done bc) eqn:Hdone; [destruct (usage bc) as [u|] eqn:Hu| |
                                   destruct (usage bc) as [u|] eqn:Hu|];
    simpl; eexists _, _;
    (split; [apply list_lookup_insert_eq; by eapply lookup_lt_Some|]);
    unfold updMetadata; simpl; rewrite ?Hmd1; simpl;
    (split; [reflexivity|]); (split; [done|]); (split; [done|]);
    (split; [intros u' Hd' Hu'; by simplify_eq|]);
    intros t Ht Hne; rewrite Ht in Hts; simpl in Hts;
    try done;
    try (apply negb_false_iff, Z.eqb_eq in Hts; done).
Qed.

Lemma handleChunkType_metadata_witness :
  exists message' md,
    allMessages (handleChunkType lastChunk (sampleState [freshTurnMessage] (Some "m1"))) !! 0
      = Some message' /\
    msg_metadata message' = Some md /\
    usageMetadata md = Some sampleUsage /\
    thoughtsTokenCount md = Some 5%Z /\
    thinkingStartTime md = Some 42%Z /\
    modelVersion md = None.
Proof.
  destruct (handleChunkType_metadata lastChunk (sampleState [freshTurnMessage] (Some "m1"))
              0 freshTurnMessage
              (mkBackendStreamChunk (Some [mkContentPart (Some " world") false None None])
                 true (Some sampleUsage) (Some 42%Z))
              [mkContentPart (Some " world") false None None] eq_refl eq_refl eq_refl)
    as (message' & md & Hslot & Hmd & _ & Hmv & Husage & Hts).
  destruct (Husage sampleUsage eq_refl eq_refl) as (Hu & Hthoughts & _).
  exists message', md. split; [done|]. split; [done|]. split; [done|]. split; [done|].
  split; [by apply Hts|]. by rewrite Hmv.
Defined.

(** ** Merging the tools of a message with those of the rebuilt message *)

Lemma mapSet_keys (k : Id) (v : ToolUsage) (m : list (Id * ToolUsage)) :
  (mapSet k v m).*1 = if decide (k ∈ m.*1) then m.*1 else m.*1 ++ [k].
Proof.
  induction m as [|[k' v'] rest IH].
  { cbn. destruct (decide (k ∈ [])) as [Hin|_]; [by apply elem_of_nil in Hin|done]. }
  cbn [mapSet]. rewrite !fmap_cons. cbn [fst].
  destruct (decide (k' = k)) as [->|Hne].
  - rewrite fmap_cons. cbn [fst].
    destruct (decide (k ∈ k :: rest.*1)) as [_|Hnot]; [done|]. destruct Hnot. by left.
  - rewrite fmap_cons, IH. cbn [fst]. destruct (decide (k ∈ rest.*1)) as [Hin|Hnot].
    + destruct (decide (k ∈ k' :: rest.*1)) as [_|Hno]; [done|]. destruct Hno. by right.
    + destruct (decide (k ∈ k' :: rest.*1)) as [[?|?]%elem_of_cons|_]; [congruence|done|done].
Qed.

Lemma mapSet_fresh (k : Id) (v : ToolUsage) (m : list (Id * ToolUsage)) :
  k ∉ m.*1 -> mapSet k v m = m ++ [(k, v)].
Proof.
  induction m as [|[k' v'] rest IH]; simpl; [done|].
  intros [Hne Hnot]%not_elem_of_cons.
  rewrite decide_False by congruence. by rewrite IH.
Qed.

Lemma mapSet_elem (k : Id) (v : ToolUsage) (m : list (Id * ToolUsage)) (kv : Id * ToolUsage) :
  kv ∈ mapSet k v m -> kv = (k, v) \/ kv ∈ m.
Proof.
  induction m as [|[k' v'] rest IH]; simpl.
  { intros ?%list_elem_of_singleton. by left. }
  destruct (decide (k' = k)) as [->|Hne].
  - intros [->|Hin]%elem_of_cons; [by left|right; by right].
  - intros [->|Hin]%elem_of_cons; [right; by left|].
    destruct (IH Hin) as [->|?]; [by left|right; by right].
Qed.

Lemma mapHas_true (k : Id) (m : list (Id * ToolUsage)) :
  mapHas k m = true <-> k ∈ m.*1.
Proof.
  unfold mapHas. rewrite existsb_exists, list_elem_of_fmap. split.
  - intros (kv & Hin & Hk). apply bool_decide_eq_true in Hk. exists kv.
    split; [done|]. by apply list_elem_of_In.
  - intros (kv & -> & Hin). exists kv. split; [by apply list_elem_of_In|].
    by apply bool_decide_eq_true.
Qed.

(** The map after the first loop: one key per id of [a], each value an entry
    of [a] under its own id. *)
Lemma mergeTools_first_loop (a : list ToolUsage) (m : list (Id * ToolUsage)) (seen : list ToolUsage) :
  NoDup m.*1 ->
  (forall k, k ∈ m.*1 <-> k ∈ tool_id <$> seen) ->
  (forall k v, (k, v) ∈ m -> v ∈ seen /\ tool_id v = k) ->
  NoDup (fold_left (fun m t => mapSet (tool_id t) t m) a m).*1 /\
  (forall k, k ∈ (fold_left (fun m t => mapSet (tool_id t) t m) a m).*1
             <-> k ∈ tool_id <$> (seen ++ a)) /\
  (forall k v, (k, v) ∈ fold_left (fun m t => mapSet (tool_id t) t m) a m ->
               v ∈ seen ++ a /\ tool_id v = k).
Proof.
  revert m seen. induction a as [|t a IH]; intros m seen Hnd Hkeys Hvals.
  { rewrite app_nil_r. done. }
  simpl. replace (seen ++ t :: a) with ((seen ++ [t]) ++ a) by (by rewrite <- app_assoc).
  apply IH.
  - rewrite mapSet_keys. destruct (decide _) as [Hin|Hnot]; [done|].
    apply NoDup_app. split; [done|]. split; [|apply NoDup_singleton].
    intros x Hx ->%list_elem_of_singleton. done.
  - intros k. rewrite mapSet_keys, fmap_app, elem_of_app. simpl.
    rewrite list_elem_of_singleton.
    destruct (decide (tool_id t ∈ m.*1)) as [Hin|Hnot].
    + rewrite Hkeys. split; [by left|]. intros [?| ->]; [done|]. by apply Hkeys.
    + rewrite elem_of_app, list_elem_of_singleton, Hkeys. done.
  - intros k v Hin. apply mapSet_elem in Hin as [[= -> ->]|Hin].
    + split; [|done]. apply elem_of_app. right. by left.
    + destruct (Hvals k v Hin) as [Hs Hid]. split; [|done]. apply elem_of_app. by left.
Qed.

(** The map after the second loop: the first map with, appended, one entry
    per id of [b] that [a] lacks. *)
Lemma mergeTools_second_loop (ids : list Id) (b : list ToolUsage)
    (m : list (Id * ToolUsage)) (seen : list ToolUsage) :
  NoDup m.*1 ->
  (forall k, k ∈ m.*1 <-> k ∈ ids \/ k ∈ tool_id <$> seen) ->
  (forall k v, (k, v) ∈ m -> tool_id v = k /\ (k ∈ ids \/ v ∈ seen)) ->
  NoDup (fold_left (fun m t => if mapHas (tool_id t) m then m
                           else mapSet (tool_id t) t m) b m).*1 /\
  (forall k, k ∈ (fold_left (fun m t => if mapHas (tool_id t) m then m
                           else mapSet (tool_id t) t m) b m).*1
             <-> k ∈ ids \/ k ∈ tool_id <$> (seen ++ b)) /\
  (forall k v, (k, v) ∈ (fold_left (fun m t => if mapHas (tool_id t) m then m
                           else mapSet (tool_id t) t m) b m) ->
               tool_id v = k /\ (k ∈ ids \/ v ∈ seen ++ b)) /\
  exists extra, (fold_left (fun m t => if mapHas (tool_id t) m then m
                           else mapSet (tool_id t) t m) b m) = m ++ extra.
Proof.
  revert m seen. induction b as [|t b IH]; intros m seen Hnd Hkeys Hvals; simpl.
  { rewrite app_nil_r. split; [done|]. split; [done|]. split; [done|].
    exists []. by rewrite app_nil_r. }
  replace (seen ++ t :: b) with ((seen ++ [t]) ++ b) by (by rewrite <- app_assoc).
  destruct (mapHas (tool_id t) m) eqn:Hhas.
  - apply mapHas_true in Hhas.
    apply (IH m (seen ++ [t])); [done| |].
    + intros k. rewrite fmap_app, elem_of_app. simpl. rewrite list_elem_of_singleton.
      rewrite Hkeys. split; [tauto|]. intros [?|[?| ->]]; [tauto|tauto|]. by apply Hkeys.
    + intros k v Hin. destruct (Hvals k v Hin) as [Hid [?|?]]; split; try done; [by left|].
      right. apply elem_of_app. by left.
  - assert (tool_id t ∉ m.*1) as Hnot.
    { intros Hin. apply mapHas_true in Hin. congruence. }
    rewrite mapSet_fresh by done.
    destruct (IH (m ++ [(tool_id t, t)]) (seen ++ [t])) as (H1 & H2 & H3 & extra & H4).
    + rewrite fmap_app. apply NoDup_app. split; [done|]. split; [|apply NoDup_singleton].
      intros x Hx ->%list_elem_of_singleton. done.
    + intros k. rewrite !fmap_app, !elem_of_app. simpl. rewrite !list_elem_of_singleton.
      rewrite Hkeys. tauto.
    + intros k v [Hin|Hin]%elem_of_app;
        [|apply list_elem_of_singleton in Hin; injection Hin as -> ->].
      * destruct (Hvals k v Hin) as [Hid [?|?]]; split; try done; [by left|].
        right. apply elem_of_app. by left.
      * split; [done|]. right. apply elem_of_app. right. by left.
    + split; [done|]. split; [done|]. split; [done|].
      exists ((tool_id t, t) :: extra). by rewrite H4, <- app_assoc.
Qed.

Lemma mergeTools_first_loop_fresh (a : list ToolUsage) (m : list (Id * ToolUsage)) :
  NoDup (m.*1 ++ (tool_id <$> a)) ->
  fold_left (fun m t => mapSet (tool_id t) t m) a m
    = m ++ ((fun t => (tool_id t, t)) <$> a).
Proof.
  revert m. induction a as [|t a IH]; intros m Hnd; simpl.
  { by rewrite app_nil_r. }
  rewrite fmap_cons in Hnd.
  assert (tool_id t ∉ m.*1) as Hnot.
  { apply NoDup_app in Hnd as (_ & Hdisj & _). intros Hin. apply (Hdisj _ Hin). by left. }
  rewrite mapSet_fresh by done. rewrite IH.
  - by rewrite <- app_assoc.
  - rewrite fmap_app. simpl. rewrite <- app_assoc. done.
Qed.

Lemma values_ids (m : list (Id * ToolUsage)) :
  (forall k v, (k, v) ∈ m -> tool_id v = k) -> tool_id <$> m.*2 = m.*1.
Proof.
  induction m as [|[k v] rest IH]; intros Hval; [done|].
  rewrite !fmap_cons. simpl. rewrite (Hval k v) by (by left). f_equal.
  apply IH. intros k' v' Hin. apply Hval. by right.
Qed.

(** X1: the tools of the rebuilt message are the union by id of the
    message's own tools [a] and the builder's tools [b], the message's own
    entries winning: an id is in the result exactly when it is in [a] or in
    [b]; a result entry whose id occurs in [a] is an entry of [a], any other
    is an entry of [b]. When both lists are non-empty the result has no id
    twice; when the ids of [a] are distinct, [a] is kept, in order, at the
    front of the result. An empty list on one side returns the other side
    as it is. *)
Theorem mergeTools_union (a b : list ToolUsage) :
  (forall i, i ∈ tool_id <$> mergeTools a b <-> i ∈ tool_id <$> a \/ i ∈ tool_id <$> b) /\
  (forall t, t ∈ mergeTools a b -> tool_id t ∈ tool_id <$> a -> t ∈ a) /\
  (forall t, t ∈ mergeTools a b -> tool_id t ∉ tool_id <$> a -> t ∈ b) /\
  (a <> [] -> b <> [] -> NoDup (tool_id <$> mergeTools a b)) /\
  (NoDup (tool_id <$> a) -> exists extra, mergeTools a b = a ++ extra) /\
  mergeTools [] b = b /\
  mergeTools a [] = a.
Proof.
  destruct a as [|t a].
  { cbn [mergeTools]. split; [intros i; split; [by right|by intros [?%elem_of_nil|?]]|].
    split; [by intros ? _ ?%elem_of_nil|]. split; [done|]. split; [done|].
    split; [by exists b|done]. }
  destruct b as [|u b].
  { cbn [mergeTools]. split; [intros i; split; [by left|by intros [?|?%elem_of_nil]]|].
    split; [done|]. split; [intros x Hin Hnot; destruct Hnot; by apply list_elem_of_fmap_2|].
    split; [done|]. split; [exists []; by rewrite app_nil_r|done]. }
  unfold mergeTools.
  set (m1 := fold_left (fun m x => mapSet (tool_id x) x m) (t :: a) []).
  set (m2 := fold_left _ (u :: b) m1).
  destruct (mergeTools_first_loop (t :: a) [] []) as (Hnd1 & Hkeys1 & Hvals1).
  { constructor. } { done. } { by intros k v ?%elem_of_nil. }
  fold m1 in Hnd1, Hkeys1, Hvals1. rewrite app_nil_l in Hkeys1, Hvals1.
  destruct (mergeTools_second_loop (tool_id <$> t :: a) (u :: b) m1 [])
    as (Hnd2 & Hkeys2 & Hvals2 & extra & Hm2).
  { done. }
  { intros k. rewrite Hkeys1. split; [by left|]. by intros [?|?%elem_of_nil]. }
  { intros k v Hin. destruct (Hvals1 k v Hin) as [Hv Hid]. split; [done|]. left.
    apply Hkeys1. rewrite <- Hid. apply list_elem_of_fmap. by exists (k, v). }
  fold m2 in Hnd2, Hkeys2, Hvals2, Hm2. rewrite app_nil_l in Hkeys2, Hvals2.
  assert (tool_id <$> m2.*2 = m2.*1) as Hids.
  { apply values_ids. intros k v Hin. by apply Hvals2. }
  assert (forall x, x ∈ m2.*2 ->
            (tool_id x, x) ∈ m1 \/ ((tool_id x, x) ∈ extra /\ tool_id x ∉ m1.*1)) as Hsplit.
  { intros x Hx. apply list_elem_of_fmap in Hx as ([k v] & -> & Hin). simpl.
    destruct (Hvals2 k v Hin) as [<- _]. rewrite Hm2 in Hin.
    apply elem_of_app in Hin as [Hin|Hin]; [by left|right]. split; [done|].
    rewrite Hm2, fmap_app in Hnd2. apply NoDup_app in Hnd2 as (_ & Hdisj & _).
    intros Hk. apply (Hdisj _ Hk). apply list_elem_of_fmap. by exists (tool_id v, v). }
  split; [intros i; by rewrite Hids, Hkeys2|].
  split.
  { intros x Hx Hida. destruct (Hsplit x Hx) as [Hin|[_ Hnot]].
    - by destruct (Hvals1 _ _ Hin).
    - destruct Hnot. by apply Hkeys1. }
  split.
  { intros x Hx Hnot. destruct (Hsplit x Hx) as [Hin|[Hin _]].
    - destruct Hnot. apply Hkeys1. apply list_elem_of_fmap. by exists (tool_id x, x).
    - assert ((tool_id x, x) ∈ m2) as Hin2 by (rewrite Hm2; apply elem_of_app; by right).
      destruct (Hvals2 _ _ Hin2) as [_ [?|?]]; done. }
  split; [intros _ _; by rewrite Hids|].
  split; [|done].
  intros Hnda. exists (extra.*2). rewrite Hm2, fmap_app. f_equal.
  subst m1. rewrite mergeTools_first_loop_fresh by done.
  rewrite app_nil_l, <- list_fmap_compose. apply list_fmap_id.
Qed.

Lemma mergeTools_union_witness :
  NoDup (tool_id <$> mergeTools heldTools builtTools) /\
  (exists extra, mergeTools heldTools builtTools = heldTools ++ extra) /\
  mergeTools heldTools builtTools
    = [sampleTool "t1" Executing None; sampleTool "t2" Queued None;
       sampleTool "t3" Success None].
Proof.
  destruct (mergeTools_union heldTools builtTools) as (_ & _ & _ & Hnd & Hprefix & _).
  split; [by apply Hnd|]. split; [|reflexivity].
  apply Hprefix. apply NoDup_cons. split; [|apply NoDup_singleton].
  intros Hin. apply list_elem_of_singleton in Hin. discriminate Hin.
Defined.

(** ** The awaiting-confirmation handler *)






(** ** What the hidden function-response messages hold after an event *)

Lemma existingResponseIds_appendFunctionResponses (clk : Clock)
    (rs : list ToolResultEntry) (all : list Message) :
  existingResponseIds (appendFunctionResponses clk (Some rs) all)
    = existingResponseIds all
      ++ omap tr_id (filter (fun r => isNewResult (existingResponseIds all) r = true) rs).
Proof.
  unfold appendFunctionResponses. destruct rs as [|r rs].
  { by rewrite app_nil_r. }
  pose proof (responseIdsOf_responseMessage clk (existingResponseIds all) (r :: rs)) as Hids.
  destruct (newResponseParts (existingResponseIds all) (r :: rs)) as [|p ps] eqn:Hparts.
  - unfold newResponseParts in Hparts. apply fmap_nil_inv in Hparts.
    rewrite Hparts. by rewrite app_nil_r.
  - rewrite existingResponseIds_app. f_equal.
    unfold existingResponseIds. simpl. rewrite app_nil_r. exact Hids.
Qed.

Lemma omap_filter_sublist (P : ToolResultEntry -> Prop) `{!forall r, Decision (P r)}
    (rs : list ToolResultEntry) :
  omap tr_id (filter P rs) `sublist_of` omap tr_id rs.
Proof.
  induction rs as [|r rs IH]; [done|].
  rewrite filter_cons.
  change (omap tr_id (r :: rs)) with
    (match tr_id r with Some y => y :: omap tr_id rs | None => omap tr_id rs end).
  destruct (decide (P r)).
  - change (omap tr_id (r :: filter P rs)) with
      (match tr_id r with
       | Some y => y :: omap tr_id (filter P rs)
       | None => omap tr_id (filter P rs)
       end).
    destruct (tr_id r); [by constructor|done].
  - destruct (tr_id r); [by constructor|done].
Qed.

(** X3: after [handleAwaitingConfirmation] and after [handleToolIteration],
    every id carried by a result of the event is held by a hidden
    function-response message of the history: either it was held already,
    or the handler has appended a part for it. *)
Theorem results_materialised `{Collaborators}
    (chunk : StreamChunk) (state : ChatStoreState) (modelName : string)
    (sink : CheckpointSink) (clk newClk : Clock)
    (rs : list ToolResultEntry) (r : ToolResultEntry) (tid : Id) :
  toolResults chunk = Some rs ->
  r ∈ rs ->
  tr_id r = Some tid ->
  tid ∈ existingResponseIds (allMessages (handleAwaitingConfirmation chunk state sink clk)) /\
  tid ∈ existingResponseIds
          (allMessages (handleToolIteration chunk state modelName sink clk newClk)).
Proof.
  intros Hrs Hin Hid.
  assert (forall all, tid ∈ existingResponseIds (appendFunctionResponses clk (Some rs) all))
    as Hheld.
  { intros all. rewrite existingResponseIds_appendFunctionResponses, elem_of_app.
    destruct (decide (tid ∈ existingResponseIds all)) as [|Hnew]; [by left|right].
    apply list_elem_of_omap. exists r. split; [|done].
    apply list_elem_of_filter. split; [|done].
    unfold isNewResult. rewrite Hid. by apply bool_decide_eq_true. }
  split.
  - rewrite (proj2 (handleAwaitingConfirmation_messages chunk state sink clk)), Hrs.
    apply Hheld.
  - rewrite handleToolIteration_messages, Hrs, existingResponseIds_app, elem_of_app.
    left. apply Hheld.
Qed.

Lemma results_materialised_witness :
  "t1" ∈ existingResponseIds
           (allMessages (handleAwaitingConfirmation confirmationEvent twoToolState
                           appendCheckpoint respClock)) /\
  "t1" ∈ existingResponseIds
           (allMessages (handleToolIteration confirmationEvent twoToolState "model"
                           appendCheckpoint respClock nextClock)).
Proof.
  apply (results_materialised confirmationEvent twoToolState "model" appendCheckpoint
           respClock nextClock [resultOfT1] resultOfT1 "t1"); [reflexivity|by left|reflexivity].
Defined.

(** X4: the hidden function-response messages never come to hold an id
    twice through these handlers, as long as the event lists no id twice:
    if the ids held by the history are distinct, the ids carried by the
    event's results are distinct, and the in-flight message is not rebuilt
    into a hidden function-response message, the ids held after
    [handleAwaitingConfirmation] and after [handleToolIteration] are
    distinct. *)
Theorem responseIds_stay_distinct `{Collaborators}
    (chunk : StreamChunk) (state : ChatStoreState) (modelName : string)
    (sink : CheckpointSink) (clk newClk : Clock) :
  (forall c i, NotCarrier (contentToMessage c i)) ->
  (forall m, m ∈ allMessages state ->
     streamingMessageId state = Some (msg_id m) -> NotCarrier m) ->
  NoDup (existingResponseIds (allMessages state)) ->
  NoDup (omap tr_id (default [] (toolResults chunk))) ->
  NoDup (existingResponseIds
           (allMessages (handleAwaitingConfirmation chunk state sink clk))) /\
  NoDup (existingResponseIds
           (allMessages (handleToolIteration chunk state modelName sink clk newClk))).
Proof.
  intros Hbuilder Hinflight Hnd Hrs.
  assert (forall all,
            existingResponseIds all = existingResponseIds (allMessages state) ->
            NoDup (existingResponseIds (appendFunctionResponses clk (toolResults chunk) all)))
    as Happ.
  { intros all Hsame. destruct (toolResults chunk) as [rs|];
      [|cbn [appendFunctionResponses]; by rewrite Hsame].
    rewrite existingResponseIds_appendFunctionResponses, Hsame.
    apply NoDup_app. split; [done|]. split.
    - intros i Hi Hin. apply list_elem_of_omap in Hin as (r & Hr & Hid).
      apply list_elem_of_filter in Hr as [Hnew _]. unfold isNewResult in Hnew.
      rewrite Hid in Hnew. by apply bool_decide_eq_true in Hnew.
    - eapply sublist_NoDup; [exact Hrs|]. apply omap_filter_sublist. }
  split.
  - rewrite (proj2 (handleAwaitingConfirmation_messages chunk state sink clk)).
    apply Happ. destruct (content chunk) as [c|]; [|done].
    destruct (rebuild_keeps_responseIds (streamingMessageId state) (allMessages state)
                (awaitingConfirmationMessage chunk c) Hinflight) as [Hids _].
    { intros m. by apply awaitingConfirmationMessage_notCarrier. }
    by apply (countResponses_ids "" _ _ Hids).
  - rewrite handleToolIteration_messages, existingResponseIds_app.
    assert (existingResponseIds
              (if hasCancelledTools chunk then []
               else [newAssistantMessage newClk modelName]) = []) as ->
      by (by destruct (hasCancelledTools chunk)).
    rewrite app_nil_r. apply Happ.
    destruct (rebuild_keeps_responseIds (streamingMessageId state) (allMessages state)
                (toolIterationMessage chunk) Hinflight) as [Hids _].
    { intros m. by apply toolIterationMessage_notCarrier. }
    by apply (countResponses_ids "" _ _ Hids).
Qed.

Lemma responseIds_stay_distinct_witness :
  NoDup (existingResponseIds
           (allMessages (handleAwaitingConfirmation confirmationEvent twoToolState
                           appendCheckpoint respClock))) /\
  NoDup (existingResponseIds
           (allMessages (handleToolIteration iterationEvent twoToolState "model"
                           appendCheckpoint respClock nextClock))).
Proof.
  split.
  - apply (responseIds_stay_distinct confirmationEvent twoToolState "model"
             appendCheckpoint respClock nextClock).
    + intros c i. unfold NotCarrier. simpl. discriminate.
    + intros m Hm _. apply list_elem_of_singleton in Hm as ->. unfold NotCarrier.
      simpl. discriminate.
    + constructor.
    + apply NoDup_singleton.
  - apply (responseIds_stay_distinct iterationEvent twoToolState "model"
             appendCheckpoint respClock nextClock).
    + intros c i. unfold NotCarrier. simpl. discriminate.
    + intros m Hm _. apply list_elem_of_singleton in Hm as ->. unfold NotCarrier.
      simpl. discriminate.
    + constructor.
    + apply NoDup_cons. split; [|apply NoDup_singleton].
      intros Hin. apply list_elem_of_singleton in Hin. discriminate Hin.
Defined.

(** ** The model version of a message *)


Section ModelVersion.
Context `{Collaborators}.





End ModelVersion.



(** ** The end of a turn, and events that find no message in flight *)

(** X6: [handleComplete] ends the turn. It clears [streamingMessageId] and
    both flags, hands the event's checkpoints to [addCheckpoint] in order,
    and keeps the number of messages. The message [streamingMessageId] names
    is replaced in its slot by the rebuilt message, marked not streaming and
    not local-only, and every other slot is as it was; when no message is
    named, [allMessages] is unchanged. After it, a second [complete] event
    changes no message. *)
Theorem handleComplete_spec `{Collaborators}
    (chunk : StreamChunk) (state : ChatStoreState) (sink : CheckpointSink) :
  let state' := handleComplete chunk state sink in
  streamingMessageId state' = None /\
  isStreaming state' = false /\
  isWaitingForResponse state' = false /\
  checkpointList state'
    = fold_left (fun acc cp => sink cp acc) (default [] (checkpoints chunk))
        (checkpointList state) /\
  length (allMessages state') = length (allMessages state) /\
  (forall i message,
     findMessage (streamingMessageId state) (allMessages state) = Some (i, message) ->
     (exists m', allMessages state' !! i = Some m' /\
                 msg_streaming m' = Some false /\ msg_localOnly m' = Some false) /\
     forall j, j <> i -> allMessages state' !! j = allMessages state !! j) /\
  (findMessage (streamingMessageId state) (allMessages state) = None ->
   allMessages state' = allMessages state) /\
  forall chunk' sink',
    allMessages (handleComplete chunk' state' sink') = allMessages state'.
Proof.
  intros state'.
  assert (streamingMessageId state' = None) as Hsid by done.
  split; [done|]. split; [done|]. split; [done|].
  split.
  { subst state'. unfold handleComplete.
    cbn [checkpointList setIsWaitingForResponse setIsStreaming setStreamingMessageId].
    unfold addCheckpoints.
    destruct (checkpoints chunk) as [cps|]; cbn [default fold_left checkpointList setCheckpoints];
      destruct (findMessage _ _) as [[i m]|]; try done;
      by destruct (flushToolCallBuffer m (toolCallBuffer state)). }
  assert (allMessages state'
          = match findMessage (streamingMessageId state) (allMessages state) with
            | Some (i, m) =>
                replaceAt i
                  (completeMessage chunk (fst (flushToolCallBuffer m (toolCallBuffer state))))
                  (allMessages state)
            | None => allMessages state
            end) as Hall.
  { subst state'. unfold handleComplete.
    cbn [allMessages setIsWaitingForResponse setIsStreaming setStreamingMessageId].
    rewrite (proj1 (addCheckpoints_fields _ _ _)).
    destruct (findMessage _ _) as [[i m]|]; [|done].
    by destruct (flushToolCallBuffer m (toolCallBuffer state)). }
  split.
  { rewrite Hall. destruct (findMessage _ _) as [[i m]|] eqn:Hfind; [|done].
    apply replaceAt_length. apply findMessage_lookup in Hfind.
    by apply lookup_lt_Some in Hfind. }
  split.
  { intros i message Hfind. rewrite Hall, Hfind.
    pose proof (lookup_lt_Some _ _ _ (findMessage_lookup _ _ _ _ Hfind)) as Hlt.
    split.
    - eexists. split; [by apply replaceAt_lookup|]. done.
    - intros j Hne. by apply replaceAt_lookup_ne. }
  split.
  { intros Hnone. by rewrite Hall, Hnone. }
  intros chunk' sink'. unfold handleComplete at 1. rewrite Hsid.
  cbn [findMessage allMessages setIsWaitingForResponse setIsStreaming setStreamingMessageId].
  by rewrite (proj1 (addCheckpoints_fields _ _ _)).
Qed.

Lemma handleComplete_spec_witness :
  findMessage (streamingMessageId versionedState) (allMessages versionedState)
    = Some (0, versionedMessage) /\
  exists m', allMessages (handleComplete emptyChunk versionedState appendCheckpoint) !! 0
               = Some m' /\
             msg_streaming m' = Some false /\ msg_localOnly m' = Some false.
Proof.
  split; [reflexivity|].
  pose proof (handleComplete_spec emptyChunk versionedState appendCheckpoint)
    as (_ & _ & _ & _ & _ & Hslot & _).
  exact (proj1 (Hslot 0 versionedMessage eq_refl)).
Defined.

(** X16: events that find no message in flight ([streamingMessageId] is
    null, or names no message of the window). A content delta is dropped: the
    store is unchanged. A tools-executing event still sets [isStreaming]. An
    awaiting-confirmation event still appends the hidden message of its new
    results, and nothing else. A tool-iteration event does the same and,
    unless a result with an id is flagged cancelled, still appends the
    placeholder of a next turn and names it in [streamingMessageId]. A
    complete or an error event changes no message. *)
Theorem no_message_in_flight `{Collaborators}
    (chunk : StreamChunk) (state : ChatStoreState) (modelName : string)
    (sink : CheckpointSink) (clk newClk : Clock) :
  findMessage (streamingMessageId state) (allMessages state) = None ->
  handleChunkType chunk state = state /\
  handleToolsExecuting chunk state = setIsStreaming true state /\
  allMessages (handleAwaitingConfirmation chunk state sink clk)
    = appendFunctionResponses clk (toolResults chunk) (allMessages state) /\
  allMessages (handleToolIteration chunk state modelName sink clk newClk)
    = appendFunctionResponses clk (toolResults chunk) (allMessages state)
      ++ (if hasCancelledTools chunk then [] else [newAssistantMessage newClk modelName]) /\
  (hasCancelledTools chunk = false ->
   streamingMessageId (handleToolIteration chunk state modelName sink clk newClk)
     = Some (nextId newClk) /\
   isStreaming (handleToolIteration chunk state modelName sink clk newClk) = true /\
   isWaitingForResponse (handleToolIteration chunk state modelName sink clk newClk) = true) /\
  allMessages (handleComplete chunk state sink) = allMessages state /\
  allMessages (handleError chunk state) = allMessages state.
Proof.
  intros Hnone.
  split. { unfold handleChunkType. by rewrite Hnone. }
  split.
  { unfold handleToolsExecuting. cbn [streamingMessageId allMessages setIsStreaming].
    by rewrite Hnone. }
  split.
  { rewrite (proj2 (handleAwaitingConfirmation_messages chunk state sink clk)), Hnone.
    by destruct (content chunk). }
  split. { by rewrite handleToolIteration_messages, Hnone. }
  split. { intros Hnc. unfold handleToolIteration. by rewrite Hnc. }
  split.
  { unfold handleComplete. rewrite Hnone.
    cbn [allMessages setIsWaitingForResponse setIsStreaming setStreamingMessageId].
    by rewrite (proj1 (addCheckpoints_fields _ _ _)). }
  unfold handleError. cbn [streamingMessageId allMessages setStateError].
  unfold findMessage in Hnone.
  destruct (streamingMessageId state) as [sid|]; [|done].
  by rewrite Hnone.
Qed.

Lemma no_message_in_flight_witness :
  handleChunkType helloChunk (sampleState [runningTurnMessage] None)
    = sampleState [runningTurnMessage] None /\
  streamingMessageId
    (handleToolIteration iterationEvent (sampleState [runningTurnMessage] None) "model"
       appendCheckpoint respClock nextClock) = Some "asst-2".
Proof.
  pose proof (no_message_in_flight helloChunk (sampleState [runningTurnMessage] None)
                "model" appendCheckpoint respClock nextClock eq_refl) as (Hchunk & _).
  pose proof (no_message_in_flight iterationEvent (sampleState [runningTurnMessage] None)
                "model" appendCheckpoint respClock nextClock eq_refl)
    as (_ & _ & _ & _ & Hturn & _).
  split; [exact Hchunk|]. exact (proj1 (Hturn eq_refl)).
Defined.

(** ** Cancellation: the metadata of the kept message, and a repeated event *)

Lemma orElse_idemp {A} (b a : option A) : orElse b (orElse b a) = orElse b a.
Proof. by destruct b. Qed.

Lemma mergeTiming_idemp (c : option Content) (md : MessageMetadata) :
  mergeTiming c (mergeTiming c md) = mergeTiming c md.
Proof. destruct c as [c|]; [|done]. simpl. by rewrite !orElse_idemp. Qed.

Lemma cancelTool_idemp (t : ToolUsage) : cancelTool (cancelTool t) = cancelTool t.
Proof. unfold cancelTool. destruct (isNonFinal (tool_status t)) eqn:E; [done|]. by rewrite E. Qed.

Lemma cancelledMessage_idemp (chunk : StreamChunk) (m : Message) :
  cancelledMessage chunk (cancelledMessage chunk m) = cancelledMessage chunk m.
Proof.
  assert (forall ts : option (list ToolUsage),
            map cancelTool <$> (map cancelTool <$> ts) = map cancelTool <$> ts) as Htools.
  { intros [ts|]; [|done]. simpl. f_equal. rewrite map_map.
    apply map_ext. intros t. apply cancelTool_idemp. }
  unfold cancelledMessage. simpl. by rewrite mergeTiming_idemp, Htools.
Qed.

Lemma cancelledMessage_notEmpty (chunk : StreamChunk) (m : Message) :
  isEmptyMessage (cancelledMessage chunk m) = isEmptyMessage m.
Proof. unfold isEmptyMessage, hasPartsContent. simpl. by destruct (msg_tools m). Qed.

(** X14: a cancellation that keeps its message gives it a metadata object
    of its own: the timing fields the event's content defines
    ([thinkingDuration], [responseDuration], [streamDuration],
    [firstChunkTime], [chunkCount]) overwrite those of the message, every
    other metadata field ([modelVersion], [thinkingStartTime], usage and
    token counts) is kept, and without content the metadata is that of the
    message (empty if it had none). When the kept message is the last one and
    an assistant message, the same event applied once more changes nothing:
    the handler finds the message again through its fallback (the last
    assistant message that is not streaming) and rebuilds it as it is. *)
Theorem handleCancelled_metadata (chunk : StreamChunk) (state : ChatStoreState)
    (i : nat) (message : Message) :
  cancelTarget state = Some (i, message) ->
  ~ EmptyMessage message ->
  (exists m' md',
     allMessages (handleCancelled chunk state) !! i = Some m' /\
     msg_metadata m' = Some md' /\
     msg_timestamp m' = msg_timestamp message /\
     modelVersion md' = modelVersion (default emptyMetadata (msg_metadata message)) /\
     thinkingStartTime md' = thinkingStartTime (default emptyMetadata (msg_metadata message)) /\
     usageMetadata md' = usageMetadata (default emptyMetadata (msg_metadata message)) /\
     thoughtsTokenCount md'
       = thoughtsTokenCount (default emptyMetadata (msg_metadata message)) /\
     candidatesTokenCount md'
       = candidatesTokenCount (default emptyMetadata (msg_metadata message)) /\
     (content chunk = None -> md' = default emptyMetadata (msg_metadata message)) /\
     (forall c, content chunk = Some c ->
        thinkingDuration md'
          = match c_thinkingDuration c with
            | Some d => Some d
            | None => thinkingDuration (default emptyMetadata (msg_metadata message))
            end /\
        responseDuration md'
          = match c_responseDuration c with
            | Some d => Some d
            | None => responseDuration (default emptyMetadata (msg_metadata message))
            end /\
        streamDuration md'
          = match c_streamDuration c with
            | Some d => Some d
            | None => streamDuration (default emptyMetadata (msg_metadata message))
            end /\
        firstChunkTime md'
          = match c_firstChunkTime c with
            | Some d => Some d
            | None => firstChunkTime (default emptyMetadata (msg_metadata message))
            end /\
        chunkCount md'
          = match c_chunkCount c with
            | Some d => Some d
            | None => chunkCount (default emptyMetadata (msg_metadata message))
            end)) /\
  (S i = length (allMessages state) -> msg_role message = Assistant ->
   handleCancelled chunk (handleCancelled chunk state) = handleCancelled chunk state).
Proof.
  intros Htarget Hne. destruct (cancelTarget_Some _ _ _ Htarget) as [Hi _].
  pose proof (lookup_lt_Some _ _ _ Hi) as Hlt.
  assert (isEmptyMessage message = false) as Hempty.
  { destruct (isEmptyMessage message) eqn:E; [|done].
    exfalso. by apply Hne, isEmptyMessage_true. }
  assert (handleCancelled chunk state
          = setIsWaitingForResponse false (setIsStreaming false (setStreamingMessageId None
              (setAllMessages (replaceAt i (cancelledMessage chunk message) (allMessages state))
                 state)))) as Hstep.
  { unfold handleCancelled. by rewrite Htarget, Hempty. }
  split.
  - exists (cancelledMessage chunk message),
      (mergeTiming (content chunk) (default emptyMetadata (msg_metadata message))).
    split. { rewrite Hstep. simpl. by apply replaceAt_lookup. }
    split; [done|]. split; [done|].
    destruct (content chunk) as [c|]; simpl.
    + repeat (split; [done|]). by intros c' [= <-].
    + repeat (split; [done|]). done.
  - intros Hlast Hrole.
    assert (cancelTarget (handleCancelled chunk state)
            = Some (i, cancelledMessage chunk message)) as Htarget'.
    { rewrite Hstep. unfold cancelTarget.
      cbn [streamingMessageId allMessages setIsWaitingForResponse setIsStreaming
           setStreamingMessageId setAllMessages].
      assert (last (replaceAt i (cancelledMessage chunk message) (allMessages state))
              = Some (cancelledMessage chunk message)) as ->.
      { rewrite last_lookup, replaceAt_length by done. rewrite <- Hlast. simpl.
        by apply replaceAt_lookup. }
      rewrite replaceAt_length by done. rewrite <- Hlast. simpl.
      by rewrite Hrole. }
    unfold handleCancelled at 1. rewrite Htarget', cancelledMessage_notEmpty, Hempty.
    rewrite Hstep.
    cbn [allMessages setIsWaitingForResponse setIsStreaming setStreamingMessageId
         setAllMessages].
    rewrite cancelledMessage_idemp.
    rewrite (replaceAt_insert i _ (allMessages state)) by done.
    rewrite replaceAt_after_write.
    rewrite replaceAt_insert by done. done.
Qed.

Lemma handleCancelled_metadata_witness :
  (exists m' md',
     allMessages (handleCancelled timedCancelEvent versionedState) !! 0 = Some m' /\
     msg_metadata m' = Some md' /\
     modelVersion md' = Some "model-a" /\
     thinkingStartTime md' = Some 7%Z /\
     thinkingDuration md' = Some 3%Z /\
     responseDuration md' = None /\
     streamDuration md' = Some 9%Z) /\
  handleCancelled timedCancelEvent (handleCancelled timedCancelEvent versionedState)
    = handleCancelled timedCancelEvent versionedState.
Proof.
  assert (~ EmptyMessage versionedMessage) as Hne.
  { intros (_ & Htools & _). discriminate Htools. }
  destruct (handleCancelled_metadata timedCancelEvent versionedState 0 versionedMessage
              eq_refl Hne)
    as [(m' & md' & Hslot & Hmd & _ & Hmv & Hts & _ & _ & _ & _ & Htimes) Hagain].
  destruct (Htimes _ eq_refl) as (Htd & Hrd & Hsd & _).
  split; [|by apply Hagain].
  exists m', md'. repeat split; done.
Defined.

(** ** The placeholder of the next turn *)

Lemma filter_all_true {A} (P : A -> Prop) `{!forall x, Decision (P x)} (l : list A) :
  (forall x, x ∈ l -> P x) -> filter P l = l.
Proof.
  induction l as [|x l IH]; [done|]. intros Hall.
  rewrite filter_cons_True by (apply Hall; left).
  f_equal. apply IH. intros y Hy. apply Hall. by right.
Qed.

(** X17: the placeholder a tool-iteration event appends is removed again by
    a cancellation or an error that arrives before any content. If no result
    with an id is flagged cancelled, [contentToMessage] gives the message it
    builds the id it is handed, and the id generated for the placeholder is
    that of no message of the window nor of the hidden function-response
    message, then [handleToolIteration] appends the placeholder last, and
    [handleCancelled] as well as [handleError], applied next, yield exactly
    the messages before the placeholder. *)
Theorem placeholder_removed `{Collaborators}
    (chunk cancelEvent errorEvent : StreamChunk) (state : ChatStoreState)
    (modelName : string) (sink : CheckpointSink) (clk newClk : Clock) :
  hasCancelledTools chunk = false ->
  (forall c i, msg_id (contentToMessage c i) = i) ->
  (forall m, m ∈ allMessages state -> msg_id m <> nextId newClk) ->
  nextId clk <> nextId newClk ->
  exists before,
    allMessages (handleToolIteration chunk state modelName sink clk newClk)
      = before ++ [newAssistantMessage newClk modelName] /\
    length (allMessages state) <= length before /\
    allMessages (handleCancelled cancelEvent
                   (handleToolIteration chunk state modelName sink clk newClk)) = before /\
    allMessages (handleError errorEvent
                   (handleToolIteration chunk state modelName sink clk newClk)) = before.
Proof.
  intros Hnc Hbuilder Hfresh Hclk.
  set (rebuilt := match findMessage (streamingMessageId state) (allMessages state) with
                  | Some (i, m) => replaceAt i (toolIterationMessage chunk m) (allMessages state)
                  | None => allMessages state
                  end).
  set (before := appendFunctionResponses clk (toolResults chunk) rebuilt).
  set (state1 := handleToolIteration chunk state modelName sink clk newClk).
  assert (allMessages state1 = before ++ [newAssistantMessage newClk modelName]) as Hall.
  { subst state1. by rewrite handleToolIteration_messages, Hnc. }
  assert (streamingMessageId state1 = Some (nextId newClk)) as Hsid.
  { subst state1. unfold handleToolIteration. by rewrite Hnc. }
  assert (length rebuilt = length (allMessages state)) as Hlen.
  { subst rebuilt. destruct (findMessage _ _) as [[i m]|] eqn:Hfind; [|done].
    apply replaceAt_length. apply findMessage_lookup in Hfind.
    by apply lookup_lt_Some in Hfind. }
  assert (forall m, m ∈ rebuilt -> msg_id m <> nextId newClk) as Hfresh1.
  { subst rebuilt. destruct (findMessage _ _) as [[i m0]|] eqn:Hfind; [|done].
    intros m [->|Hin]%elem_of_replaceAt; [|by apply Hfresh].
    unfold toolIterationMessage. simpl. rewrite Hbuilder.
    apply Hfresh. apply findMessage_lookup in Hfind. by eapply list_elem_of_lookup_2. }
  assert (forall m, m ∈ before -> msg_id m <> nextId newClk) as Hfresh2.
  { subst before.
    destruct (appendFunctionResponses_cases clk (toolResults chunk) rebuilt)
      as [->|(parts & _ & ->)]; [done|].
    intros m [Hin|Hin]%elem_of_app; [by apply Hfresh1|].
    apply list_elem_of_singleton in Hin as ->. done. }
  assert (list_find (fun m => msg_id m = nextId newClk) (allMessages state1)
          = Some (length before, newAssistantMessage newClk modelName)) as Hfind.
  { rewrite Hall. apply list_find_Some. split; [by apply list_lookup_middle|].
    split; [done|]. intros j y Hj Hlt. rewrite lookup_app_l in Hj by done.
    apply Hfresh2. by eapply list_elem_of_lookup_2. }
  exists before. split; [done|]. split.
  { subst before.
    destruct (appendFunctionResponses_cases clk (toolResults chunk) rebuilt)
      as [->|(parts & _ & ->)]; rewrite ?length_app; lia. }
  split.
  - unfold handleCancelled, cancelTarget. rewrite Hsid, Hfind.
    change (isEmptyMessage (newAssistantMessage newClk modelName)) with true.
    cbn [allMessages setIsWaitingForResponse setIsStreaming setStreamingMessageId
         setAllMessages].
    rewrite Hall, delete_middle. by rewrite app_nil_r.
  - unfold handleError.
    cbn [streamingMessageId allMessages setStateError setIsWaitingForResponse
         setIsStreaming setStreamingMessageId setAllMessages].
    rewrite Hsid, Hfind.
    change (isEmptyMessage (newAssistantMessage newClk modelName)) with true.
    cbn [allMessages setIsWaitingForResponse setIsStreaming setStreamingMessageId
         setAllMessages].
    rewrite Hall, filter_app, filter_cons_False, filter_nil, app_nil_r
      by (intros Hid; by apply Hid).
    by apply filter_all_true.
Qed.

Lemma placeholder_removed_witness :
  length (allMessages (handleToolIteration iterationEvent twoToolState "model"
                         appendCheckpoint respClock nextClock)) = 3 /\
  length (allMessages
            (handleCancelled emptyChunk
               (handleToolIteration iterationEvent twoToolState "model" appendCheckpoint
                  respClock nextClock))) = 2 /\
  length (allMessages
            (handleError emptyChunk
               (handleToolIteration iterationEvent twoToolState "model" appendCheckpoint
                  respClock nextClock))) = 2.
Proof.
  destruct (placeholder_removed iterationEvent emptyChunk emptyChunk twoToolState "model"
              appendCheckpoint respClock nextClock)
    as (before & Hall & _ & Hcancel & Herror).
  - reflexivity.
  - done.
  - intros m Hin. apply list_elem_of_singleton in Hin as ->. discriminate.
  - discriminate.
  - assert (length (before ++ [newAssistantMessage nextClock "model"]) = 3) as Hlen
      by (rewrite <- Hall; reflexivity).
    rewrite length_app in Hlen. simpl in Hlen.
    rewrite Hcancel, Herror, Hall, length_app. simpl. lia.
Defined.

(** ** The size of the window and the other fields, event by event *)

Lemma rebuilt_length (sid : option Id) (all : list Message) (f : Message -> Message) :
  length match findMessage sid all with
         | Some (i, m) => replaceAt i (f m) all
         | None => all
         end = length all.
Proof.
  destruct (findMessage sid all) as [[i m]|] eqn:Hfind; [|done].
  apply replaceAt_length. apply findMessage_lookup in Hfind.
  by apply lookup_lt_Some in Hfind.
Qed.

Lemma appendFunctionResponses_length (clk : Clock)
    (results : option (list ToolResultEntry)) (all : list Message) :
  length all <= length (appendFunctionResponses clk results all) <= length all + 1.
Proof.
  destruct (appendFunctionResponses_cases clk results all) as [->|(parts & _ & ->)];
    rewrite ?length_app; simpl; lia.
Qed.

Lemma handleComplete_messages `{Collaborators}
    (chunk : StreamChunk) (state : ChatStoreState) (sink : CheckpointSink) :
  allMessages (handleComplete chunk state sink)
    = match findMessage (streamingMessageId state) (allMessages state) with
      | Some (i, m) =>
          replaceAt i
            (completeMessage chunk (fst (flushToolCallBuffer m (toolCallBuffer state))))
            (allMessages state)
      | None => allMessages state
      end.
Proof.
  unfold handleComplete.
  cbn [allMessages setIsWaitingForResponse setIsStreaming setStreamingMessageId].
  rewrite (proj1 (addCheckpoints_fields _ _ _)).
  destruct (findMessage _ _) as [[i m]|]; [|done].
  by destruct (flushToolCallBuffer m (toolCallBuffer state)).
Qed.

(** X13: how many messages an event can add to or take from the window. A
    content delta, a tools-executing, tool-status, complete or checkpoints
    event keeps the number of messages. An awaiting-confirmation event adds
    at most one (the hidden function-response message). A tool-iteration
    event adds at most one when a result with an id is flagged cancelled, and
    otherwise one or two (the placeholder, and the hidden message). A
    cancellation removes at most one message, and an error never adds one. *)
Theorem dispatch_window_size `{Collaborators}
    (kind : ChunkType) (chunk : StreamChunk) (env : Env) (state : ChatStoreState) :
  match kind with
  | TChunk | TToolsExecuting | TToolStatus | TComplete | TCheckpoints =>
      length (allMessages (dispatch kind chunk env state)) = length (allMessages state)
  | TAwaitingConfirmation =>
      length (allMessages state) <= length (allMessages (dispatch kind chunk env state))
        <= length (allMessages state) + 1
  | TToolIteration =>
      if hasCancelledTools chunk
      then length (allMessages state) <= length (allMessages (dispatch kind chunk env state))
             <= length (allMessages state) + 1
      else length (allMessages state) + 1
             <= length (allMessages (dispatch kind chunk env state))
             <= length (allMessages state) + 2
  | TCancelled =>
      length (allMessages state) - 1 <= length (allMessages (dispatch kind chunk env state))
        <= length (allMessages state)
  | TError =>
      length (allMessages (dispatch kind chunk env state)) <= length (allMessages state)
  end.
Proof.
  destruct kind; cbn [dispatch].
  - unfold handleChunkType.
    destruct (findMessage _ _) as [[i m]|]; [|done].
    destruct (bchunk chunk) as [bc|]; [|done].
    destruct (delta bc) as [d|]; [|done].
    destruct (chunkMessage bc d m (toolCallBuffer state)) as [m' buffer'].
    simpl. apply length_insert.
  - unfold handleToolsExecuting. cbn [streamingMessageId allMessages setIsStreaming].
    destruct (findMessage _ _) as [[i m]|] eqn:Hfind; [|done].
    destruct (content chunk) as [c|]; [|done].
    simpl. apply replaceAt_length. apply findMessage_lookup in Hfind.
    by apply lookup_lt_Some in Hfind.
  - destruct (handleToolStatus_unfold chunk state)
      as [->|(u & i & m & _ & _ & _ & _ & _ & ->)]; [done|].
    simpl. apply length_insert.
  - rewrite (proj2 (handleAwaitingConfirmation_messages _ _ _ _)).
    pose proof (appendFunctionResponses_length (respClk env) (toolResults chunk)
                  match content chunk with
                  | Some c =>
                      match findMessage (streamingMessageId state) (allMessages state) with
                      | Some (i, m) =>
                          replaceAt i (awaitingConfirmationMessage chunk c m)
                            (allMessages state)
                      | None => allMessages state
                      end
                  | None => allMessages state
                  end) as Hlen.
    assert (length match content chunk with
                   | Some c =>
                       match findMessage (streamingMessageId state) (allMessages state) with
                       | Some (i, m) =>
                           replaceAt i (awaitingConfirmationMessage chunk c m)
                             (allMessages state)
                       | None => allMessages state
                       end
                   | None => allMessages state
                   end = length (allMessages state)) as E.
    { destruct (content chunk) as [c|]; [|done].
      apply (rebuilt_length _ _ (awaitingConfirmationMessage chunk c)). }
    lia.
  - rewrite handleToolIteration_messages, length_app.
    pose proof (appendFunctionResponses_length (respClk env) (toolResults chunk)
                  match findMessage (streamingMessageId state) (allMessages state) with
                  | Some (i, m) =>
                      replaceAt i (toolIterationMessage chunk m) (allMessages state)
                  | None => allMessages state
                  end) as Hlen.
    rewrite (rebuilt_length _ _ (toolIterationMessage chunk)) in Hlen.
    destruct (hasCancelledTools chunk); simpl; lia.
  - rewrite handleComplete_messages.
    apply (rebuilt_length _ _
             (fun m => completeMessage chunk
                         (fst (flushToolCallBuffer m (toolCallBuffer state))))).
  - unfold handleCheckpoints. by rewrite (proj1 (addCheckpoints_fields _ _ _)).
  - unfold handleCancelled.
    destruct (cancelTarget state) as [[i m]|] eqn:Htarget; [|simpl; lia].
    destruct (cancelTarget_Some _ _ _ Htarget) as [Hi _].
    destruct (isEmptyMessage m); simpl.
    + rewrite length_delete by done. lia.
    + rewrite replaceAt_length by (by eapply lookup_lt_Some). lia.
  - unfold handleError. cbn [streamingMessageId allMessages setStateError].
    destruct (streamingMessageId state) as [sid|]; [|done].
    destruct (list_find _ _) as [[i m]|]; [|done].
    destruct (isEmptyMessage m); [|done].
    simpl. apply length_filter.
Qed.

(** X15: what the handlers leave alone. No event moves [windowStartIndex]
    or sets [historyFolded]; only an error event writes the store's error;
    the checkpoint list changes only by the event's checkpoints being handed
    to [addCheckpoint] in order, and only for awaiting-confirmation,
    tool-iteration, complete and checkpoints events; and the buffer of inline
    tool-call text is written only by the content-delta and the complete
    handler. *)
Theorem dispatch_frame `{Collaborators}
    (kind : ChunkType) (chunk : StreamChunk) (env : Env) (state : ChatStoreState) :
  windowStartIndex (dispatch kind chunk env state) = windowStartIndex state /\
  historyFolded (dispatch kind chunk env state) = historyFolded state /\
  (kind <> TError -> stateError (dispatch kind chunk env state) = stateError state) /\
  checkpointList (dispatch kind chunk env state)
    = match kind with
      | TAwaitingConfirmation | TToolIteration | TComplete | TCheckpoints =>
          fold_left (fun acc cp => addCheckpoint env cp acc) (default [] (checkpoints chunk))
            (checkpointList state)
      | _ => checkpointList state
      end /\
  match kind with
  | TChunk | TComplete => True
  | _ => toolCallBuffer (dispatch kind chunk env state) = toolCallBuffer state
  end.
Proof.
  destruct kind; cbn [dispatch].
  - unfold handleChunkType. handler_cases; done.
  - unfold handleToolsExecuting. handler_cases; done.
  - unfold handleToolStatus. handler_cases; done.
  - unfold handleAwaitingConfirmation, addCheckpoints.
    destruct (checkpoints chunk) as [cps|]; destruct (content chunk) as [c|];
      destruct (findMessage _ _) as [[i m]|]; done.
  - unfold handleToolIteration, addCheckpoints.
    destruct (hasCancelledTools chunk); destruct (checkpoints chunk) as [cps|];
      destruct (findMessage _ _) as [[i m]|]; done.
  - unfold handleComplete, addCheckpoints.
    destruct (checkpoints chunk) as [cps|]; destruct (findMessage _ _) as [[i m]|];
      try done; by destruct (flushToolCallBuffer m (toolCallBuffer state)).
  - unfold handleCheckpoints, addCheckpoints. by destruct (checkpoints chunk).
  - unfold handleCancelled. handler_cases; done.
  - unfold handleError. handler_cases; done.
Qed.

(** ** Two tool-status events *)

Lemma findLast_absent (P : Message -> bool) (all : list Message) :
  (forall m, m ∈ all -> P m = false) -> findLast P all = None.
Proof.
  intros Hall. destruct (findLast P all) as [[i x]|] eqn:Hf; [|done].
  apply findLast_Some in Hf as (Hi & HP & _).
  rewrite (Hall x) in HP; [done|]. by eapply list_elem_of_lookup_2.
Qed.

Lemma findLast_insert (P : Message -> bool) (all : list Message) (i : nat) (m m' : Message) :
  all !! i = Some m -> P m' = P m ->
  findLast P (<[i := m']> all)
    = match findLast P all with
      | Some (j, x) => Some (j, if decide (j = i) then m' else x)
      | None => None
      end.
Proof.
  intros Hi HP. pose proof (lookup_lt_Some _ _ _ Hi) as Hlt.
  destruct (findLast P all) as [[j x]|] eqn:Hf.
  - apply findLast_Some in Hf as (Hj & HPx & Hlater). apply findLast_greatest.
    + destruct (decide (j = i)) as [->|Hne].
      * by apply list_lookup_insert_eq.
      * by rewrite list_lookup_insert_ne.
    + destruct (decide (j = i)) as [->|Hne]; [|done]. rewrite HP. congruence.
    + intros k y Hk Hjk. destruct (decide (k = i)) as [->|Hne].
      * rewrite list_lookup_insert_eq in Hk by done. injection Hk as <-.
        rewrite HP. by apply (Hlater i m).
      * rewrite list_lookup_insert_ne in Hk by done. by apply (Hlater k y).
  - apply findLast_absent. intros y Hy.
    apply list_elem_of_lookup_1 in Hy as (k & Hk).
    destruct (decide (k = i)) as [->|Hne].
    + rewrite list_lookup_insert_eq in Hk by done. injection Hk as <-.
      rewrite HP. apply (findLast_None P all Hf). by eapply list_elem_of_lookup_2.
    + rewrite list_lookup_insert_ne in Hk by done.
      apply (findLast_None P all Hf). by eapply list_elem_of_lookup_2.
Qed.

Lemma list_find_insert_id (sid : Id) (all : list Message) (i : nat) (m m' : Message) :
  all !! i = Some m -> msg_id m' = msg_id m ->
  list_find (fun x => msg_id x = sid) (<[i := m']> all)
    = match list_find (fun x => msg_id x = sid) all with
      | Some (j, x) => Some (j, if decide (j = i) then m' else x)
      | None => None
      end.
Proof.
  intros Hi Hid. pose proof (lookup_lt_Some _ _ _ Hi) as Hlt.
  destruct (list_find (fun x => msg_id x = sid) all) as [[j x]|] eqn:Hf.
  - apply list_find_Some in Hf as (Hj & Hx & Hfirst). apply list_find_Some.
    split; [|split].
    + destruct (decide (j = i)) as [->|Hne].
      * by apply list_lookup_insert_eq.
      * by rewrite list_lookup_insert_ne.
    + destruct (decide (j = i)) as [->|Hne]; [|done]. rewrite Hid. congruence.
    + intros k y Hk Hkj. destruct (decide (k = i)) as [->|Hne].
      * rewrite list_lookup_insert_eq in Hk by done. injection Hk as <-.
        rewrite Hid. by apply (Hfirst i m).
      * rewrite list_lookup_insert_ne in Hk by done. by apply (Hfirst k y).
  - apply list_find_None. apply list_find_None in Hf.
    rewrite Forall_forall in Hf. apply Forall_forall. intros y Hy.
    apply list_elem_of_lookup_1 in Hy as (k & Hk).
    destruct (decide (k = i)) as [->|Hne].
    + rewrite list_lookup_insert_eq in Hk by done. injection Hk as <-.
      rewrite Hid. apply Hf. by eapply list_elem_of_lookup_2.
    + rewrite list_lookup_insert_ne in Hk by done.
      apply Hf. by eapply list_elem_of_lookup_2.
Qed.

Lemma applyToolUpdate_id (u : ToolStatusUpdate) (t : ToolUsage) :
  tool_id (applyToolUpdate u t) = tool_id t.
Proof. unfold applyToolUpdate. by destruct (decide _). Qed.

(** A tool-status update changes neither which tools a message holds nor
    its role: the message owns the same tools afterwards. *)
Lemma ownsTool_toolStatusMessage (tid : Id) (u : ToolStatusUpdate) (m : Message) :
  ownsTool tid (toolStatusMessage u m) = ownsTool tid m.
Proof.
  unfold ownsTool, toolStatusMessage. simpl. f_equal.
  destruct (msg_tools m) as [ts|]; [|done]. simpl.
  induction ts as [|t ts IH]; [done|]. simpl. by rewrite applyToolUpdate_id, IH.
Qed.

Lemma findToolOwner_after (tid : Id) (u : ToolStatusUpdate) (state : ChatStoreState)
    (i : nat) (m : Message) :
  allMessages state !! i = Some m ->
  findToolOwner tid
    (setAllMessages (<[i := toolStatusMessage u m]> (allMessages state)) state)
  = match findToolOwner tid state with
    | Some (j, x) => Some (j, if decide (j = i) then toolStatusMessage u m else x)
    | None => None
    end.
Proof.
  intros Hi. unfold findToolOwner.
  cbn [allMessages streamingMessageId setAllMessages].
  rewrite (findLast_insert _ _ _ m) by (done || apply ownsTool_toolStatusMessage).
  destruct (streamingMessageId state) as [sid|]; [|done].
  rewrite (list_find_insert_id _ _ _ m) by done.
  destruct (list_find (fun x => msg_id x = sid) (allMessages state)) as [[j x]|] eqn:Hf;
    [|done].
  destruct (decide (j = i)) as [->|Hne].
  - apply list_find_Some in Hf as (Hj & _). assert (x = m) as -> by congruence.
    rewrite ownsTool_toolStatusMessage.
    destruct (ownsTool tid m); [|done]. by rewrite decide_True.
  - destruct (ownsTool tid x); [|done]. by rewrite decide_False.
Qed.

Lemma handleToolStatus_step (chunk : StreamChunk) (u : ToolStatusUpdate)
    (state : ChatStoreState) :
  toolStatus chunk = true -> tool chunk = Some u ->
  handleToolStatus chunk state
    = match findToolOwner (upd_id u) state with
      | Some (i, m) =>
          setAllMessages (<[i := toolStatusMessage u m]> (allMessages state)) state
      | None => state
      end.
Proof.
  intros Hflag Htool. unfold handleToolStatus. rewrite Hflag, Htool. simpl.
  destruct (findToolOwner (upd_id u) state) as [[i m]|] eqn:Hown; [|done].
  apply findToolOwner_Some in Hown as [Hi _].
  by rewrite replaceAt_insert by (by eapply lookup_lt_Some).
Qed.

Lemma setAllMessages_twice (l1 l2 : list Message) (s : ChatStoreState) :
  setAllMessages l2 (setAllMessages l1 s) = setAllMessages l2 s.
Proof. done. Qed.

Lemma orElse_assoc {A} (a b c : option A) : orElse a (orElse b c) = orElse (orElse a b) c.
Proof. by destruct a. Qed.

Lemma toolStatusMessage_merge (u1 u2 : ToolStatusUpdate) (m : Message) :
  upd_id u1 = upd_id u2 ->
  toolStatusMessage u2 (toolStatusMessage u1 m)
    = toolStatusMessage
        (mkToolStatusUpdate (upd_id u2) (upd_status u2)
           (orElse (upd_result u2) (upd_result u1))) m.
Proof.
  intros Hid.
  assert (forall t,
            applyToolUpdate u2 (applyToolUpdate u1 t)
            = applyToolUpdate
                (mkToolStatusUpdate (upd_id u2) (upd_status u2)
                   (orElse (upd_result u2) (upd_result u1))) t) as Htool.
  { intros t. unfold applyToolUpdate. simpl. rewrite <- Hid.
    destruct (decide (tool_id t = upd_id u1)) as [E|E]; simpl.
    - rewrite decide_True by done. by rewrite orElse_assoc.
    - by rewrite decide_False. }
  unfold toolStatusMessage. simpl.
  destruct (msg_tools m) as [ts|]; [|done]. simpl.
  rewrite map_map. by rewrite (map_ext _ _ Htool).
Qed.

(** X18: two tool-status events for the same tool act as one. The second
    event reaches the message the first one reached, and the two together
    leave the store that a single event leaves which carries the second
    status and the second result, or the first result when the second event
    has none. *)
Theorem handleToolStatus_merge (chunk1 chunk2 chunk12 : StreamChunk)
    (u1 u2 : ToolStatusUpdate) (state : ChatStoreState) :
  toolStatus chunk1 = true -> tool chunk1 = Some u1 ->
  toolStatus chunk2 = true -> tool chunk2 = Some u2 ->
  toolStatus chunk12 = true ->
  tool chunk12
    = Some (mkToolStatusUpdate (upd_id u2) (upd_status u2)
              (orElse (upd_result u2) (upd_result u1))) ->
  upd_id u1 = upd_id u2 ->
  handleToolStatus chunk2 (handleToolStatus chunk1 state) = handleToolStatus chunk12 state.
Proof.
  intros Hf1 Ht1 Hf2 Ht2 Hf12 Ht12 Hid.
  rewrite (handleToolStatus_step chunk1 u1) by done.
  rewrite (handleToolStatus_step chunk12 _ state Hf12 Ht12). simpl. rewrite <- Hid.
  destruct (findToolOwner (upd_id u1) state) as [[i m]|] eqn:Hown.
  - destruct (findToolOwner_Some _ _ _ _ Hown) as [Hi _].
    rewrite (handleToolStatus_step chunk2 u2) by done. rewrite <- Hid.
    rewrite findToolOwner_after, Hown by done. rewrite decide_True by done.
    cbn [allMessages setAllMessages]. rewrite setAllMessages_twice, list_insert_insert_eq.
    by rewrite toolStatusMessage_merge, <- Hid.
  - rewrite (handleToolStatus_step chunk2 u2) by done. by rewrite <- Hid, Hown.
Qed.

Lemma handleToolStatus_merge_witness :
  handleToolStatus lateQueuedEvent (handleToolStatus toolFinishedEvent runningTurnState)
    = handleToolStatus
        (toolStatusEvent (mkToolStatusUpdate "t1" Queued (Some sampleResult)))
        runningTurnState.
Proof.
  apply (handleToolStatus_merge toolFinishedEvent lateQueuedEvent
           (toolStatusEvent (mkToolStatusUpdate "t1" Queued (Some sampleResult)))
           (mkToolStatusUpdate "t1" Success (Some sampleResult))
           (mkToolStatusUpdate "t1" Queued None)); reflexivity.
Defined.

Lemma toolStatusMessage_commute (u1 u2 : ToolStatusUpdate) (m : Message) :
  upd_id u1 <> upd_id u2 ->
  toolStatusMessage u2 (toolStatusMessage u1 m)
    = toolStatusMessage u1 (toolStatusMessage u2 m).
Proof.
  intros Hid.
  assert (forall t,
            applyToolUpdate u2 (applyToolUpdate u1 t)
            = applyToolUpdate u1 (applyToolUpdate u2 t)) as Htool.
  { intros t. unfold applyToolUpdate.
    repeat (case_decide; simpl in *); congruence. }
  unfold toolStatusMessage. simpl.
  destruct (msg_tools m) as [ts|]; [|done]. simpl.
  rewrite !map_map. by rewrite (map_ext _ _ Htool).
Qed.

(** X19: tool-status events for different tools commute: whichever of the
    two is applied first, the store is the same afterwards, whether the two
    tools belong to one message or to two, and whether or not either tool is
    found. *)
Theorem handleToolStatus_commute (chunk1 chunk2 : StreamChunk)
    (u1 u2 : ToolStatusUpdate) (state : ChatStoreState) :
  toolStatus chunk1 = true -> tool chunk1 = Some u1 ->
  toolStatus chunk2 = true -> tool chunk2 = Some u2 ->
  upd_id u1 <> upd_id u2 ->
  handleToolStatus chunk2 (handleToolStatus chunk1 state)
    = handleToolStatus chunk1 (handleToolStatus chunk2 state).
Proof.
  intros Hf1 Ht1 Hf2 Ht2 Hid.
  rewrite (handleToolStatus_step chunk1 u1 state) by done.
  rewrite (handleToolStatus_step chunk2 u2 state) by done.
  destruct (findToolOwner (upd_id u1) state) as [[i m]|] eqn:Hown1;
    destruct (findToolOwner (upd_id u2) state) as [[j x]|] eqn:Hown2.
  - destruct (findToolOwner_Some _ _ _ _ Hown1) as [Hi _].
    destruct (findToolOwner_Some _ _ _ _ Hown2) as [Hj _].
    rewrite (handleToolStatus_step chunk2 u2) by done.
    rewrite (handleToolStatus_step chunk1 u1) by done.
    rewrite !findToolOwner_after, Hown1, Hown2 by done.
    cbn [allMessages setAllMessages]. rewrite !setAllMessages_twice. f_equal.
    destruct (decide (j = i)) as [->|Hne].
    + assert (x = m) as -> by congruence. rewrite decide_True by done.
      rewrite !list_insert_insert_eq. by rewrite toolStatusMessage_commute.
    + rewrite decide_False by done. by apply list_insert_insert_ne.
  - destruct (findToolOwner_Some _ _ _ _ Hown1) as [Hi _].
    rewrite (handleToolStatus_step chunk2 u2) by done.
    rewrite (handleToolStatus_step chunk1 u1) by done.
    by rewrite findToolOwner_after, Hown1, Hown2 by done.
  - destruct (findToolOwner_Some _ _ _ _ Hown2) as [Hj _].
    rewrite (handleToolStatus_step chunk2 u2) by done.
    rewrite (handleToolStatus_step chunk1 u1) by done.
    by rewrite findToolOwner_after, Hown1, Hown2 by done.
  - rewrite (handleToolStatus_step chunk2 u2) by done.
    rewrite (handleToolStatus_step chunk1 u1) by done.
    by rewrite Hown1, Hown2.
Qed.

Lemma handleToolStatus_commute_witness :
  handleToolStatus (toolStatusEvent (mkToolStatusUpdate "t2" Error None))
    (handleToolStatus toolFinishedEvent runningTurnState)
  = handleToolStatus toolFinishedEvent
      (handleToolStatus (toolStatusEvent (mkToolStatusUpdate "t2" Error None))
         runningTurnState).
Proof.
  apply (handleToolStatus_commute toolFinishedEvent
           (toolStatusEvent (mkToolStatusUpdate "t2" Error None))
           (mkToolStatusUpdate "t1" Success (Some sampleResult))
           (mkToolStatusUpdate "t2" Error None)); (reflexivity || discriminate).
Defined.

(** ** The start of the window along a sequence of operations *)

Lemma dispatch_window_fields `{Collaborators}
    (kind : ChunkType) (chunk : StreamChunk) (env : Env) (state : ChatStoreState) :
  windowStartIndex (dispatch kind chunk env state) = windowStartIndex state /\
  historyFolded (dispatch kind chunk env state) = historyFolded state.
Proof.
  destruct kind; cbn [dispatch].
  - unfold handleChunkType. handler_cases; done.
  - unfold handleToolsExecuting. handler_cases; done.
  - unfold handleToolStatus. handler_cases; done.
  - unfold handleAwaitingConfirmation, addCheckpoints.
    destruct (checkpoints chunk) as [cps|]; destruct (content chunk) as [c|];
      destruct (findMessage _ _) as [[i m]|]; done.
  - unfold handleToolIteration, addCheckpoints.
    destruct (hasCancelledTools chunk); destruct (checkpoints chunk) as [cps|];
      destruct (findMessage _ _) as [[i m]|]; done.
  - unfold handleComplete, addCheckpoints.
    destruct (checkpoints chunk) as [cps|]; destruct (findMessage _ _) as [[i m]|];
      try done; by destruct (flushToolCallBuffer m (toolCallBuffer state)).
  - unfold handleCheckpoints, addCheckpoints. by destruct (checkpoints chunk).
  - unfold handleCancelled. handler_cases; done.
  - unfold handleError. handler_cases; done.
Qed.

Lemma perform_window_start `{Collaborators} (state : ChatStoreState) (op : Operation) :
  (windowStartIndex (perform state op) - windowStartIndex state
   = foldedMessageCount (perform state op) - foldedMessageCount state)%Z /\
  (windowStartIndex state <= windowStartIndex (perform state op))%Z /\
  (historyFolded state = true -> historyFolded (perform state op) = true) /\
  ((windowStartIndex state < windowStartIndex (perform state op))%Z ->
   historyFolded (perform state op) = true).
Proof.
  destruct op as [kind chunk env|maxCount|]; cbn [perform].
  - destruct (dispatch_window_fields kind chunk env state) as [-> ->].
    pose proof (dispatch_counters kind chunk env state) as E.
    unfold counters in E. injection E as -> _. repeat split; (done || lia).
  - unfold trimWindowFromTop.
    destruct (Z.leb_spec (Z.of_nat (length (allMessages state)) - Z.of_nat maxCount) 0);
      simpl; repeat split; (done || lia).
  - simpl. repeat split; (done || lia).
Qed.

(** X20: along every sequence of dispatched events, window trims and
    resynchronisations, the start of the window advances by exactly what
    [foldedMessageCount] accumulates and never moves back; [historyFolded],
    once set, stays set; and if the window has moved at all, [historyFolded]
    is set. *)
Theorem window_start_tracks_folded `{Collaborators}
    (ops : list Operation) (state : ChatStoreState) :
  (windowStartIndex (run ops state) - windowStartIndex state
   = foldedMessageCount (run ops state) - foldedMessageCount state)%Z /\
  (windowStartIndex state <= windowStartIndex (run ops state))%Z /\
  (historyFolded state = true -> historyFolded (run ops state) = true) /\
  ((windowStartIndex state < windowStartIndex (run ops state))%Z ->
   historyFolded (run ops state) = true).
Proof.
  revert state. unfold run. induction ops as [|op ops IH]; intros state; simpl.
  - repeat split; (done || lia).
  - destruct (IH (perform state op)) as (Hdiff & Hle & Hsticky & Hmoved).
    destruct (perform_window_start state op) as (Hdiff1 & Hle1 & Hsticky1 & Hmoved1).
    split; [lia|]. split; [lia|]. split; [by intros; apply Hsticky, Hsticky1|].
    intros Hlt.
    destruct (Z.lt_ge_cases (windowStartIndex state) (windowStartIndex (perform state op))).
    + by apply Hsticky, Hmoved1.
    + apply Hmoved. lia.
Qed.
